(** * The tool-invocation client layer of WhatsApp-Analyzer

    A shallow embedding of the three Python modules that carry protocol
    state, the properties the specification states about them, and
    further properties of the same code:

    - [McpClient]    : [mcp_client.py], the generic client (connect, close,
                       the retry loop of [execute_tool], [list_tools]);
    - [StdioClient]  : [mcp_stdio_client.py], the handshake client over a
                       child process' pipes, and the pipe path of the generic
                       client ([_execute_stdio_request]);
    - [RateLimiter]  : [_enforce_rate_limit] of [whatsapp_mcp_client.py];
    - [WhatsAppClient] : the methods of [WhatsAppMCPClient] that put the
                       limiter in front of the generic client ([initialize],
                       [authenticate], [get_connection_status], [list_chats],
                       [disconnect]).

    Conventions.  Python [int] is [Z]; Python [float] (delays, the readings
    of [time.time()]) is an IEEE 754 binary64 [float], with the rounding
    operations of [PrimFloat]; a [dict] keyed by server name is a
    [gmap string _]; a decoded JSON document is a [json] tree.
    A coroutine is a function on an explicit state that returns either a
    value or the exception it raises; the scheduler is not modelled, one
    coroutine runs at a time, and [asyncio.sleep] returns: it is recorded
    with the delay asked for.  (A delay of [+inf] or [nan] is outside this
    model; statements about what follows a sleep assume the delays are
    below [infinity].)  Everything outside the process (transports, the
    clock, [uuid4]) is read from an environment of scripts indexed by the
    number of earlier uses. *)

From Stdlib Require Import Sorted Floats.
From stdpp Require Import gmap strings list pretty.

Open Scope Z_scope.
Set Warnings "-register-all".

(** ** Python values, exceptions, outcomes *)

Module Py.

(** What [json.loads] produces (numbers restricted to integers). *)
Inductive json : Type :=
| JNull
| JBool (b : bool)
| JNum (n : Z)
| JStr (s : string)
| JArr (items : list json)
| JObj (fields : list (string * json)).

(** [d.get(key)] on the fields of a dict. *)
Fixpoint assoc (key : string) (fields : list (string * json)) : option json :=
  match fields with
  | [] => None
  | (k, v) :: rest => if String.eqb k key then Some v else assoc key rest
  end.

(** Truth value of a decoded document, as [if response and ...] tests it. *)
Definition truthy (j : json) : bool :=
  match j with
  | JNull => false
  | JBool b => b
  | JNum n => negb (n =? 0)
  | JStr s => negb (String.eqb s "")
  | JArr items => match items with [] => false | _ => true end
  | JObj fields => match fields with [] => false | _ => true end
  end.

(** [value == n] for a Python int [n]; [True == 1] and [False == 0] hold
    in Python. *)
Definition eq_int (j : json) (n : Z) : bool :=
  match j with
  | JNum m => m =? n
  | JBool b => (if b then 1 else 0) =? n
  | _ => false
  end.

(** The exception classes that occur in the modelled modules. *)
Inductive ExnClass : Type :=
| MCPClientError
| MCPConnectionError
| MCPToolError
| MCPAuthenticationError
| RuntimeError
| KeyError
| AttributeError
| IndexError
| PlainException
| OtherError (class_name : string).

Record PyExn : Type := mkExn { exn_class : ExnClass; exn_msg : string }.

(** [type(value).__name__] of a decoded document. *)
Definition type_name (value : json) : string :=
  match value with
  | JNull => "NoneType"
  | JBool _ => "bool"
  | JNum _ => "int"
  | JStr _ => "str"
  | JArr _ => "list"
  | JObj _ => "dict"
  end.

(** What [value.get(...)] raises when [value] is no dict. *)
Definition no_attribute_get (value : json) : PyExn :=
  mkExn AttributeError
    ("'" +:+ type_name value +:+ "' object has no attribute 'get'").

(** What [len(value)] raises when [value] has no length. *)
Definition no_len (value : json) : PyExn :=
  mkExn (OtherError "TypeError")
    ("object of type '" +:+ type_name value +:+ "' has no len()").

(** [isinstance(e, MCPConnectionError)]: the class has no subclass. *)
Definition is_connection_error (e : PyExn) : bool :=
  match exn_class e with MCPConnectionError => true | _ => false end.

(** [str(e)]. *)
Definition str (e : PyExn) : string := exn_msg e.

(** [f"{x}"] for a variable holding an exception or [None]. *)
Definition str_opt (e : option PyExn) : string :=
  match e with Some e => str e | None => "None" end.

Inductive Outcome (A : Type) : Type :=
| Return (a : A)
| Raise (e : PyExn).
Arguments Return {A} a.
Arguments Raise {A} e.

Definition raised {A} (o : Outcome A) : bool :=
  match o with Return _ => false | Raise _ => true end.

(** A coroutine over a state [S]: it ends with a value or an exception;
    what it changed before raising stays changed. *)
Definition Co (S A : Type) : Type := S → Outcome A * S.

Definition ret {S A} (a : A) : Co S A := fun s => (Return a, s).
Definition raise {S A} (e : PyExn) : Co S A := fun s => (Raise e, s).
Definition bind {S A B} (m : Co S A) (k : A → Co S B) : Co S B :=
  fun s => match m s with
           | (Return a, s') => k a s'
           | (Raise e, s') => (Raise e, s')
           end.
(** [try: a = body; on_ok(a)  except Exception as e: on_exn(e)], where
    only [body] is under the [try]. *)
Definition try_catch {S A B} (body : Co S A) (on_ok : A → Co S B)
    (on_exn : PyExn → Co S B) : Co S B :=
  fun s => match body s with
           | (Return a, s') => on_ok a s'
           | (Raise e, s') => on_exn e s'
           end.

Notation "x <- c ;; k" := (bind c (fun x => k))
  (at level 100, c at next level, right associativity).
Notation "c ;;; k" := (bind c (fun _ => k))
  (at level 100, right associativity).

End Py.
Export Py.

(** ** [mcp_client.py] *)

Module McpClient.

Inductive MCPConnectionType : Type := STDIO | SSE | WEBSOCKET.

Record MCPServerConfig : Type := mkConfig {
  name : string;
  connection_type : MCPConnectionType;
  endpoint : string;
  auth_token : option string;
  timeout : Z;
  max_retries : Z;
  retry_delay : float;
  health_check_interval : Z;
  session_timeout : Z;
  custom_headers : list (string * string)
}.

Record MCPSession : Type := mkSession {
  session_id : string;
  server_name : string;
  created_at : Z;
  last_activity : Z;
  is_active : bool;
  connection_info : list (string * json)
}.

(** An entry of [self.connections]: the ["type"] tag, the transport
    object (identified by the ordinal of the open that made it) and the
    endpoint. *)
Record Connection : Type := mkConnection {
  conn_type : MCPConnectionType;
  conn_handle : nat;
  conn_endpoint : string
}.

Record MCPClient : Type := mkClient {
  servers : gmap string MCPServerConfig;
  sessions : gmap string MCPSession;
  connections : gmap string Connection;
  _health_check_tasks : gmap string nat
}.

(** [MCPClient.__init__] *)
Definition init : MCPClient :=
  {| servers := ∅; sessions := ∅; connections := ∅; _health_check_tasks := ∅ |}.

(** The environment: what each use of an external facility does. *)
Record Env : Type := mkEnv {
  transport_open : nat → bool;            (* does the k-th open succeed *)
  transport_call : nat → Outcome json;    (* the k-th request round trip *)
  transport_close : nat → option PyExn;   (* does the k-th teardown raise *)
  uuid4 : nat → string;
  datetime_now : nat → Z
}.

(** What an observer of the client sees happen, in order. *)
Inductive Event : Type :=
| EvOpen (server : string) (ok : bool)
| EvAttempt (server tool : string)
| EvSleep (seconds : float)
| EvReconnect (server : string)
| EvCancel (task : nat)
| EvTeardown (server : string) (failure : option PyExn).

Record World : Type := mkWorld {
  opens : nat;
  calls : nat;
  closes : nat;
  uuids : nat;
  nows : nat;
  tasks : nat;
  trace : list Event
}.

Definition world0 : World :=
  {| opens := 0; calls := 0; closes := 0; uuids := 0; nows := 0; tasks := 0;
     trace := [] |}.

Record St : Type := mkSt { client : MCPClient; world : World }.

(** The coroutines of the client. *)
Abbreviation M := (Co St).

Definition get_client : M MCPClient := fun s => (Return (client s), s).
Definition set_client (f : MCPClient → MCPClient) : M unit :=
  fun s => (Return tt, {| client := f (client s); world := world s |}).
Definition set_world (f : World → World) : M unit :=
  fun s => (Return tt, {| client := client s; world := f (world s) |}).

Definition emit (ev : Event) : M unit :=
  set_world (fun w =>
    {| opens := opens w; calls := calls w; closes := closes w; uuids := uuids w;
       nows := nows w; tasks := tasks w; trace := trace w ++ [ev] |}).

Definition with_sessions (f : gmap string MCPSession → gmap string MCPSession)
    (c : MCPClient) : MCPClient :=
  {| servers := servers c; sessions := f (sessions c);
     connections := connections c; _health_check_tasks := _health_check_tasks c |}.
Definition with_connections (f : gmap string Connection → gmap string Connection)
    (c : MCPClient) : MCPClient :=
  {| servers := servers c; sessions := sessions c;
     connections := f (connections c); _health_check_tasks := _health_check_tasks c |}.
Definition with_tasks (f : gmap string nat → gmap string nat)
    (c : MCPClient) : MCPClient :=
  {| servers := servers c; sessions := sessions c;
     connections := connections c; _health_check_tasks := f (_health_check_tasks c) |}.
Definition with_servers (f : gmap string MCPServerConfig → gmap string MCPServerConfig)
    (c : MCPClient) : MCPClient :=
  {| servers := f (servers c); sessions := sessions c;
     connections := connections c; _health_check_tasks := _health_check_tasks c |}.

(** What converting an int of [2 ** 1024] or more to a float raises. *)
Definition overflow_error : PyExn :=
  mkExn (OtherError "OverflowError") "int too large to convert to float".

(** [asyncio.sleep(seconds)] *)
Definition sleep (seconds : float) : M unit := emit (EvSleep seconds).

Section Client.
Context (env : Env).

(** [datetime.now()] *)
Definition now : M Z :=
  fun s =>
    let w := world s in
    (Return (datetime_now env (nows w)),
     {| client := client s;
        world := {| opens := opens w; calls := calls w; closes := closes w;
                    uuids := uuids w; nows := S (nows w); tasks := tasks w;
                    trace := trace w |} |}).

(** [str(uuid.uuid4())] *)
Definition fresh_uuid : M string :=
  fun s =>
    let w := world s in
    (Return (uuid4 env (uuids w)),
     {| client := client s;
        world := {| opens := opens w; calls := calls w; closes := closes w;
                    uuids := S (uuids w); nows := nows w; tasks := tasks w;
                    trace := trace w |} |}).

(** [asyncio.create_task(self._health_check_loop(server_name))]: the loop
    itself runs under the scheduler; the client only keeps the handle. *)
Definition create_task : M nat :=
  fun s =>
    let w := world s in
    (Return (tasks w),
     {| client := client s;
        world := {| opens := opens w; calls := calls w; closes := closes w;
                    uuids := uuids w; nows := nows w; tasks := S (tasks w);
                    trace := trace w |} |}).

(** [add_server] *)
Definition add_server (config : MCPServerConfig) : M unit :=
  set_client (with_servers (fun m => <[name config := config]> m)).

(** The body shared by [_connect_sse], [_connect_websocket] and
    [_connect_stdio]: open the transport; on success store the connection
    record; every exception of the open is caught and turned into
    [False]. *)
Definition _connect_transport (kind : MCPConnectionType)
    (server_name : string) (config : MCPServerConfig) : M bool :=
  fun s =>
    let w := world s in
    let k := opens w in
    let ok := transport_open env k in
    let w' := {| opens := S k; calls := calls w; closes := closes w;
                 uuids := uuids w; nows := nows w; tasks := tasks w;
                 trace := trace w ++ [EvOpen server_name ok] |} in
    if ok
    then (Return true,
          {| client := with_connections
                         (fun m => <[server_name :=
                            {| conn_type := kind; conn_handle := k;
                               conn_endpoint := endpoint config |}]> m)
                         (client s);
             world := w' |})
    else (Return false, {| client := client s; world := w' |}).

Definition _connect_sse := _connect_transport SSE.
Definition _connect_websocket := _connect_transport WEBSOCKET.
Definition _connect_stdio := _connect_transport STDIO.

(** [connect] *)
Definition connect (server_name : string) : M bool :=
  c <- get_client ;;
  match servers c !! server_name with
  | None =>
      raise (mkExn MCPConnectionError
               ("Server '" +:+ server_name +:+ "' not configured"))
  | Some config =>
      try_catch
        (success <- (match connection_type config with
                     | SSE => _connect_sse server_name config
                     | WEBSOCKET => _connect_websocket server_name config
                     | STDIO => _connect_stdio server_name config
                     end) ;;
         if (success : bool) then
           sid <- fresh_uuid ;;
           t_created <- now ;;
           t_activity <- now ;;
           set_client (with_sessions (fun m =>
             <[server_name :=
                 {| session_id := sid; server_name := server_name;
                    created_at := t_created; last_activity := t_activity;
                    is_active := true; connection_info := [] |}]> m)) ;;;
           task <- create_task ;;
           set_client (with_tasks (fun m => <[server_name := task]> m)) ;;;
           ret true
         else ret false)
        ret
        (fun e =>
           raise (mkExn MCPConnectionError
                    ("Failed to connect to " +:+ server_name +:+ ": " +:+ str e)))
  end.

(** [_execute_tool_request]: look the connection up ([KeyError] when there
    is none), then one request round trip on its transport.  The three
    transports differ in framing only; what the round trip returns or
    raises is the environment's. *)
Definition _execute_tool_request (server_name tool_name : string)
    (arguments : json) (timeout : Z) : M json :=
  emit (EvAttempt server_name tool_name) ;;;
  c <- get_client ;;
  match connections c !! server_name with
  | None => raise (mkExn KeyError ("'" +:+ server_name +:+ "'"))
  | Some connection =>
      fun s =>
        let w := world s in
        (transport_call env (calls w),
         {| client := client s;
            world := {| opens := opens w; calls := S (calls w);
                        closes := closes w; uuids := uuids w; nows := nows w;
                        tasks := tasks w; trace := trace w |} |})
  end.

(** [config.retry_delay * (2 ** attempt)]: the int [2 ** attempt] is
    converted to a float for the product, which raises [OverflowError]
    from [2 ** 1024] on; below that the conversion is exact. *)
Definition backoff_delay (config : MCPServerConfig) (attempt : Z)
  : Outcome float :=
  if 1024 <=? attempt
  then Raise overflow_error
  else Return (retry_delay config * Z.ldexp 1 attempt)%float.

(** The [except] branch of the retry loop in [execute_tool]; an exception
    raised here leaves the loop and [execute_tool]. *)
Definition on_failure (config : MCPServerConfig) (server_name : string)
    (attempt : Z) (e : PyExn) : M unit :=
  if attempt <? max_retries config - 1 then
    delay <- (fun s => (backoff_delay config attempt, s)) ;;
    sleep delay ;;;
    if is_connection_error e then
      emit (EvReconnect server_name) ;;;
      connect server_name ;;;
      ret tt
    else ret tt
  else ret tt.

(** [for attempt in range(config.max_retries): ...] followed by the final
    [raise]; [remaining] counts the iterations still to run. *)
Fixpoint retry_loop (config : MCPServerConfig) (server_name tool_name : string)
    (arguments : json) (effective_timeout : Z)
    (remaining : nat) (attempt : Z) (last_exception : option PyExn) : M json :=
  match remaining with
  | O =>
      raise (mkExn MCPToolError
               ("Tool execution failed after " +:+ pretty (max_retries config)
                +:+ " attempts: " +:+ str_opt last_exception))
  | S remaining' =>
      try_catch
        (_execute_tool_request server_name tool_name arguments effective_timeout)
        ret
        (fun e =>
           on_failure config server_name attempt e ;;;
           retry_loop config server_name tool_name arguments effective_timeout
             remaining' (attempt + 1) (Some e))
  end.

(** [timeout or config.timeout] *)
Definition timeout_or (timeout : option Z) (default : Z) : Z :=
  match timeout with
  | Some t => if t =? 0 then default else t
  | None => default
  end.

(** [execute_tool] *)
Definition execute_tool (server_name tool_name : string) (arguments : json)
    (timeout_override : option Z) : M json :=
  c <- get_client ;;
  (match connections c !! server_name with
   | Some _ => ret tt
   | None =>
       connected <- connect server_name ;;
       if (connected : bool) then ret tt
       else raise (mkExn MCPConnectionError
                     ("Cannot connect to server: " +:+ server_name))
   end) ;;;
  c <- get_client ;;
  match servers c !! server_name with
  | None => raise (mkExn KeyError ("'" +:+ server_name +:+ "'"))
  | Some config =>
      let effective_timeout := timeout_or timeout_override (timeout config) in
      (match sessions c !! server_name with
       | Some session =>
           t <- now ;;
           set_client (with_sessions (fun m =>
             <[server_name :=
                 {| session_id := session_id session;
                    server_name := McpClient.server_name session;
                    created_at := created_at session; last_activity := t;
                    is_active := is_active session;
                    connection_info := connection_info session |}]> m))
       | None => ret tt
       end) ;;;
      retry_loop config server_name tool_name arguments effective_timeout
        (Z.to_nat (max_retries config)) 0 None
  end.

(** [result.get("tools", [])]: [AttributeError] when [result] is no dict. *)
Definition get_tools (result : json) : Outcome json :=
  match result with
  | JObj fields =>
      Return (match assoc "tools" fields with Some v => v | None => JArr [] end)
  | _ => Raise (no_attribute_get result)
  end.

(** [list_tools] *)
Definition list_tools (server_name : string) : M json :=
  try_catch
    (result <- execute_tool server_name "list_tools" (JObj []) None ;;
     fun s => (get_tools result, s))
    ret
    (fun e => ret (JArr [])).

(** Closing the transport object of a connection: [session.close()],
    [websocket.close()] or [process.terminate(); process.wait()]. *)
Definition teardown (server_name : string) : M unit :=
  fun s =>
    let w := world s in
    let failure := transport_close env (closes w) in
    let s' := {| client := client s;
                 world := {| opens := opens w; calls := calls w;
                             closes := S (closes w); uuids := uuids w;
                             nows := nows w; tasks := tasks w;
                             trace := trace w ++ [EvTeardown server_name failure] |} |} in
    match failure with
    | None => (Return tt, s')
    | Some e => (Raise e, s')
    end.

(** [_close_connection] *)
Definition _close_connection (server_name : string) : M unit :=
  try_catch
    (c <- get_client ;;
     (match _health_check_tasks c !! server_name with
      | Some task =>
          emit (EvCancel task) ;;;
          set_client (with_tasks (fun m => delete server_name m))
      | None => ret tt
      end) ;;;
     c <- get_client ;;
     (match connections c !! server_name with
      | Some connection =>
          teardown server_name ;;;
          set_client (with_connections (fun m => delete server_name m))
      | None => ret tt
      end) ;;;
     c <- get_client ;;
     (match sessions c !! server_name with
      | Some session =>
          set_client (with_sessions (fun m =>
            <[server_name :=
                {| session_id := session_id session;
                   server_name := McpClient.server_name session;
                   created_at := created_at session;
                   last_activity := last_activity session;
                   is_active := false;
                   connection_info := connection_info session |}]> m))
      | None => ret tt
      end))
    ret
    (fun e => ret tt).

(** [disconnect] *)
Definition disconnect (server_name : string) : M unit :=
  _close_connection server_name.

(** [is_connected] *)
Definition is_connected (c : MCPClient) (server_name : string) : bool :=
  match connections c !! server_name, sessions c !! server_name with
  | Some _, Some session => is_active session
  | _, _ => false
  end.

(** [get_session_info] *)
Definition get_session_info (c : MCPClient) (server_name : string)
  : option MCPSession := sessions c !! server_name.

(** [health_check] *)
Definition health_check (server_name : string) : M bool :=
  try_catch
    (c <- get_client ;;
     match connections c !! server_name with
     | None => ret false
     | Some _ =>
         execute_tool server_name "ping" (JObj []) None ;;;
         ret true
     end)
    ret
    (fun e => ret false).

(** The closes that [disconnect_all] hands to [asyncio.gather]: one per
    key of [self.connections].  Each works on the entries of its own
    server only and cannot raise, so they are run here one after the
    other, in the order of the keys. *)
Fixpoint close_each (names : list string) : M unit :=
  match names with
  | [] => ret tt
  | server_name :: rest => _close_connection server_name ;;; close_each rest
  end.

(** [disconnect_all]; [self._session_cleanup_task] is never assigned and
    stays [None]. *)
Definition disconnect_all : M unit :=
  c <- get_client ;;
  close_each (map fst (map_to_list (connections c))).

End Client.

(** *** Reading a trace *)

Definition is_attempt (ev : Event) : bool :=
  match ev with EvAttempt _ _ => true | _ => false end.
Definition is_sleep (ev : Event) : bool :=
  match ev with EvSleep _ => true | _ => false end.
Definition is_reconnect (ev : Event) : bool :=
  match ev with EvReconnect _ => true | _ => false end.

(** The attempts and sleeps of a trace, in order. *)
Definition schedule (evs : list Event) : list Event :=
  List.filter (fun ev => is_attempt ev || is_sleep ev) evs.
Definition attempts (evs : list Event) : nat :=
  length (List.filter is_attempt evs).
Definition reconnects (evs : list Event) : nat :=
  length (List.filter is_reconnect evs).
Definition sleeps (evs : list Event) : list float :=
  flat_map (fun ev => match ev with EvSleep d => [d] | _ => [] end) evs.

(** *** Definitions used to state the properties *)

(** The server is configured and has a connection record. *)
Definition usable (server_name : string) (s : St) : Prop :=
  is_Some (servers (client s) !! server_name) ∧
  is_Some (connections (client s) !! server_name).

(** The state right after an attempt has been issued. *)
Definition after_attempt (server_name tool_name : string) (s : St) : St :=
  let w := world s in
  {| client := client s;
     world := {| opens := opens w; calls := S (calls w); closes := closes w;
                 uuids := uuids w; nows := nows w; tasks := tasks w;
                 trace := trace w ++ [EvAttempt server_name tool_name] |} |}.

(** What the [except] branch adds to the trace when the delay can be
    computed. *)
Definition failure_events (config : MCPServerConfig) (server_name : string)
    (attempt : Z) (e : PyExn) (opened : bool) : list Event :=
  if attempt <? max_retries config - 1 then
    EvSleep (retry_delay config * Z.ldexp 1 attempt)%float
    :: (if is_connection_error e
        then [EvReconnect server_name; EvOpen server_name opened]
        else [])
  else [].

(** The attempts and sleeps the retry loop is to produce from iteration
    [attempt] on when every attempt fails: a sleep of
    [delay * 2 ^ attempt] after every attempt but the last. *)
Fixpoint backoff_schedule (server_name tool_name : string) (delay : float)
    (remaining : nat) (attempt : Z) : list Event :=
  match remaining with
  | O => []
  | S r =>
      EvAttempt server_name tool_name
      :: match r with
         | O => []
         | S _ =>
             EvSleep (delay * Z.ldexp 1 attempt)%float
             :: backoff_schedule server_name tool_name delay r (attempt + 1)
         end
  end.

(** The failures met before the first success. *)
Fixpoint failed_prefix (outcomes : list (Outcome json)) : list PyExn :=
  match outcomes with
  | Raise e :: rest => e :: failed_prefix rest
  | _ => []
  end.

(** What the environment answers to [n] consecutive requests from the
    [c0]-th on. *)
Definition attempt_outcomes (env : Env) (c0 n : nat) : list (Outcome json) :=
  map (fun i => transport_call env (c0 + i)%nat) (seq 0 n).

(** What a run of the loop over the given answers ends with: the first
    success, or the error that reports the last failure. *)
Fixpoint loop_result (config : MCPServerConfig) (last : option PyExn)
    (outcomes : list (Outcome json)) : Outcome json :=
  match outcomes with
  | [] =>
      Raise (mkExn MCPToolError
               ("Tool execution failed after " +:+ pretty (max_retries config)
                +:+ " attempts: " +:+ str_opt last))
  | Return v :: _ => Return v
  | Raise e :: rest => loop_result config (Some e) rest
  end.

(** The message of the error raised once the retries are used up. *)
Definition exhausted_message (config : MCPServerConfig)
    (last_exception : option PyExn) : string :=
  "Tool execution failed after " +:+ pretty (max_retries config)
  +:+ " attempts: " +:+ str_opt last_exception.

(** *** Sample configurations and transports *)

Definition demo_config : MCPServerConfig :=
  {| name := "demo"; connection_type := STDIO; endpoint := "/usr/bin/server";
     auth_token := None; timeout := 30; max_retries := 3; retry_delay := 1;
     health_check_interval := 60; session_timeout := 3600;
     custom_headers := [] |}.

(** A transport that opens and closes well and fails every request. *)
Definition failing_env : Env :=
  {| transport_open := fun _ => true;
     transport_call := fun _ =>
       Raise (mkExn MCPToolError "Tool execution timed out after 30 seconds");
     transport_close := fun _ => None;
     uuid4 := fun k => pretty k;
     datetime_now := fun k => Z.of_nat k |}.

Definition demo_start : St :=
  {| client := with_servers (fun m => <["demo" := demo_config]> m) init;
     world := world0 |}.

(** A transport whose first two requests meet a closed connection and
    whose third request is answered. *)
Definition flaky_env : Env :=
  {| transport_open := fun _ => true;
     transport_call := fun k =>
       if (k <? 2)%nat
       then Raise (mkExn MCPConnectionError "WebSocket connection closed")
       else Return (JObj [("pong", JBool true)]);
     transport_close := fun _ => None;
     uuid4 := fun k => pretty k;
     datetime_now := fun k => Z.of_nat k |}.


(** A configuration with no delay between attempts and room for 1026
    of them, and one with room for 1027. *)
Definition eager_config : MCPServerConfig :=
  {| name := "demo"; connection_type := STDIO; endpoint := "/usr/bin/server";
     auth_token := None; timeout := 30; max_retries := 1026; retry_delay := 0;
     health_check_interval := 60; session_timeout := 3600;
     custom_headers := [] |}.

Definition eager_start : St :=
  {| client := with_servers (fun m => <["demo" := eager_config]> m) init;
     world := world0 |}.

Definition patient_config : MCPServerConfig :=
  {| name := "demo"; connection_type := WEBSOCKET;
     endpoint := "ws://localhost:8765";
     auth_token := None; timeout := 30; max_retries := 1027; retry_delay := 0;
     health_check_interval := 60; session_timeout := 3600;
     custom_headers := [] |}.

Definition patient_start : St :=
  {| client := with_servers (fun m => <["demo" := patient_config]> m) init;
     world := world0 |}.

(** A transport whose first 1025 requests meet a closed connection and
    whose later requests are answered. *)
Definition recovering_env : Env :=
  {| transport_open := fun _ => true;
     transport_call := fun k =>
       if (k <? 1025)%nat
       then Raise (mkExn MCPConnectionError "WebSocket connection closed")
       else Return (JObj [("pong", JBool true)]);
     transport_close := fun _ => None;
     uuid4 := fun k => pretty k;
     datetime_now := fun k => Z.of_nat k |}.

(** Every delay the retry loop can ask for under a configuration is
    below [infinity], so that the sleeps return. *)
Definition delays_return (config : MCPServerConfig) : Prop :=
  ∀ k : Z, 0 ≤ k < max_retries config - 1 →
           (retry_delay config * Z.ldexp 1 k <? infinity)%float = true.

(** A session with its liveness flag cleared. *)
Definition deactivate (session : MCPSession) : MCPSession :=
  {| session_id := session_id session;
     server_name := server_name session;
     created_at := created_at session;
     last_activity := last_activity session;
     is_active := false;
     connection_info := connection_info session |}.

Definition is_teardown_or_cancel (ev : Event) : bool :=
  match ev with EvTeardown _ _ | EvCancel _ => true | _ => false end.

End McpClient.

(** ** [mcp_stdio_client.py], and the pipe path of [mcp_client.py] *)

Module StdioClient.

(** A document written to the child's standard input.  The
    ["jsonrpc": "2.0"] member is constant and left out; a notification has
    no id. *)
Record Request : Type := mkRequest {
  req_id : option json;
  req_method : string;
  req_params : option json
}.

(** The child process as the client sees it: the lines it is still to
    deliver on its standard output, oldest first ([None] for a line that
    is no JSON document: end of file, a blank line, garbage; an empty list
    when nothing arrives before the timeout), and whether it has been
    terminated. *)
Record Process : Type := mkProcess {
  stdout : list (option json);
  terminated : bool
}.

Record MCPStdioClient : Type := mkStdioClient {
  server_executable : string;
  process : option Process;
  initialized : bool;
  server_info : option json;
  request_id : Z;
  wire : list Request   (* every document written so far, oldest first *)
}.

Abbreviation SM := (Co MCPStdioClient).

(** [MCPStdioClient.__init__] *)
Definition init (server_executable : string) : MCPStdioClient :=
  {| server_executable := server_executable; process := None;
     initialized := false; server_info := None; request_id := 0; wire := [] |}.

(** [start]: [spawned] is what [create_subprocess_exec] gives, [None] when
    it raises. *)
Definition start (spawned : option Process) : SM bool :=
  fun c =>
    match spawned with
    | Some p =>
        (Return true,
         {| server_executable := server_executable c; process := Some p;
            initialized := initialized c; server_info := server_info c;
            request_id := request_id c; wire := wire c |})
    | None => (Return false, c)
    end.

(** [_next_id] *)
Definition _next_id : SM Z :=
  fun c =>
    let n := request_id c + 1 in
    (Return n,
     {| server_executable := server_executable c; process := process c;
        initialized := initialized c; server_info := server_info c;
        request_id := n; wire := wire c |}).

(** [_send_request]: a write to a terminated child fails. *)
Definition _send_request (request : Request) : SM unit :=
  fun c =>
    match process c with
    | None => (Raise (mkExn RuntimeError "MCP server process not available"), c)
    | Some p =>
        if terminated p
        then (Raise (mkExn (OtherError "BrokenPipeError") "Broken pipe"), c)
        else (Return tt,
              {| server_executable := server_executable c; process := process c;
                 initialized := initialized c; server_info := server_info c;
                 request_id := request_id c; wire := wire c ++ [request] |})
    end.

(** [_read_response]: one line is consumed; a timeout, the end of the
    stream (as after the child was terminated), a blank line and a line
    that is no JSON all give [None]. *)
Definition _read_response : SM (option json) :=
  fun c =>
    match process c with
    | None => (Raise (mkExn RuntimeError "MCP server process not available"), c)
    | Some p =>
        if terminated p then (Return None, c)
        else
          match stdout p with
          | [] => (Return None, c)
          | line :: rest =>
              (Return line,
               {| server_executable := server_executable c;
                  process := Some {| stdout := rest; terminated := false |};
                  initialized := initialized c; server_info := server_info c;
                  request_id := request_id c; wire := wire c |})
          end
    end.

(** [response.get(key)]: [AttributeError] on a document that is no dict. *)
Definition dict_get (response : json) (key : string) : Outcome (option json) :=
  match response with
  | JObj fields => Return (assoc key fields)
  | _ => Raise (no_attribute_get response)
  end.

(** [response and response.get("id") == id] *)
Definition id_matches (response : option json) (id : Z) : Outcome bool :=
  match response with
  | None => Return false
  | Some j =>
      if truthy j then
        match dict_get j "id" with
        | Return (Some v) => Return (eq_int v id)
        | Return None => Return false
        | Raise e => Raise e
        end
      else Return false
  end.

(** [repr] of a decoded document (string contents are taken without
    escapes). *)
Fixpoint repr (j : json) : string :=
  match j with
  | JNull => "None"
  | JBool b => if b then "True" else "False"
  | JNum n => pretty n
  | JStr s => "'" +:+ s +:+ "'"
  | JArr items =>
      "[" +:+ (fix go (l : list json) : string :=
                 match l with
                 | [] => ""
                 | [x] => repr x
                 | x :: rest => repr x +:+ ", " +:+ go rest
                 end) items +:+ "]"
  | JObj fields =>
      "{" +:+ (fix go (l : list (string * json)) : string :=
                 match l with
                 | [] => ""
                 | [(k, v)] => "'" +:+ k +:+ "': " +:+ repr v
                 | (k, v) :: rest => "'" +:+ k +:+ "': " +:+ repr v +:+ ", " +:+ go rest
                 end) fields +:+ "}"
  end.

(** [f"{value}"]: a string is printed bare, anything else as its
    [repr]. *)
Definition fstr (value : json) : string :=
  match value with
  | JStr s => s
  | _ => repr value
  end.

(** The part shared by [call_tool] and [list_tools] after the request is
    written: read one line and compare its id with the request's; the
    value is the ["result"] member, [{}] when absent. *)
Definition await_result (id : Z) (error_prefix invalid_message : string)
  : SM json :=
  response <- _read_response ;;
  fun c =>
    match id_matches response id with
    | Raise e => (Raise e, c)
    | Return false => (Raise (mkExn PlainException invalid_message), c)
    | Return true =>
        match response with
        | Some (JObj fields) =>
            match assoc "error" fields with
            | Some err =>
                (Raise (mkExn PlainException (error_prefix +:+ fstr err)), c)
            | None =>
                (Return (match assoc "result" fields with
                         | Some r => r
                         | None => JObj []
                         end), c)
            end
        | Some other => (Raise (no_attribute_get other), c)
        | None => (Raise (no_attribute_get JNull), c)
        end
    end.

Definition init_params : json :=
  JObj [("protocolVersion", JStr "2024-11-05");
        ("capabilities",
         JObj [("roots", JObj [("listChanged", JBool true)]);
               ("sampling", JObj [])]);
        ("clientInfo",
         JObj [("name", JStr "WhatsApp-Analyzer"); ("version", JStr "1.0.0")])].

Definition initialized_notification : Request :=
  {| req_id := None; req_method := "notifications/initialized";
     req_params := None |}.

Definition set_server_info (info : json) : SM unit :=
  fun c =>
    (Return tt,
     {| server_executable := server_executable c; process := process c;
        initialized := initialized c; server_info := Some info;
        request_id := request_id c; wire := wire c |}).

Definition set_initialized_flag : SM unit :=
  fun c =>
    (Return tt,
     {| server_executable := server_executable c; process := process c;
        initialized := true; server_info := server_info c;
        request_id := request_id c; wire := wire c |}).

(** [initialize] *)
Definition initialize : SM bool :=
  try_catch
    (id <- _next_id ;;
     _send_request {| req_id := Some (JNum id); req_method := "initialize";
                      req_params := Some init_params |} ;;;
     response <- _read_response ;;
     matches <- (fun c => (id_matches response id, c)) ;;
     if (matches : bool) then
       match response with
       | Some (JObj fields) =>
           match assoc "error" fields with
           | Some _ => ret false
           | None =>
               set_server_info (match assoc "result" fields with
                                | Some r => r
                                | None => JObj []
                                end) ;;;
               _send_request initialized_notification ;;;
               set_initialized_flag ;;;
               ret true
           end
       | Some other => raise (no_attribute_get other)
       | None => raise (no_attribute_get JNull)
       end
     else ret false)
    ret
    (fun e => ret false).

Definition not_initialized : PyExn :=
  mkExn RuntimeError "MCP client not initialized".

(** [call_tool]; its [except] clause logs and raises the same exception
    again. *)
Definition call_tool (tool_name : string) (arguments : json) : SM json :=
  fun c =>
    if initialized c then
      (id <- _next_id ;;
       _send_request
         {| req_id := Some (JNum id); req_method := "tools/call";
            req_params := Some (JObj [("name", JStr tool_name);
                                      ("arguments", arguments)]) |} ;;;
       await_result id "Tool call error: " "Invalid tool call response") c
    else (Raise not_initialized, c).

(** [tools = result.get("tools", [])] on the value of a tool listing,
    followed by [len(tools)] for the log line: [AttributeError] when the
    result is no dict, [TypeError] when ["tools"] is [None], a number or
    a bool. *)
Definition tools_of (result : json) : Outcome json :=
  match result with
  | JObj fields =>
      let tools := match assoc "tools" fields with
                   | Some t => t
                   | None => JArr []
                   end in
      match tools with
      | JNull | JBool _ | JNum _ => Raise (no_len tools)
      | JStr _ | JArr _ | JObj _ => Return tools
      end
  | _ => Raise (no_attribute_get result)
  end.

(** [list_tools] *)
Definition list_tools : SM json :=
  fun c =>
    if initialized c then
      (id <- _next_id ;;
       _send_request
         {| req_id := Some (JNum id); req_method := "tools/list";
            req_params := None |} ;;;
       result <- await_result id "List tools error: " "Invalid list tools response" ;;
       fun c' => (tools_of result, c')) c
    else (Raise not_initialized, c).

(** [close]: terminates the child when there is one; never raises. *)
Definition close : SM unit :=
  fun c =>
    match process c with
    | Some p =>
        (Return tt,
         {| server_executable := server_executable c;
            process := Some {| stdout := stdout p; terminated := true |};
            initialized := initialized c; server_info := server_info c;
            request_id := request_id c; wire := wire c |})
    | None => (Return tt, c)
    end.

(** *** The pipe path of the generic client *)

(** [needle in haystack] for two strings. *)
Fixpoint contains (needle haystack : string) : bool :=
  String.prefix needle haystack
  || match haystack with
     | EmptyString => false
     | String _ rest => contains needle rest
     end.

(** ["error" in response] *)
Definition has_error (response : json) : Outcome bool :=
  match response with
  | JObj fields => Return (match assoc "error" fields with Some _ => true | None => false end)
  | JArr items =>
      Return (existsb (fun x => match x with
                                | JStr s => String.eqb s "error"
                                | _ => false
                                end) items)
  | JStr s => Return (contains "error" s)
  | _ =>
      Raise (mkExn (OtherError "TypeError")
               ("argument of type '" +:+ type_name response
                +:+ "' is not iterable"))
  end.

(** [_execute_stdio_request] of [mcp_client.py] on the child process of a
    connection: write the request, read one line, decode it, and return
    its ["result"] member.  The envelope's id is not looked at.  It
    returns the outcome, the process afterwards and what it wrote. *)
Definition _execute_stdio_request (p : Process) (request_data : Request)
    (timeout : Z) : Outcome json * Process * list Request :=
  if terminated p
  then (Raise (mkExn (OtherError "BrokenPipeError") "Broken pipe"), p, [])
  else
    match stdout p with
    | [] =>
        (Raise (mkExn MCPToolError
                  ("Tool execution timed out after " +:+ pretty timeout
                   +:+ " seconds")), p, [request_data])
    | line :: rest =>
        let p' := {| stdout := rest; terminated := terminated p |} in
        match line with
        | None =>
            (Raise (mkExn (OtherError "JSONDecodeError") "Expecting value"),
             p', [request_data])
        | Some response =>
            match has_error response with
            | Raise e => (Raise e, p', [request_data])
            | Return true =>
                (Raise (match response with
                        | JObj fields =>
                            mkExn MCPToolError
                              ("Tool error: "
                               +:+ match assoc "error" fields with
                                   | Some err => fstr err
                                   | None => ""
                                   end)
                        | JArr _ =>
                            mkExn (OtherError "TypeError")
                              "list indices must be integers or slices, not str"
                        | _ =>
                            mkExn (OtherError "TypeError")
                              "string indices must be integers, not 'str'"
                        end), p', [request_data])
            | Return false =>
                match dict_get response "result" with
                | Raise e => (Raise e, p', [request_data])
                | Return (Some r) => (Return r, p', [request_data])
                | Return None => (Return (JObj []), p', [request_data])
                end
            end
        end
    end.

(** *** Definitions used to state the properties *)

(** The operations a user of the handshake client can invoke. *)
Inductive Op : Type :=
| OpStart (spawned : option Process)
| OpInitialize
| OpCallTool (tool_name : string) (arguments : json)
| OpListTools
| OpClose.

(** One operation, its value dropped; an exception is the caller's to
    handle and leaves the client as it was when raised. *)
Definition step (op : Op) (c : MCPStdioClient) : MCPStdioClient :=
  match op with
  | OpStart spawned => snd (start spawned c)
  | OpInitialize => snd (initialize c)
  | OpCallTool tool_name arguments => snd (call_tool tool_name arguments c)
  | OpListTools => snd (list_tools c)
  | OpClose => snd (close c)
  end.

Definition run (ops : list Op) (c : MCPStdioClient) : MCPStdioClient :=
  fold_left (fun c op => step op c) ops c.

(** The operations that put a request on the wire. *)
Definition is_request_op (op : Op) : bool :=
  match op with
  | OpInitialize | OpCallTool _ _ | OpListTools => true
  | OpStart _ | OpClose => false
  end.

(** The integer ids of the documents written, in the order written. *)
Definition wire_ids (c : MCPStdioClient) : list Z :=
  flat_map (fun r => match req_id r with
                     | Some (JNum n) => [n]
                     | _ => []
                     end) (wire c).

(** [1; 2; ...; n] *)
Definition ids_upto (n : Z) : list Z := map Z.of_nat (seq 1 (Z.to_nat n)).

(** The requests the handshake client writes. *)
Definition initialize_request (id : Z) : Request :=
  {| req_id := Some (JNum id); req_method := "initialize";
     req_params := Some init_params |}.
Definition call_request (id : Z) (tool_name : string) (arguments : json)
  : Request :=
  {| req_id := Some (JNum id); req_method := "tools/call";
     req_params := Some (JObj [("name", JStr tool_name);
                               ("arguments", arguments)]) |}.

Definition list_request (id : Z) : Request :=
  {| req_id := Some (JNum id); req_method := "tools/list";
     req_params := None |}.

(** The pairing of responses with requests that the specification
    describes, for one caller of the handshake client: an envelope whose
    id matches no outstanding request is dropped, and the caller gets the
    response that carries its own id. *)
Definition pairs_by_id : Prop :=
  ∀ (c : MCPStdioClient) (p : Process) (tool_name : string)
    (arguments result : json) (stray_id : Z) (stray : json)
    (rest : list (option json)),
    process c = Some p → terminated p = false → initialized c = true →
    stray_id ≠ request_id c + 1 →
    stdout p
      = Some (JObj [("jsonrpc", JStr "2.0"); ("id", JNum stray_id);
                    ("result", stray)])
        :: Some (JObj [("jsonrpc", JStr "2.0");
                       ("id", JNum (request_id c + 1)); ("result", result)])
        :: rest →
    fst (call_tool tool_name arguments c) = Return result.

(** What [call_tool] makes of the line it reads. *)
Definition call_outcome (id : Z) (line : option json) : Outcome json :=
  match id_matches line id with
  | Raise e => Raise e
  | Return false => Raise (mkExn PlainException "Invalid tool call response")
  | Return true =>
      match line with
      | Some (JObj fields) =>
          match assoc "error" fields with
          | Some err => Raise (mkExn PlainException ("Tool call error: " +:+ fstr err))
          | None => Return (match assoc "result" fields with
                            | Some r => r
                            | None => JObj []
                            end)
          end
      | Some other => Raise (no_attribute_get other)
      | None => Raise (no_attribute_get JNull)
      end
  end.

(** What [list_tools] makes of the line it reads. *)
Definition list_outcome (id : Z) (line : option json) : Outcome json :=
  match id_matches line id with
  | Raise e => Raise e
  | Return false => Raise (mkExn PlainException "Invalid list tools response")
  | Return true =>
      match line with
      | Some (JObj fields) =>
          match assoc "error" fields with
          | Some err => Raise (mkExn PlainException ("List tools error: " +:+ fstr err))
          | None => tools_of (match assoc "result" fields with
                              | Some r => r
                              | None => JObj []
                              end)
          end
      | Some other => Raise (no_attribute_get other)
      | None => Raise (no_attribute_get JNull)
      end
  end.

(** A response envelope. *)
Definition response_ok (id : json) (result : json) : json :=
  JObj [("jsonrpc", JStr "2.0"); ("id", id); ("result", result)].

(** The child is there and has not been terminated. *)
Definition live (c : MCPStdioClient) : Prop :=
  ∃ p, process c = Some p ∧ terminated p = false.

(** The ids on the wire are increasing and lie between 1 and the
    counter. *)
Definition ids_ordered (c : MCPStdioClient) : Prop :=
  StronglySorted Z.lt (wire_ids c)
  ∧ Forall (fun i => 1 ≤ i ≤ request_id c) (wire_ids c)
  ∧ 0 ≤ request_id c.

(** On a live child every id taken goes out on the wire. *)
Definition ids_complete (c : MCPStdioClient) : Prop :=
  live c ∧ 0 ≤ request_id c ∧ wire_ids c = ids_upto (request_id c).

(** *** Sample children *)

(** A server that answers the handshake and then one call. *)
Definition answering_child : Process :=
  {| stdout := [Some (response_ok (JNum 1) (JObj [("serverInfo", JStr "demo")]));
                Some (response_ok (JNum 2) (JObj [("echo", JNum 1)]))];
     terminated := false |}.

(** A server that answers the handshake and then one tool listing. *)
Definition listing_child : Process :=
  {| stdout := [Some (response_ok (JNum 1) (JObj [("serverInfo", JStr "demo")]));
                Some (response_ok (JNum 2)
                        (JObj [("tools", JArr [JObj [("name", JStr "ping")]])]))];
     terminated := false |}.

(** A server that, after the handshake, first delivers an envelope with
    an id nobody waits for and then the answer to the call. *)
Definition chatty_child : Process :=
  {| stdout := [Some (response_ok (JNum 7) (JStr "stale"));
                Some (response_ok (JNum 1) (JStr "mine"))];
     terminated := false |}.

(** A client past its handshake, talking to [chatty_child]. *)
Definition chatty_client : MCPStdioClient :=
  {| server_executable := "server.py"; process := Some chatty_child;
     initialized := true; server_info := Some (JObj []); request_id := 0;
     wire := [] |}.

(** *** Further definitions used to state properties *)

(** The envelopes of a server that answers the requests with ids
    [first_id], [first_id + 1], ... in order, one result each. *)
Fixpoint answers (first_id : Z) (results : list json) : list (option json) :=
  match results with
  | [] => []
  | r :: rest =>
      Some (response_ok (JNum first_id) r) :: answers (first_id + 1) rest
  end.

(** A series of tool calls, each with its tool name and arguments; the
    outcomes in order, and the client afterwards. *)
Fixpoint call_all (calls : list (string * json)) (c : MCPStdioClient)
  : list (Outcome json) * MCPStdioClient :=
  match calls with
  | [] => ([], c)
  | (tool_name, arguments) :: rest =>
      let (outcome, c1) := call_tool tool_name arguments c in
      let (outcomes, c2) := call_all rest c1 in
      (outcome :: outcomes, c2)
  end.

(** The ids an operation takes from the counter. *)
Definition ids_taken (op : Op) (c : MCPStdioClient) : Z :=
  match op with
  | OpInitialize => 1
  | OpCallTool _ _ | OpListTools => if initialized c then 1 else 0
  | OpStart _ | OpClose => 0
  end.

Definition invalid_tool_call : PyExn :=
  mkExn PlainException "Invalid tool call response".

(** The reading of the specification under which the first request a
    client writes carries the id 1. *)
Definition first_written_id_is_one : Prop :=
  ∀ (exe : string) (ops : list Op) (first : Z) (later : list Z),
    wire_ids (run ops (init exe)) = first :: later → first = 1.

(** A server that answers one request. *)
Definition late_child : Process :=
  {| stdout := [Some (response_ok (JNum 2) (JObj []))]; terminated := false |}.

End StdioClient.

(** ** [_enforce_rate_limit] of [whatsapp_mcp_client.py] *)

Module RateLimiter.

(** [WhatsAppRateLimits], with its defaults. *)
Record WhatsAppRateLimits : Type := mkLimits {
  messages_per_minute : Z;
  chats_per_minute : Z;
  requests_per_second : Z;
  burst_limit : Z;
  cooldown_period : Z
}.

Definition default_limits : WhatsAppRateLimits :=
  {| messages_per_minute := 60; chats_per_minute := 30;
     requests_per_second := 2; burst_limit := 10; cooldown_period := 300 |}.

(** What the limiter does that can be observed from outside, in order. *)
Inductive Event : Type :=
| Slept (seconds : float)
| Recorded (timestamp : float).

(** The part of [WhatsAppMCPClient] the limiter works on.  There is one
    list of timestamps for all operation types; the timestamps are
    readings of [time.time()], floats. *)
Record Limiter : Type := mkLimiter {
  rate_limits : WhatsAppRateLimits;
  _request_timestamps : list float;
  log : list Event
}.

Definition fresh (limits : WhatsAppRateLimits) : Limiter :=
  {| rate_limits := limits; _request_timestamps := []; log := [] |}.

Abbreviation LM := (Co Limiter).

(** [[ts for ts in timestamps if now - ts < horizon]]: a float
    subtraction and a comparison with the integer [horizon]. *)
Definition prune (now horizon : float) (timestamps : list float) : list float :=
  List.filter (fun ts => (now - ts <? horizon)%float) timestamps.

(** The ceiling chosen by the operation type. *)
Definition max_per_minute (limits : WhatsAppRateLimits)
    (operation_type : string) : Z :=
  if String.eqb operation_type "messages" then messages_per_minute limits
  else if String.eqb operation_type "chats" then chats_per_minute limits
  else 30.

Definition set_timestamps (timestamps : list float) : LM unit :=
  fun st =>
    (Return tt,
     {| rate_limits := rate_limits st; _request_timestamps := timestamps;
        log := log st |}).

(** [asyncio.sleep(seconds)] *)
Definition sleep (seconds : float) : LM unit :=
  fun st =>
    (Return tt,
     {| rate_limits := rate_limits st;
        _request_timestamps := _request_timestamps st;
        log := log st ++ [Slept seconds] |}).

(** [self._request_timestamps.append(now)] *)
Definition append_timestamp (now : float) : LM unit :=
  fun st =>
    (Return tt,
     {| rate_limits := rate_limits st;
        _request_timestamps := _request_timestamps st ++ [now];
        log := log st ++ [Recorded now] |}).

(** [if len(xs) >= limit: sleep_time = horizon - (now - xs[0]); sleep when
    sleep_time > 0]; [xs[0]] raises [IndexError] on an empty list.  The
    sleep time is computed in floating point. *)
Definition wait_for_first (now horizon : float) (limit : Z) (xs : list float)
  : LM unit :=
  if limit <=? Z.of_nat (length xs) then
    match xs with
    | [] => raise (mkExn IndexError "list index out of range")
    | first :: _ =>
        let sleep_time := (horizon - (now - first))%float in
        if (0 <? sleep_time)%float then sleep sleep_time else ret tt
    end
  else ret tt.

(** [_enforce_rate_limit]; [now] is the reading of [time.time()] taken on
    entry.  The body runs under [self._rate_limit_lock], so admissions do
    not interleave. *)
Definition _enforce_rate_limit (operation_type : string) (now : float)
  : LM unit :=
  fun st =>
    let timestamps := prune now 60 (_request_timestamps st) in
    (set_timestamps timestamps ;;;
     wait_for_first now 60 (max_per_minute (rate_limits st) operation_type)
       timestamps ;;;
     wait_for_first now 1 (requests_per_second (rate_limits st))
       (prune now 1 timestamps) ;;;
     append_timestamp now) st.

(** *** Definitions used to state the properties *)

Definition is_recorded (ev : Event) : bool :=
  match ev with Recorded _ => true | Slept _ => false end.

(** The sleep a check asks for when it fires on a list whose first
    element is [first]: [horizon - (now - first)] as the floats give it,
    when that is positive. *)
Definition wait (horizon now first : float) : list Event :=
  if (0 <? horizon - (now - first))%float
  then [Slept (horizon - (now - first))%float]
  else [].

(** What one admission appends to the log when both checks pass. *)
Definition admission_events (limits : WhatsAppRateLimits)
    (operation_type : string) (now : float) (timestamps : list float)
  : list Event :=
  let window := prune now 60 timestamps in
  let recent := prune now 1 window in
  (if max_per_minute limits operation_type <=? Z.of_nat (length window)
   then match window with
        | oldest :: _ => wait 60 now oldest
        | [] => []
        end
   else [])
  ++ (if requests_per_second limits <=? Z.of_nat (length recent)
      then match recent with
           | first :: _ => wait 1 now first
           | [] => []
           end
      else [])
  ++ [Recorded now].

(** Every sleep of a stretch of the log was asked for with a delay
    below [infinity], so that it returns. *)
Definition sleeps_return (evs : list Event) : Prop :=
  Forall (fun ev => match ev with
                    | Slept seconds => (seconds <? infinity)%float = true
                    | Recorded _ => True
                    end) evs.

(** A sequence of admission requests, each with its operation type and
    the clock reading on entry.  The lock serialises admissions, a
    reading of the clock is a finite float and the clock does not run
    backwards: a reading is not earlier than the reading before it;
    [None] when a reading is, or when an admission raises.  The result
    carries the last reading. *)
Fixpoint admit_all (requests : list (string * float)) (st : Limiter)
    (previous : float) : option (Limiter * float) :=
  match requests with
  | [] => Some (st, previous)
  | (operation_type, now) :: rest =>
      if is_finite now && (previous <=? now)%float then
        match _enforce_rate_limit operation_type now st with
        | (Return _, st') => admit_all rest st' now
        | (Raise _, _) => None
        end
      else None
  end.

(** The invariant the specification states for the stored window: after
    every successful admission of a sequence its length is at most the
    per-minute ceiling of the admitted operation. *)
Definition window_within_ceiling : Prop :=
  ∀ (limits : WhatsAppRateLimits) (requests : list (string * float))
    (operation_type : string) (now : float) (st : Limiter) (t : float),
    admit_all (requests ++ [(operation_type, now)]) (fresh limits) 0
      = Some (st, t) →
    Z.of_nat (length (_request_timestamps st))
      ≤ max_per_minute limits operation_type.

(** The reading of the specification under which every operation type
    has a window of its own: whatever timestamps an admission of some
    operation type finds in its window after pruning were recorded by
    admissions of that same operation type. *)
Definition windows_per_category : Prop :=
  ∀ (limits : WhatsAppRateLimits) (requests : list (string * float))
    (st : Limiter) (t : float) (operation_type : string) (now ts : float),
    admit_all requests (fresh limits) 0 = Some (st, t) →
    (t <=? now)%float = true →
    In ts (prune now 60 (_request_timestamps st)) →
    In (operation_type, ts) requests.

(** The float of a small number of whole seconds. *)
Fixpoint seconds (k : nat) : float :=
  match k with
  | O => 0
  | S k' => seconds k' + 1
  end.

(** Thirty status requests, one per second from second 0 on. *)
Definition one_per_second : list (string * float) :=
  map (fun k => ("status", seconds k)) (seq 0 30).

(** The timestamp an admission waits for under the per-minute check:
    the first of its window, when the window holds at least as many
    timestamps as the ceiling. *)
Definition waited_for (limits : WhatsAppRateLimits) (operation_type : string)
    (now : float) (timestamps : list float) : option float :=
  if max_per_minute limits operation_type
       <=? Z.of_nat (length (prune now 60 timestamps))
  then head (prune now 60 timestamps)
  else None.

(** At the reading [now] the timestamp waited for, if any, is no longer
    less than 60 seconds old, as [prune] tests it. *)
Definition elapsed (pending : option float) (now : float) : bool :=
  match pending with
  | Some oldest => negb (now - oldest <? 60)%float
  | None => true
  end.

(** Along a sequence of admissions, every admission is entered at a
    reading at which the timestamp that the admission before it waited
    for under the per-minute check has left the 60-second window. *)
Fixpoint waits_elapsed (requests : list (string * float)) (st : Limiter)
    (pending : option float) : bool :=
  match requests with
  | [] => true
  | (operation_type, now) :: rest =>
      elapsed pending now
      && match _enforce_rate_limit operation_type now st with
         | (Return _, st') =>
             waits_elapsed rest st'
               (waited_for (rate_limits st) operation_type now
                  (_request_timestamps st))
         | (Raise _, _) => true
         end
  end.

(** The timestamp the last admission of a sequence waited for. *)
Fixpoint last_waited_for (requests : list (string * float)) (st : Limiter)
    (pending : option float) : option float :=
  match requests with
  | [] => pending
  | (operation_type, now) :: rest =>
      last_waited_for rest (snd (_enforce_rate_limit operation_type now st))
        (waited_for (rate_limits st) operation_type now
           (_request_timestamps st))
  end.

(** What holds of the stored window between admissions that all have the
    per-minute ceiling [ceiling], the last of them having waited for
    [pending]: it exceeds the ceiling by at most the timestamp recorded
    last, and an admission entered once [pending] has left the window
    finds at most [ceiling] timestamps after pruning. *)
Definition window_bounded (ceiling : Z) (st : Limiter)
    (pending : option float) : Prop :=
  Z.of_nat (length (_request_timestamps st)) ≤ ceiling + 1
  ∧ ∀ now, elapsed pending now = true →
           Z.of_nat (length (prune now 60 (_request_timestamps st))) ≤ ceiling.

(** Limits that allow one chat listing per minute. *)
Definition one_chat_per_minute : WhatsAppRateLimits :=
  {| messages_per_minute := 60; chats_per_minute := 1;
     requests_per_second := 2; burst_limit := 10; cooldown_period := 300 |}.

(** Two readings of the clock about ten seconds apart, and the reading
    at which the sleep computed from them ends. *)
Definition early_reading : float := 0x1.e1944f8fe4344p-2.
Definition later_reading : float := 0x1.4bf3c5a342d40p+3.
Definition reading_after_sleep : float :=
  (later_reading + (60 - (later_reading - early_reading)))%float.

(** *** Further definitions used to state properties *)

(** [a <= b] on floats. *)
Definition fle (a b : float) : Prop := (a <=? b)%float = true.

(** The stored timestamps are in non-decreasing order and none is later
    than [t]. *)
Definition window_ordered (st : Limiter) (t : float) : Prop :=
  StronglySorted fle (_request_timestamps st)
  ∧ Forall (fun ts => fle ts t) (_request_timestamps st).

Definition index_error : PyExn :=
  mkExn IndexError "list index out of range".

End RateLimiter.

(** ** [WhatsAppMCPClient] of [whatsapp_mcp_client.py] *)

Module WhatsAppClient.

(** [WhatsAppSession]; the two [datetime] fields hold readings of
    [datetime.now()]. *)
Record WhatsAppSession : Type := mkWhatsAppSession {
  is_authenticated : bool;
  phone_number : option string;
  session_start : option Z;
  last_activity : option Z;
  qr_code_required : bool;
  connection_status : string;
  rate_limit_resets : list (string * Z)
}.

(** [WhatsAppSession()] *)
Definition new_session : WhatsAppSession :=
  {| is_authenticated := false; phone_number := None; session_start := None;
     last_activity := None; qr_code_required := false;
     connection_status := "disconnected"; rate_limit_resets := [] |}.

(** The client: [mcp_client] is the generic client together with the
    world it acts on; [limiter] holds [rate_limits] and
    [_request_timestamps]; [clock_reads] counts the readings of
    [time.time()] taken so far. *)
Record WhatsAppMCPClient : Type := mkWhatsAppMCPClient {
  server_name : string;
  mcp_client : McpClient.St;
  limiter : RateLimiter.Limiter;
  session : WhatsAppSession;
  clock_reads : nat
}.

(** [WhatsAppMCPClient.__init__] *)
Definition init (server_name : string) : WhatsAppMCPClient :=
  {| server_name := server_name;
     mcp_client := {| McpClient.client := McpClient.init;
                      McpClient.world := McpClient.world0 |};
     limiter := RateLimiter.fresh RateLimiter.default_limits;
     session := new_session;
     clock_reads := 0 |}.

(** The environment of the generic client, and the readings of
    [time.time()]. *)
Record Env : Type := mkEnv {
  mcp : McpClient.Env;
  time_time : nat → float
}.

Abbreviation WM := (Co WhatsAppMCPClient).

Definition get_self : WM WhatsAppMCPClient := fun w => (Return w, w).

(** A coroutine of [self.mcp_client]. *)
Definition on_mcp_client {A} (m : McpClient.M A) : WM A :=
  fun w =>
    let (outcome, s) := m (mcp_client w) in
    (outcome,
     {| server_name := server_name w; mcp_client := s; limiter := limiter w;
        session := session w; clock_reads := clock_reads w |}).

Definition set_session (f : WhatsAppSession → WhatsAppSession) : WM unit :=
  fun w =>
    (Return tt,
     {| server_name := server_name w; mcp_client := mcp_client w;
        limiter := limiter w; session := f (session w);
        clock_reads := clock_reads w |}).

Definition with_is_authenticated (b : bool) (s : WhatsAppSession)
  : WhatsAppSession :=
  {| is_authenticated := b; phone_number := phone_number s;
     session_start := session_start s; last_activity := last_activity s;
     qr_code_required := qr_code_required s;
     connection_status := connection_status s;
     rate_limit_resets := rate_limit_resets s |}.
Definition with_phone_number (p : option string) (s : WhatsAppSession)
  : WhatsAppSession :=
  {| is_authenticated := is_authenticated s; phone_number := p;
     session_start := session_start s; last_activity := last_activity s;
     qr_code_required := qr_code_required s;
     connection_status := connection_status s;
     rate_limit_resets := rate_limit_resets s |}.
Definition with_session_start (t : Z) (s : WhatsAppSession)
  : WhatsAppSession :=
  {| is_authenticated := is_authenticated s; phone_number := phone_number s;
     session_start := Some t; last_activity := last_activity s;
     qr_code_required := qr_code_required s;
     connection_status := connection_status s;
     rate_limit_resets := rate_limit_resets s |}.
Definition with_last_activity (t : Z) (s : WhatsAppSession)
  : WhatsAppSession :=
  {| is_authenticated := is_authenticated s; phone_number := phone_number s;
     session_start := session_start s; last_activity := Some t;
     qr_code_required := qr_code_required s;
     connection_status := connection_status s;
     rate_limit_resets := rate_limit_resets s |}.
Definition with_qr_code_required (b : bool) (s : WhatsAppSession)
  : WhatsAppSession :=
  {| is_authenticated := is_authenticated s; phone_number := phone_number s;
     session_start := session_start s; last_activity := last_activity s;
     qr_code_required := b;
     connection_status := connection_status s;
     rate_limit_resets := rate_limit_resets s |}.
Definition with_connection_status (status : string) (s : WhatsAppSession)
  : WhatsAppSession :=
  {| is_authenticated := is_authenticated s; phone_number := phone_number s;
     session_start := session_start s; last_activity := last_activity s;
     qr_code_required := qr_code_required s;
     connection_status := status;
     rate_limit_resets := rate_limit_resets s |}.

(** [self.rate_limits = limits] *)
Definition set_rate_limits (limits : RateLimiter.WhatsAppRateLimits) : WM unit :=
  fun w =>
    (Return tt,
     {| server_name := server_name w; mcp_client := mcp_client w;
        limiter := {| RateLimiter.rate_limits := limits;
                      RateLimiter._request_timestamps
                        := RateLimiter._request_timestamps (limiter w);
                      RateLimiter.log := RateLimiter.log (limiter w) |};
        session := session w; clock_reads := clock_reads w |}).

(** [result.get(key)]: [None] when the key is missing, [AttributeError]
    when [result] is no dict. *)
Definition result_get (key : string) (result : json) : WM json :=
  match result with
  | JObj fields =>
      ret (match assoc key fields with Some value => value | None => JNull end)
  | _ => raise (no_attribute_get result)
  end.

(** [value == text] for a string literal [text]. *)
Definition eq_str (value : json) (text : string) : bool :=
  match value with JStr s => String.eqb s text | _ => false end.

(** [MCPServerConfig(...)] as [initialize] builds it. *)
Definition whatsapp_config (server_name endpoint : string)
    (connection_type : McpClient.MCPConnectionType)
    (auth_token : option string) : McpClient.MCPServerConfig :=
  {| McpClient.name := server_name;
     McpClient.connection_type := connection_type;
     McpClient.endpoint := endpoint;
     McpClient.auth_token := auth_token;
     McpClient.timeout := 60;
     McpClient.max_retries := 5;
     McpClient.retry_delay := 2;
     McpClient.health_check_interval := 30;
     McpClient.session_timeout := 7200;
     McpClient.custom_headers := [("User-Agent", "WhatsApp-MCP-Client/1.0");
                                  ("Accept", "application/json")] |}.

Section Client.
Context (env : Env).

(** [datetime.now()] *)
Definition datetime_now : WM Z := on_mcp_client (McpClient.now (mcp env)).

(** [_enforce_rate_limit]: the reading of [time.time()] is the next one
    of the environment. *)
Definition _enforce_rate_limit (operation_type : string) : WM unit :=
  fun w =>
    let (outcome, l) :=
      RateLimiter._enforce_rate_limit operation_type
        (time_time env (clock_reads w)) (limiter w) in
    (outcome,
     {| server_name := server_name w; mcp_client := mcp_client w;
        limiter := l; session := session w;
        clock_reads := S (clock_reads w) |}).

(** [self.mcp_client.execute_tool(self.server_name, ...)] *)
Definition execute_tool (tool_name : string) (arguments : json)
    (timeout : option Z) : WM json :=
  self <- get_self ;;
  on_mcp_client
    (McpClient.execute_tool (mcp env) (server_name self) tool_name arguments
       timeout).

(** [initialize] *)
Definition initialize (endpoint : string)
    (connection_type : McpClient.MCPConnectionType)
    (auth_token : option string)
    (custom_rate_limits : option RateLimiter.WhatsAppRateLimits) : WM bool :=
  try_catch
    ((match custom_rate_limits with
      | Some limits => set_rate_limits limits
      | None => ret tt
      end) ;;;
     self <- get_self ;;
     on_mcp_client
       (McpClient.add_server
          (whatsapp_config (server_name self) endpoint connection_type
             auth_token)) ;;;
     success <- on_mcp_client (McpClient.connect (mcp env) (server_name self)) ;;
     if (success : bool) then ret true else ret false)
    ret
    (fun e => ret false).

(** [authenticate]; an empty [phone_number] is left out of the arguments
    like [None]. *)
Definition authenticate (phone_number : option string) : WM json :=
  try_catch
    (_enforce_rate_limit "auth" ;;;
     let auth_args :=
       match phone_number with
       | Some p => if String.eqb p "" then [] else [("phone_number", JStr p)]
       | None => []
       end in
     result <- execute_tool "authenticate" (JObj auth_args) (Some 120) ;;
     set_session (with_phone_number phone_number) ;;;
     t_start <- datetime_now ;;
     set_session (with_session_start t_start) ;;;
     t_activity <- datetime_now ;;
     set_session (with_last_activity t_activity) ;;;
     status <- result_get "status" result ;;
     (if eq_str status "authenticated" then
        set_session (with_is_authenticated true) ;;;
        set_session (with_connection_status "connected") ;;;
        set_session (with_qr_code_required false)
      else
        qr_code <- result_get "qr_code" result ;;
        if truthy qr_code then
          set_session (with_qr_code_required true) ;;;
          set_session (with_connection_status "awaiting_qr")
        else ret tt) ;;;
     ret result)
    ret
    (fun e =>
       set_session (with_connection_status "error") ;;;
       raise (mkExn MCPClientError ("Authentication failed: " +:+ str e))).

(** [get_connection_status] *)
Definition get_connection_status : WM json :=
  try_catch
    (_enforce_rate_limit "status" ;;;
     result <- execute_tool "get_status" (JObj []) None ;;
     connected <- result_get "is_connected" result ;;
     (if truthy connected then
        set_session (with_connection_status "connected") ;;;
        set_session (with_is_authenticated true)
      else
        set_session (with_connection_status "disconnected") ;;;
        set_session (with_is_authenticated false)) ;;;
     t <- datetime_now ;;
     set_session (with_last_activity t) ;;;
     ret result)
    ret
    (fun e =>
       set_session (with_connection_status "error") ;;;
       ret (JObj [("is_connected", JBool false); ("error", JStr (str e))])).

(** The list that [list_chats] makes of a result: the ["chats"] member of
    a dict that has one, a list as it is, otherwise the empty list. *)
Definition chats_of (result : json) : json :=
  match result with
  | JObj fields =>
      match assoc "chats" fields with
      | Some chats => chats
      | None => JArr []
      end
  | JArr _ => result
  | _ => JArr []
  end.

(** [list_chats] *)
Definition list_chats (limit page : Z) (include_last_message : bool)
    (sort_by : string) : WM json :=
  try_catch
    (_enforce_rate_limit "chats" ;;;
     result <- execute_tool "list_chats"
                 (JObj [("limit", JNum limit); ("page", JNum page);
                        ("include_last_message", JBool include_last_message);
                        ("sort_by", JStr sort_by)]) None ;;
     t <- datetime_now ;;
     set_session (with_last_activity t) ;;;
     ret (chats_of result))
    ret
    (fun e => raise (mkExn MCPToolError ("Chat listing failed: " +:+ str e))).

(** [disconnect] *)
Definition disconnect : WM unit :=
  try_catch
    (self <- get_self ;;
     (if is_authenticated (session self)
      then execute_tool "disconnect" (JObj []) None ;;; ret tt
      else ret tt) ;;;
     on_mcp_client (McpClient.disconnect (mcp env) (server_name self)) ;;;
     set_session (with_is_authenticated false) ;;;
     set_session (with_connection_status "disconnected") ;;;
     t <- datetime_now ;;
     set_session (with_last_activity t))
    ret
    (fun e => ret tt).

End Client.

(** [is_connected] of the client *)
Definition is_connected (w : WhatsAppMCPClient) : bool :=
  McpClient.is_connected (McpClient.client (mcp_client w)) (server_name w).

(** *** Definitions used to state the properties *)

(** The answer of [get_connection_status] when the query failed. *)
Definition status_error (e : PyExn) : json :=
  JObj [("is_connected", JBool false); ("error", JStr (str e))].

(** *** Sample clients *)

(** A transport that opens and fails every request; the clock reads the
    number of earlier readings, in seconds. *)
Definition offline_env : Env :=
  {| mcp := McpClient.failing_env;
     time_time := RateLimiter.seconds |}.

(** A client whose server ["demo"] is configured and connected and whose
    session is authenticated. *)
Definition authenticated_client : WhatsAppMCPClient :=
  {| server_name := "demo";
     mcp_client := snd (McpClient.connect McpClient.failing_env "demo"
                          McpClient.demo_start);
     limiter := RateLimiter.fresh RateLimiter.default_limits;
     session := with_is_authenticated true new_session;
     clock_reads := 0 |}.

End WhatsAppClient.
(** * Properties of [mcp_client.py] *)

Module McpClientProofs.
Import McpClient.

(** *** Basic facts about [connect] *)

(** Simplification that leaves the map operations folded. *)
Ltac msimpl := cbn -[lookup insert delete].

Section ClientFacts.
Context (env : Env).

Lemma connect_configured (server_name : string) (s : St) :
  is_Some (servers (client s) !! server_name) →
  ∃ s', connect env server_name s
          = (Return (transport_open env (opens (world s))), s')
    ∧ servers (client s') = servers (client s)
    ∧ calls (world s') = calls (world s)
    ∧ closes (world s') = closes (world s)
    ∧ opens (world s') = S (opens (world s))
    ∧ trace (world s')
        = trace (world s)
            ++ [EvOpen server_name (transport_open env (opens (world s)))]
    ∧ (transport_open env (opens (world s)) = true →
         is_Some (connections (client s') !! server_name)
         ∧ (is_active <$> sessions (client s') !! server_name) = Some true)
    ∧ (transport_open env (opens (world s)) = false → client s' = client s)
    ∧ (is_Some (connections (client s) !! server_name) →
         is_Some (connections (client s') !! server_name)).
Proof.
  intros [config Hcfg].
  unfold connect, bind, get_client. rewrite Hcfg.
  unfold try_catch, bind, _connect_sse, _connect_websocket, _connect_stdio,
    _connect_transport.
  destruct (transport_open env (opens (world s))) eqn:Hopen.
  - destruct (connection_type config); rewrite Hopen; cbn;
      (eexists; split; [reflexivity|]); cbn;
      repeat split; try done; intros;
      rewrite ?lookup_insert_eq; eauto.
  - destruct (connection_type config); rewrite Hopen; cbn;
      (eexists; split; [reflexivity|]); cbn;
      repeat split; try done.
Qed.

Lemma connect_unconfigured (server_name : string) (s : St) :
  servers (client s) !! server_name = None →
  connect env server_name s
    = (Raise (mkExn MCPConnectionError
                ("Server '" +:+ server_name +:+ "' not configured")), s).
Proof.
  intros Hcfg. unfold connect, bind, get_client. rewrite Hcfg. reflexivity.
Qed.

Lemma attempt_connected (server_name tool_name : string) (arguments : json)
    (t : Z) (s : St) :
  is_Some (connections (client s) !! server_name) →
  _execute_tool_request env server_name tool_name arguments t s
    = (transport_call env (calls (world s)),
       after_attempt server_name tool_name s).
Proof.
  intros [conn Hconn].
  unfold _execute_tool_request, bind, emit, set_world, get_client; cbn.
  rewrite Hconn. reflexivity.
Qed.

Lemma attempt_unconnected (server_name tool_name : string) (arguments : json)
    (t : Z) (s : St) :
  connections (client s) !! server_name = None →
  ∃ s', _execute_tool_request env server_name tool_name arguments t s
          = (Raise (mkExn KeyError ("'" +:+ server_name +:+ "'")), s')
        ∧ client s' = client s ∧ calls (world s') = calls (world s).
Proof.
  intros Hconn.
  unfold _execute_tool_request, bind, emit, set_world, get_client; cbn.
  rewrite Hconn. eexists; split; [reflexivity|done].
Qed.

(** The factor of the delay: [Z.ldexp 1 attempt] is the float of
    [2 ** attempt] for every attempt that has one, 1 for the first and
    twice the one before up to [2 ** 1023]. *)
Lemma backoff_factor_doubles :
  Z.ldexp 1 0 = 1%float
  ∧ forallb (fun k => (Z.ldexp 1 (Z.of_nat (S k))
                       =? 2 * Z.ldexp 1 (Z.of_nat k))%float)
      (seq 0 1023) = true
  ∧ backoff_delay demo_config 1023 = Return (Z.ldexp 1 1023)
  ∧ backoff_delay demo_config 1024 = Raise overflow_error.
Proof. repeat split; vm_compute; reflexivity. Qed.

Lemma on_failure_usable (config : MCPServerConfig) (server_name : string)
    (attempt : Z) (e : PyExn) (s : St) :
  usable server_name s →
  attempt < 1024 ∨ max_retries config - 1 ≤ attempt →
  ∃ s', on_failure env config server_name attempt e s = (Return tt, s')
    ∧ usable server_name s'
    ∧ calls (world s') = calls (world s)
    ∧ trace (world s')
        = trace (world s)
            ++ failure_events config server_name attempt e
                 (transport_open env (opens (world s))).
Proof.
  intros [Hcfg Hconn] Hsmall. unfold on_failure, failure_events.
  destruct (attempt <? max_retries config - 1) eqn:Hlast.
  - apply Z.ltb_lt in Hlast.
    unfold bind at 1. unfold backoff_delay.
    replace (1024 <=? attempt) with false
      by (symmetry; apply Z.leb_gt; lia).
    unfold bind at 1. unfold sleep, emit, set_world. cbn -[connect Z.ldexp].
    destruct (is_connection_error e).
    + unfold bind. cbn -[connect Z.ldexp].
      match goal with |- context [connect env server_name ?s1] =>
        destruct (connect_configured server_name s1 Hcfg)
          as (s2 & Hc & Hsrv & Hcalls & _ & _ & Htr & _ & _ & Hkeep)
      end.
      cbn -[Z.ldexp] in *. rewrite Hc. eexists; split; [reflexivity|].
      split; [split; [rewrite Hsrv; done | auto] |].
      split; [done|]. rewrite Htr, <- !app_assoc. reflexivity.
    + cbn -[Z.ldexp]. eexists; split; [reflexivity|]. cbn -[Z.ldexp].
      repeat split; done.
  - cbn. eexists; split; [reflexivity|]. rewrite app_nil_r. repeat split; done.
Qed.

(** Whatever the number of the attempt, the [except] branch returns or
    raises [OverflowError]; it keeps the server usable, makes no attempt,
    and closes nothing. *)
Lemma on_failure_any (config : MCPServerConfig) (server_name : string)
    (attempt : Z) (e : PyExn) (s : St) :
  usable server_name s →
  ∃ res s' evs,
    on_failure env config server_name attempt e s = (res, s')
    ∧ usable server_name s'
    ∧ calls (world s') = calls (world s)
    ∧ trace (world s') = trace (world s) ++ evs
    ∧ Forall (fun ev => is_attempt ev = false
                        ∧ is_teardown_or_cancel ev = false) evs
    ∧ (res = Return tt ∨ res = Raise overflow_error).
Proof.
  intros Hus.
  destruct (Z_lt_le_dec attempt 1024) as [Hsmall|Hbig].
  - destruct (on_failure_usable config server_name attempt e s Hus
                (or_introl Hsmall)) as (s' & Hof & Hus' & Hcalls & Htr).
    eexists _, s', _. split; [exact Hof|]. split; [exact Hus'|].
    split; [exact Hcalls|]. split; [exact Htr|]. split; [|by left].
    unfold failure_events.
    destruct (_ <? _), (is_connection_error e); repeat constructor.
  - destruct (Z_lt_le_dec attempt (max_retries config - 1)) as [Hmore|Hlast].
    + unfold on_failure.
      replace (attempt <? max_retries config - 1) with true
        by (symmetry; apply Z.ltb_lt; lia).
      unfold bind at 1. unfold backoff_delay.
      replace (1024 <=? attempt) with true
        by (symmetry; apply Z.leb_le; lia).
      eexists _, s, []. split; [reflexivity|]. split; [exact Hus|].
      split; [reflexivity|]. rewrite app_nil_r. split; [reflexivity|].
      split; [constructor|by right].
    + destruct (on_failure_usable config server_name attempt e s Hus
                  (or_intror Hlast)) as (s' & Hof & Hus' & Hcalls & Htr).
      eexists _, s', _. split; [exact Hof|]. split; [exact Hus'|].
      split; [exact Hcalls|]. split; [exact Htr|]. split; [|by left].
      unfold failure_events.
      destruct (_ <? _), (is_connection_error e); repeat constructor.
Qed.

Lemma retry_loop_step (config : MCPServerConfig) (server_name tool_name : string)
    (arguments : json) (t : Z) (r : nat) (attempt : Z)
    (last : option PyExn) (s : St) :
  is_Some (connections (client s) !! server_name) →
  retry_loop env config server_name tool_name arguments t (S r) attempt last s
  = match transport_call env (calls (world s)) with
    | Return v => (Return v, after_attempt server_name tool_name s)
    | Raise e =>
        match on_failure env config server_name attempt e
                (after_attempt server_name tool_name s) with
        | (Return _, s') =>
            retry_loop env config server_name tool_name arguments t r
              (attempt + 1) (Some e) s'
        | (Raise e', s') => (Raise e', s')
        end
    end.
Proof.
  intros Hconn. cbn [retry_loop]. unfold try_catch.
  rewrite attempt_connected by done.
  destruct (transport_call env (calls (world s))); reflexivity.
Qed.

(** **** Every attempt fails *)

Lemma retry_loop_exhausted (config : MCPServerConfig)
    (server_name tool_name : string) (arguments : json) (t : Z) :
  max_retries config ≤ 1025 →
  ∀ (r : nat) (attempt : Z) (last : option PyExn) (s : St),
    usable server_name s →
    Z.of_nat r + attempt = max_retries config →
    (∀ i, (i < r)%nat →
          raised (transport_call env (calls (world s) + i)%nat) = true) →
    ∃ s' evs,
      retry_loop env config server_name tool_name arguments t r attempt last s
        = (Raise (mkExn MCPToolError
                    (exhausted_message config
                       (match r with
                        | O => last
                        | S r' =>
                            match transport_call env (calls (world s) + r')%nat with
                            | Raise e => Some e
                            | Return _ => None
                            end
                        end))), s')
      ∧ usable server_name s'
      ∧ trace (world s') = trace (world s) ++ evs
      ∧ schedule evs
          = backoff_schedule server_name tool_name (retry_delay config) r attempt.
Proof.
  intros Hcap.
  induction r as [|r IH]; intros attempt last s Hus Hn Hfail.
  - exists s, []. cbn. rewrite app_nil_r. done.
  - destruct Hus as [Hcfg Hconn].
    rewrite retry_loop_step by done.
    pose proof (Hfail 0%nat ltac:(lia)) as H0.
    rewrite Nat.add_0_r in H0.
    destruct (transport_call env (calls (world s))) as [v|e] eqn:Hcall;
      [discriminate|].
    destruct (on_failure_usable config server_name attempt e
                (after_attempt server_name tool_name s))
      as (s1 & Hof & Hus1 & Hcalls1 & Htr1); [split; done | lia |].
    rewrite Hof.
    destruct (IH (attempt + 1) (Some e) s1 Hus1) as (s' & evs & Hloop & Hus' & Htr & Hsch).
    { lia. }
    { intros i Hi. rewrite Hcalls1. cbn [after_attempt world calls].
      replace (S (calls (world s)) + i)%nat with (calls (world s) + S i)%nat by lia.
      apply Hfail. lia. }
    exists s'. eexists. split; [|split; [done|split]].
    + rewrite Hloop. do 3 f_equal.
      destruct r as [|r'].
      * rewrite Nat.add_0_r, Hcall. reflexivity.
      * rewrite Hcalls1. cbn [after_attempt world calls].
        replace (S (calls (world s)) + r')%nat
          with (calls (world s) + S r')%nat by lia.
        reflexivity.
    + rewrite Htr, Htr1. cbn [after_attempt world trace].
      rewrite <- !app_assoc. reflexivity.
    + unfold schedule in *. rewrite !List.filter_app, Hsch.
      unfold failure_events. cbn [backoff_schedule].
      destruct r as [|r'].
      * replace (attempt <? max_retries config - 1) with false
          by (symmetry; apply Z.ltb_ge; lia).
        reflexivity.
      * replace (attempt <? max_retries config - 1) with true
          by (symmetry; apply Z.ltb_lt; lia).
        destruct (is_connection_error e); reflexivity.
Qed.

(** **** Any answers: result, attempts and reconnects of the loop *)

Lemma attempt_outcomes_S (c0 n : nat) :
  attempt_outcomes env c0 (S n)
  = transport_call env c0 :: attempt_outcomes env (S c0) n.
Proof.
  unfold attempt_outcomes. cbn [seq map]. rewrite Nat.add_0_r. f_equal.
  rewrite <- seq_shift, List.map_map. apply List.map_ext.
  intros i. f_equal. lia.
Qed.

Lemma reconnects_app (evs1 evs2 : list Event) :
  reconnects (evs1 ++ evs2) = (reconnects evs1 + reconnects evs2)%nat.
Proof. unfold reconnects. rewrite List.filter_app, length_app. reflexivity. Qed.

Lemma attempts_app (evs1 evs2 : list Event) :
  attempts (evs1 ++ evs2) = (attempts evs1 + attempts evs2)%nat.
Proof. unfold attempts. rewrite List.filter_app, length_app. reflexivity. Qed.

Lemma failure_events_attempts (config : MCPServerConfig) (server_name : string)
    (attempt : Z) (e : PyExn) (opened : bool) :
  attempts (failure_events config server_name attempt e opened) = 0%nat.
Proof.
  unfold failure_events.
  destruct (attempt <? max_retries config - 1), (is_connection_error e);
    reflexivity.
Qed.

Lemma failure_events_reconnects (config : MCPServerConfig)
    (server_name : string) (attempt : Z) (e : PyExn) (opened : bool) :
  reconnects (failure_events config server_name attempt e opened)
  = if (attempt <? max_retries config - 1) && is_connection_error e
    then 1%nat else 0%nat.
Proof.
  unfold failure_events.
  destruct (attempt <? max_retries config - 1), (is_connection_error e);
    reflexivity.
Qed.

Lemma retry_loop_spec (config : MCPServerConfig)
    (server_name tool_name : string) (arguments : json) (t : Z) :
  max_retries config ≤ 1025 →
  ∀ (r : nat) (attempt : Z) (last : option PyExn) (s : St),
    usable server_name s →
    r = 0%nat ∨ Z.of_nat r + attempt = max_retries config →
    let outcomes := attempt_outcomes env (calls (world s)) r in
    ∃ s' evs,
      retry_loop env config server_name tool_name arguments t r attempt last s
        = (loop_result config last outcomes, s')
      ∧ usable server_name s'
      ∧ trace (world s') = trace (world s) ++ evs
      ∧ attempts evs = Nat.min r (S (length (failed_prefix outcomes)))
      ∧ reconnects evs
        = length (List.filter is_connection_error
                    (firstn (r - 1) (failed_prefix outcomes))).
Proof.
  intros Hcap.
  induction r as [|r IH]; intros attempt last s Hus Hn outcomes; subst outcomes.
  - exists s, []. cbn. rewrite app_nil_r. done.
  - destruct Hn as [|Hn]; [discriminate|].
    pose proof Hus as [Hcfg Hconn].
    rewrite retry_loop_step by done.
    rewrite attempt_outcomes_S.
    destruct (transport_call env (calls (world s))) as [v|e] eqn:Hcall.
    + exists (after_attempt server_name tool_name s),
        [EvAttempt server_name tool_name].
      cbn [loop_result failed_prefix length]. rewrite firstn_nil.
      repeat split; try done. cbn. lia.
    + destruct (on_failure_usable config server_name attempt e
                  (after_attempt server_name tool_name s))
        as (s1 & Hof & Hus1 & Hcalls1 & Htr1); [split; done | lia |].
      rewrite Hof.
      destruct (IH (attempt + 1) (Some e) s1 Hus1) as (s' & evs & Hloop & Hus' & Htr & Hatt & Hrec).
      { destruct r; [by left | right; lia]. }
      rewrite Hcalls1 in Hloop, Hatt, Hrec.
      cbn [after_attempt world calls] in Hloop, Hatt, Hrec.
      exists s'. eexists. split; [exact Hloop|]. split; [done|]. split.
      { rewrite Htr, Htr1. cbn [after_attempt world trace].
        rewrite <- !app_assoc. reflexivity. }
      cbn [failed_prefix length].
      rewrite !attempts_app, !reconnects_app, failure_events_attempts,
        failure_events_reconnects, Hatt, Hrec.
      split; [cbn; lia|].
      destruct r as [|r'].
      * replace (attempt <? max_retries config - 1) with false
          by (symmetry; apply Z.ltb_ge; lia).
        reflexivity.
      * replace (attempt <? max_retries config - 1) with true
          by (symmetry; apply Z.ltb_lt; lia).
        replace (S (S r') - 1)%nat with (S r') by lia.
        replace (S r' - 1)%nat with r' by lia.
        cbn [firstn List.filter andb].
        destruct (is_connection_error e); reflexivity.
Qed.

(** The failures before the first success, when the first [k] answers are
    failures and the next one is a success. *)
Lemma failed_prefix_then_success (config : MCPServerConfig) (v : json) :
  ∀ (k c0 n : nat) (last : option PyExn),
    (k < n)%nat →
    (∀ i, (i < k)%nat → raised (transport_call env (c0 + i)%nat) = true) →
    transport_call env (c0 + k)%nat = Return v →
    failed_prefix (attempt_outcomes env c0 n)
      = failed_prefix (attempt_outcomes env c0 k)
    ∧ length (failed_prefix (attempt_outcomes env c0 k)) = k
    ∧ loop_result config last (attempt_outcomes env c0 n) = Return v.
Proof.
  induction k as [|k IH]; intros c0 n last Hk Hfail Hok;
    (destruct n as [|n']; [lia|]); rewrite attempt_outcomes_S.
  - rewrite Nat.add_0_r in Hok. rewrite Hok. done.
  - rewrite attempt_outcomes_S.
    pose proof (Hfail 0%nat ltac:(lia)) as H0. rewrite Nat.add_0_r in H0.
    destruct (transport_call env c0) as [?|e]; [discriminate|].
    cbn [failed_prefix loop_result length].
    destruct (IH (S c0) n' (Some e)) as (Hfp & Hlen & Hres).
    + lia.
    + intros i Hi.
      replace (S c0 + i)%nat with (c0 + S i)%nat by lia. apply Hfail. lia.
    + replace (S c0 + k)%nat with (c0 + S k)%nat by lia. done.
    + rewrite Hfp, Hlen, Hres. done.
Qed.

Lemma failed_prefix_all (P : PyExn → bool) :
  ∀ (k c0 : nat),
    (∀ i, (i < k)%nat →
          ∃ e, transport_call env (c0 + i)%nat = Raise e ∧ P e = true) →
    List.filter P (failed_prefix (attempt_outcomes env c0 k))
    = failed_prefix (attempt_outcomes env c0 k).
Proof.
  induction k as [|k IH]; intros c0 Hall; [reflexivity|].
  rewrite attempt_outcomes_S.
  destruct (Hall 0%nat ltac:(lia)) as (e & He & HP).
  rewrite Nat.add_0_r in He. rewrite He. cbn [failed_prefix List.filter].
  rewrite HP, IH; [reflexivity|].
  intros i Hi. replace (S c0 + i)%nat with (c0 + S i)%nat by lia.
  apply Hall. lia.
Qed.

(** The loop never ends with a connection error of its own. *)
Lemma loop_result_not_connection_error (config : MCPServerConfig) :
  ∀ (outcomes : list (Outcome json)) (last : option PyExn) (e : PyExn),
    loop_result config last outcomes = Raise e → is_connection_error e = false.
Proof.
  induction outcomes as [|[v|e'] rest IH]; intros last e H; cbn in H.
  - inversion H. reflexivity.
  - discriminate.
  - eauto.
Qed.

(** **** From [execute_tool] into the loop *)

Lemma execute_tool_enters_loop (server_name tool_name : string)
    (arguments : json) (tov : option Z) (config : MCPServerConfig) (s : St) :
  servers (client s) !! server_name = Some config →
  is_Some (connections (client s) !! server_name)
  ∨ transport_open env (opens (world s)) = true →
  ∃ s1,
    execute_tool env server_name tool_name arguments tov s
      = retry_loop env config server_name tool_name arguments
          (timeout_or tov (timeout config))
          (Z.to_nat (max_retries config)) 0 None s1
    ∧ usable server_name s1
    ∧ calls (world s1) = calls (world s)
    ∧ trace (world s1)
        = trace (world s)
            ++ match connections (client s) !! server_name with
               | Some _ => []
               | None => [EvOpen server_name true]
               end.
Proof.
  intros Hcfg Hready.
  unfold execute_tool. unfold bind at 1. unfold get_client at 1.
  destruct (connections (client s) !! server_name) as [conn|] eqn:Hconn.
  - unfold bind, ret, get_client. msimpl. rewrite Hcfg.
    destruct (sessions (client s) !! server_name) as [session|]; msimpl.
    + eexists; split; [reflexivity|]. unfold usable. msimpl.
      rewrite app_nil_r, Hcfg, Hconn. repeat split; eauto.
    + eexists; split; [reflexivity|].
      rewrite app_nil_r. unfold usable. rewrite Hcfg, Hconn. repeat split; eauto.
  - destruct Hready as [[? ?]|Hopen]; [discriminate|].
    destruct (connect_configured server_name s ltac:(eauto))
      as (s2 & Hc & Hsrv & Hcalls & _ & _ & Htr & Hok & _ & _).
    destruct (Hok Hopen) as [Hconn2 _].
    unfold bind at 1. unfold bind at 1. rewrite Hc, Hopen.
    unfold ret at 1. unfold bind, get_client. rewrite Hsrv, Hcfg.
    destruct (sessions (client s2) !! server_name) as [session|]; msimpl.
    + eexists; split; [reflexivity|]. msimpl.
      unfold usable; msimpl. rewrite Hsrv, Hcfg, Hcalls, Htr, Hopen.
      repeat split; eauto.
    + eexists; split; [reflexivity|].
      unfold usable. rewrite Hsrv, Hcfg, Hcalls, Htr, Hopen.
      repeat split; eauto.
Qed.

(** **** Reading the schedule *)

Lemma attempts_schedule (evs : list Event) :
  attempts (schedule evs) = attempts evs.
Proof.
  unfold attempts, schedule.
  induction evs as [|ev evs IH]; [reflexivity|].
  destruct ev; cbn; rewrite ?IH; cbn; congruence.
Qed.

Lemma sleeps_schedule (evs : list Event) :
  sleeps (schedule evs) = sleeps evs.
Proof.
  unfold sleeps, schedule.
  induction evs as [|ev evs IH]; [reflexivity|].
  destruct ev; cbn; rewrite ?IH; reflexivity.
Qed.

Lemma attempts_backoff (server_name tool_name : string) (delay : float) :
  ∀ (r : nat) (attempt : Z),
    attempts (backoff_schedule server_name tool_name delay r attempt) = r.
Proof.
  unfold attempts.
  induction r as [|r IH]; intros attempt; [reflexivity|].
  cbn [backoff_schedule]. destruct r as [|r']; [reflexivity|].
  cbn [List.filter is_attempt length]. rewrite IH. reflexivity.
Qed.

Lemma sleeps_backoff (server_name tool_name : string) (delay : float) :
  ∀ (r : nat) (attempt : Z),
    sleeps (backoff_schedule server_name tool_name delay r attempt)
    = map (fun k => (delay * Z.ldexp 1 (attempt + Z.of_nat k))%float)
        (seq 0 (r - 1)).
Proof.
  induction r as [|r IH]; intros attempt; [reflexivity|].
  cbn [backoff_schedule]. destruct r as [|r']; [reflexivity|].
  cbn [sleeps flat_map app]. fold (sleeps (backoff_schedule server_name tool_name delay (S r') (attempt + 1))).
  rewrite IH.
  replace (S (S r') - 1)%nat with (S (S r' - 1)) by lia.
  cbn [seq map]. rewrite Z.add_0_r. f_equal.
  rewrite <- seq_shift, List.map_map.
  apply List.map_ext. intros k. do 2 f_equal. lia.
Qed.

(** [execute_tool] on a server whose loop is reached, for any answers of
    the transport. *)
Lemma execute_tool_spec (server_name tool_name : string)
    (arguments : json) (tov : option Z) (config : MCPServerConfig) (s : St) :
  servers (client s) !! server_name = Some config →
  is_Some (connections (client s) !! server_name)
  ∨ transport_open env (opens (world s)) = true →
  max_retries config ≤ 1025 →
  let n := Z.to_nat (max_retries config) in
  let outcomes := attempt_outcomes env (calls (world s)) n in
  ∃ s' evs,
    execute_tool env server_name tool_name arguments tov s
      = (loop_result config None outcomes, s')
    ∧ usable server_name s'
    ∧ trace (world s')
        = trace (world s)
            ++ match connections (client s) !! server_name with
               | Some _ => []
               | None => [EvOpen server_name true]
               end ++ evs
    ∧ attempts evs = Nat.min n (S (length (failed_prefix outcomes)))
    ∧ reconnects evs
      = length (List.filter is_connection_error
                  (firstn (n - 1) (failed_prefix outcomes))).
Proof.
  intros Hcfg Hready Hcap n outcomes. subst n outcomes.
  destruct (execute_tool_enters_loop server_name tool_name arguments tov
              config s Hcfg Hready) as (s1 & Hexec & Hus & Hcalls & Htr1).
  destruct (retry_loop_spec config server_name tool_name arguments
              (timeout_or tov (timeout config)) Hcap
              (Z.to_nat (max_retries config)) 0 None s1 Hus)
    as (s' & evs & Hloop & Hus' & Htr & Hatt & Hrec).
  { destruct (Z_le_gt_dec (max_retries config) 0) as [Hle|Hgt].
    - left. destruct (max_retries config); try reflexivity; lia.
    - right. lia. }
  rewrite Hcalls in Hloop, Hatt, Hrec.
  exists s', evs. rewrite Hexec, Hloop, Htr, Htr1, <- app_assoc. done.
Qed.

(** The loop for any configuration and any answers: it closes nothing,
    never ends with a connection error, fails when every attempt fails,
    and its first attempt decides when it succeeds. *)
Lemma retry_loop_any (config : MCPServerConfig)
    (server_name tool_name : string) (arguments : json) (t : Z) :
  ∀ (r : nat) (attempt : Z) (last : option PyExn) (s : St),
    usable server_name s →
    ∃ res s' evs,
      retry_loop env config server_name tool_name arguments t r attempt last s
        = (res, s')
      ∧ usable server_name s'
      ∧ trace (world s') = trace (world s) ++ evs
      ∧ Forall (fun ev => is_teardown_or_cancel ev = false) evs
      ∧ (∀ e, res = Raise e → is_connection_error e = false)
      ∧ ((∀ i, (i < r)%nat →
               raised (transport_call env (calls (world s) + i)%nat) = true) →
         raised res = true)
      ∧ match r with
        | O => evs = []
        | S _ =>
            ∃ later,
              evs = EvAttempt server_name tool_name :: later
              ∧ ∀ v, transport_call env (calls (world s)) = Return v →
                     res = Return v ∧ later = []
        end.
Proof.
  induction r as [|r IH]; intros attempt last s Hus.
  - eexists _, s, []. cbn [retry_loop]. unfold raise.
    split; [reflexivity|]. split; [exact Hus|].
    rewrite app_nil_r. split; [reflexivity|]. split; [constructor|].
    split; [intros e [= <-]; reflexivity|]. split; [reflexivity|reflexivity].
  - pose proof Hus as [Hcfg Hconn].
    rewrite retry_loop_step by done.
    destruct (transport_call env (calls (world s))) as [v|e] eqn:Hcall.
    + eexists _, _, [EvAttempt server_name tool_name].
      split; [reflexivity|]. split; [split; done|].
      split; [reflexivity|]. split; [repeat constructor|].
      split; [discriminate|]. split.
      * intros Hfail. specialize (Hfail 0%nat ltac:(lia)).
        rewrite Nat.add_0_r, Hcall in Hfail. discriminate.
      * exists []. split; [reflexivity|]. intros v' [= <-]. done.
    + destruct (on_failure_any config server_name attempt e
                  (after_attempt server_name tool_name s))
        as (res1 & s1 & evs1 & Hof & Hus1 & Hcalls1 & Htr1 & Hall1 & Hres1);
        [split; done|].
      rewrite Hof.
      assert (Hquiet : Forall (fun ev => is_teardown_or_cancel ev = false) evs1).
      { eapply Forall_impl; [exact Hall1|]. cbn. intros ev [_ H]. exact H. }
      destruct Hres1 as [-> | ->].
      * destruct (IH (attempt + 1) (Some e) s1 Hus1)
          as (res & s' & evs & Hloop & Hus' & Htr & Hall & Hnce & Hfails & _).
        rewrite Hloop. eexists res, s', _.
        split; [reflexivity|]. split; [exact Hus'|]. split.
        { rewrite Htr, Htr1. cbn [after_attempt world trace].
          rewrite <- !app_assoc. reflexivity. }
        split.
        { apply Forall_app. split; [repeat constructor|].
          apply Forall_app. split; assumption. }
        split; [exact Hnce|]. split.
        { intros Hfail. apply Hfails. intros i Hi.
          rewrite Hcalls1. cbn [after_attempt world calls].
          replace (S (calls (world s)) + i)%nat
            with (calls (world s) + S i)%nat by lia.
          apply Hfail. lia. }
        eexists. split; [reflexivity|]. intros v [=].
      * eexists _, s1, _.
        split; [reflexivity|]. split; [exact Hus1|]. split.
        { rewrite Htr1. cbn [after_attempt world trace].
          rewrite <- app_assoc. reflexivity. }
        split.
        { apply Forall_app. split; [repeat constructor|assumption]. }
        split; [intros e' [= <-]; reflexivity|].
        split; [reflexivity|].
        eexists. split; [reflexivity|]. intros v [=].
Qed.

End ClientFacts.

(** **** The claims about the retry loop *)

(** X20.  A configured server whose retry loop is reached (it has a
    connection record, or the automatic connect succeeds), between 1 and
    1025 permitted attempts, every attempt failing, every delay below
    [infinity].  Then [execute_tool] issues exactly [max_retries]
    attempts, sleeps [retry_delay * 2 ^ k] (the float product) after the
    [(k+1)]-th attempt for every attempt but the last (and at no other
    time), and raises an [MCPToolError] whose message gives [max_retries]
    as the number of attempts followed by the text of the failure of the
    last attempt. *)
Theorem execute_tool_exhausts_retries (env : Env)
    (server_name tool_name : string) (arguments : json) (tov : option Z)
    (config : MCPServerConfig) (s : St) :
  servers (client s) !! server_name = Some config →
  is_Some (connections (client s) !! server_name)
  ∨ transport_open env (opens (world s)) = true →
  1 ≤ max_retries config ≤ 1025 →
  delays_return config →
  (∀ i, (i < Z.to_nat (max_retries config))%nat →
        raised (transport_call env (calls (world s) + i)%nat) = true) →
  ∃ s' evs e_last,
    execute_tool env server_name tool_name arguments tov s
      = (Raise (mkExn MCPToolError
                  ("Tool execution failed after "
                   +:+ pretty (max_retries config)
                   +:+ " attempts: " +:+ str e_last)), s')
    ∧ transport_call env
        (calls (world s) + (Z.to_nat (max_retries config) - 1))%nat
      = Raise e_last
    ∧ trace (world s') = trace (world s) ++ evs
    ∧ attempts evs = Z.to_nat (max_retries config)
    ∧ sleeps evs
      = map (fun k => (retry_delay config * Z.ldexp 1 (Z.of_nat k))%float)
          (seq 0 (Z.to_nat (max_retries config) - 1))
    ∧ schedule evs
      = backoff_schedule server_name tool_name (retry_delay config)
          (Z.to_nat (max_retries config)) 0.
Proof.
  intros Hcfg Hready Hn _ Hfail.
  destruct (execute_tool_enters_loop env server_name tool_name arguments tov
              config s Hcfg Hready) as (s1 & Hexec & Hus & Hcalls & Htr1).
  destruct (retry_loop_exhausted env config server_name tool_name arguments
              (timeout_or tov (timeout config)) ltac:(lia)
              (Z.to_nat (max_retries config)) 0 None s1 Hus)
    as (s' & evs & Hloop & _ & Htr & Hsch).
  { lia. }
  { intros i Hi. rewrite Hcalls. auto. }
  destruct (Z.to_nat (max_retries config)) as [|r'] eqn:HN; [lia|].
  pose proof (Hfail r' ltac:(lia)) as Hlast.
  rewrite Hcalls in Hloop.
  destruct (transport_call env (calls (world s) + r')%nat) as [v|e_last] eqn:Hcall;
    [discriminate|].
  set (pre := match connections (client s) !! server_name with
              | Some _ => []
              | None => [EvOpen server_name true]
              end) in *.
  assert (Hpre : schedule pre = []).
  { subst pre. destruct (connections (client s) !! server_name); reflexivity. }
  assert (Hall : schedule (pre ++ evs)
                 = backoff_schedule server_name tool_name (retry_delay config)
                     (S r') 0).
  { unfold schedule in *. rewrite List.filter_app, Hpre, Hsch. reflexivity. }
  exists s', (pre ++ evs), e_last.
  split; [rewrite Hexec, Hloop; reflexivity|].
  split; [replace (S r' - 1)%nat with r' by lia; done|].
  split; [rewrite Htr, Htr1, <- app_assoc; reflexivity|].
  split; [rewrite <- attempts_schedule, Hall; apply attempts_backoff|].
  split; [|done].
  rewrite <- sleeps_schedule, Hall, sleeps_backoff.
  apply List.map_ext. intros k. reflexivity.
Qed.

Lemma execute_tool_exhausts_retries_witness :
  ∃ s' evs e_last,
    execute_tool failing_env "demo" "ping" (JObj []) None demo_start
      = (Raise (mkExn MCPToolError
                  ("Tool execution failed after " +:+ pretty 3
                   +:+ " attempts: " +:+ str e_last)), s')
    ∧ transport_call failing_env (0 + (Z.to_nat 3 - 1))%nat = Raise e_last
    ∧ trace (world s') = [] ++ evs
    ∧ attempts evs = Z.to_nat 3
    ∧ sleeps evs
      = map (fun k => (1 * Z.ldexp 1 (Z.of_nat k))%float) (seq 0 (Z.to_nat 3 - 1))
    ∧ schedule evs = backoff_schedule "demo" "ping" 1 (Z.to_nat 3) 0.
Proof.
  apply (execute_tool_exhausts_retries failing_env "demo" "ping" (JObj []) None
           demo_config demo_start).
  - reflexivity.
  - right. reflexivity.
  - cbn. lia.
  - intros k Hk. cbn in Hk.
    assert (Hk' : k = 0 ∨ k = 1) by lia.
    destruct Hk' as [-> | ->]; reflexivity.
  - intros i _. reflexivity.
Defined.

(** C1, where the code departs from it.  With room for 1026 attempts, no
    delay between them and a transport that fails every request, the
    call does not use up its attempts: the delay after the 1025th attempt
    is [retry_delay * (2 ** 1024)], whose second factor does not convert
    to a float.  [execute_tool] raises that [OverflowError] instead of
    the [MCPToolError], after 1025 attempts and 1024 sleeps. *)
Theorem execute_tool_overflows_before_exhaustion :
  let result :=
    execute_tool failing_env "demo" "ping" (JObj []) None eager_start in
  servers (client eager_start) !! "demo" = Some eager_config
  ∧ max_retries eager_config = 1026
  ∧ (∀ i, raised (transport_call failing_env i) = true)
  ∧ fst result = Raise overflow_error
  ∧ attempts (trace (world (snd result))) = 1025%nat
  ∧ sleeps (trace (world (snd result))) = repeat 0%float 1024.
Proof.
  cbv zeta. split; [reflexivity|]. split; [reflexivity|].
  split; [intros i; reflexivity|].
  split; [vm_compute; reflexivity|].
  split; vm_compute; reflexivity.
Qed.

(** With [max_retries <= 0] the loop body never runs: no attempt is
    issued and the error reports [None] as the last failure. *)
Lemma execute_tool_without_attempts (env : Env)
    (server_name tool_name : string) (arguments : json) (tov : option Z)
    (config : MCPServerConfig) (s : St) :
  servers (client s) !! server_name = Some config →
  is_Some (connections (client s) !! server_name)
  ∨ transport_open env (opens (world s)) = true →
  max_retries config ≤ 0 →
  ∃ s' evs,
    execute_tool env server_name tool_name arguments tov s
      = (Raise (mkExn MCPToolError
                  ("Tool execution failed after "
                   +:+ pretty (max_retries config) +:+ " attempts: None")), s')
    ∧ trace (world s') = trace (world s) ++ evs
    ∧ attempts evs = 0%nat.
Proof.
  intros Hcfg Hready Hn.
  destruct (execute_tool_spec env server_name tool_name arguments tov config s
              Hcfg Hready ltac:(lia)) as (s' & evs & Hexec & _ & Htr & Hatt & _).
  replace (Z.to_nat (max_retries config)) with 0%nat in * by lia.
  eexists s', _. split; [exact Hexec|]. split; [exact Htr|].
  rewrite attempts_app, Hatt.
  destruct (connections (client s) !! server_name); reflexivity.
Qed.

(** X21.  On a configured server whose retry loop is reached, with at
    most 1025 permitted attempts and every delay below [infinity], and
    for any answers of the transport: the reconnects triggered during the
    call are as many as the failed attempts, the last permitted attempt
    left out, whose failure is an [MCPConnectionError]; a failure of any
    other class triggers none.  In particular, when the first
    [k < max_retries] attempts fail with [MCPConnectionError] and the
    next one succeeds, the call returns that success after [k + 1]
    attempts and exactly [k] reconnects. *)
Theorem reconnect_only_on_connection_error (env : Env)
    (server_name tool_name : string) (arguments : json) (tov : option Z)
    (config : MCPServerConfig) (s : St) :
  servers (client s) !! server_name = Some config →
  is_Some (connections (client s) !! server_name)
  ∨ transport_open env (opens (world s)) = true →
  max_retries config ≤ 1025 →
  delays_return config →
  ∃ res s' evs,
    execute_tool env server_name tool_name arguments tov s = (res, s')
    ∧ trace (world s') = trace (world s) ++ evs
    ∧ reconnects evs
      = length (List.filter is_connection_error
                  (firstn (Z.to_nat (max_retries config) - 1)
                     (failed_prefix
                        (attempt_outcomes env (calls (world s))
                           (Z.to_nat (max_retries config))))))
    ∧ ∀ (k : nat) (v : json),
        (k < Z.to_nat (max_retries config))%nat →
        (∀ i, (i < k)%nat →
           ∃ e, transport_call env (calls (world s) + i)%nat = Raise e
                ∧ is_connection_error e = true) →
        transport_call env (calls (world s) + k)%nat = Return v →
        res = Return v ∧ attempts evs = S k ∧ reconnects evs = k.
Proof.
  intros Hcfg Hready Hcap _.
  destruct (execute_tool_spec env server_name tool_name arguments tov config s
              Hcfg Hready Hcap) as (s' & evs & Hexec & _ & Htr & Hatt & Hrec).
  set (pre := match connections (client s) !! server_name with
              | Some _ => []
              | None => [EvOpen server_name true]
              end) in *.
  assert (Hpre : attempts pre = 0%nat ∧ reconnects pre = 0%nat).
  { subst pre. destruct (connections (client s) !! server_name); done. }
  destruct Hpre as [Hpa Hpr].
  eexists _, s', (pre ++ evs).
  split; [exact Hexec|]. split; [exact Htr|].
  rewrite attempts_app, reconnects_app, Hpa, Hpr, Hatt, Hrec. cbn [Nat.add].
  split; [reflexivity|].
  intros k v Hk Hfail Hok.
  destruct (failed_prefix_then_success env config v k (calls (world s))
              (Z.to_nat (max_retries config)) None Hk) as (Hfp & Hlen & Hres).
  { intros i Hi. destruct (Hfail i Hi) as (e & -> & _). reflexivity. }
  { exact Hok. }
  rewrite Hres, Hfp, Hlen.
  split; [reflexivity|]. split; [lia|].
  rewrite firstn_all2 by lia.
  rewrite (failed_prefix_all env is_connection_error k _ Hfail). exact Hlen.
Qed.

Lemma reconnect_only_on_connection_error_witness :
  ∃ s' evs,
    execute_tool flaky_env "demo" "ping" (JObj []) None demo_start
      = (Return (JObj [("pong", JBool true)]), s')
    ∧ trace (world s') = evs
    ∧ attempts evs = 3%nat ∧ reconnects evs = 2%nat.
Proof.
  destruct (reconnect_only_on_connection_error flaky_env "demo" "ping"
              (JObj []) None demo_config demo_start)
    as (res & s' & evs & Hexec & Htr & _ & Hk).
  - reflexivity.
  - right. reflexivity.
  - cbn. lia.
  - intros k Hk. cbn in Hk.
    assert (Hk' : k = 0 ∨ k = 1) by lia.
    destruct Hk' as [-> | ->]; reflexivity.
  - destruct (Hk 2%nat (JObj [("pong", JBool true)])) as (-> & Ha & Hr).
    + cbn. lia.
    + intros i Hi. exists (mkExn MCPConnectionError "WebSocket connection closed").
      destruct i as [|[|i]]; [split; reflexivity | split; reflexivity | lia].
    + reflexivity.
    + exists s', evs.
      split; [exact Hexec|]. split; [exact Htr|]. split; [exact Ha|exact Hr].
Defined.

(** C2, where the code departs from it.  With room for 1027 attempts, no
    delay between them, and a transport whose first 1025 requests meet a
    closed connection and whose 1026th request would be answered: the
    call does not reach the attempt that succeeds.  After the 1025th
    failure the delay [retry_delay * (2 ** 1024)] cannot be computed, and
    [execute_tool] raises [OverflowError] after 1025 attempts and 1024
    reconnects. *)
Theorem reconnects_end_in_overflow_before_recovery :
  let result :=
    execute_tool recovering_env "demo" "ping" (JObj []) None patient_start in
  servers (client patient_start) !! "demo" = Some patient_config
  ∧ max_retries patient_config = 1027
  ∧ (∀ i, (i < 1025)%nat →
          ∃ e, transport_call recovering_env i = Raise e
               ∧ is_connection_error e = true)
  ∧ transport_call recovering_env 1025 = Return (JObj [("pong", JBool true)])
  ∧ fst result = Raise overflow_error
  ∧ attempts (trace (world (snd result))) = 1025%nat
  ∧ reconnects (trace (world (snd result))) = 1024%nat.
Proof.
  cbv zeta. split; [reflexivity|]. split; [reflexivity|].
  split.
  { intros i Hi. eexists. unfold recovering_env. cbn [transport_call].
    replace (i <? 1025)%nat with true by (symmetry; apply Nat.ltb_lt; exact Hi).
    split; reflexivity. }
  split; [reflexivity|].
  split; [vm_compute; reflexivity|].
  split; vm_compute; reflexivity.
Qed.

(** C9.  A configured server without a connection record: [execute_tool]
    opens the transport itself before anything else.  When the open fails
    it raises [MCPConnectionError] without issuing a request.  When the
    open succeeds it goes on with the call: the connection record is
    there afterwards, the first attempt is issued when [max_retries >= 1]
    and its answer, when it is a success, is what the call returns; with
    at most 1025 permitted attempts and every delay below [infinity] the
    call ends with what the retry loop makes of the answers.  And whenever it raises an
    [MCPConnectionError], the open had failed. *)
Theorem execute_tool_connects_first (env : Env)
    (server_name tool_name : string) (arguments : json) (tov : option Z)
    (config : MCPServerConfig) (s : St) :
  servers (client s) !! server_name = Some config →
  connections (client s) !! server_name = None →
  let opened := transport_open env (opens (world s)) in
  let n := Z.to_nat (max_retries config) in
  let outcomes := attempt_outcomes env (calls (world s)) n in
  ∃ res s' evs,
    execute_tool env server_name tool_name arguments tov s = (res, s')
    ∧ trace (world s') = trace (world s) ++ EvOpen server_name opened :: evs
    ∧ (opened = false →
         res = Raise (mkExn MCPConnectionError
                        ("Cannot connect to server: " +:+ server_name))
         ∧ evs = []
         ∧ client s' = client s)
    ∧ (opened = true →
         is_Some (connections (client s') !! server_name)
         ∧ (1 ≤ max_retries config →
            ∃ later,
              evs = EvAttempt server_name tool_name :: later
              ∧ ∀ v, transport_call env (calls (world s)) = Return v →
                     res = Return v ∧ later = [])
         ∧ (max_retries config ≤ 1025 → delays_return config →
            res = loop_result config None outcomes
            ∧ attempts evs = Nat.min n (S (length (failed_prefix outcomes)))))
    ∧ (∀ e, res = Raise e → is_connection_error e = true → opened = false).
Proof.
  intros Hcfg Hnone opened n outcomes. subst n outcomes.
  destruct opened eqn:Hopen; subst opened.
  - destruct (execute_tool_enters_loop env server_name tool_name arguments tov
                config s Hcfg (or_intror Hopen))
      as (s1 & Hexec & Hus1 & Hcalls1 & Htr1).
    rewrite Hnone in Htr1.
    destruct (retry_loop_any env config server_name tool_name arguments
                (timeout_or tov (timeout config))
                (Z.to_nat (max_retries config)) 0 None s1 Hus1)
      as (res & s' & evs & Hloop & [_ Hconn] & Htr & _ & Hnce & _ & Hfirst).
    exists res, s', evs. split; [rewrite Hexec; exact Hloop|].
    split; [rewrite Htr, Htr1, <- app_assoc; reflexivity|].
    split; [discriminate|]. split.
    + intros _. split; [exact Hconn|]. split.
      * intros Hone.
        destruct (Z.to_nat (max_retries config)) as [|n'] eqn:Hn; [lia|].
        rewrite Hcalls1 in Hfirst. exact Hfirst.
      * intros Hcap _.
        destruct (execute_tool_spec env server_name tool_name arguments tov
                    config s Hcfg (or_intror Hopen) Hcap)
          as (s2 & evs2 & Hexec2 & _ & Htr2 & Hatt & _).
        rewrite Hexec, Hloop in Hexec2. injection Hexec2 as Hres <-.
        rewrite Hnone, Htr, Htr1, <- app_assoc in Htr2.
        apply app_inv_head in Htr2. injection Htr2 as <-.
        split; [exact Hres|exact Hatt].
    + intros e He Hce. rewrite (Hnce e He) in Hce. discriminate.
  - destruct (connect_configured env server_name s ltac:(eauto))
      as (s1 & Hc & _ & _ & _ & _ & Htr & _ & Hsame & _).
    rewrite Hopen in Hc, Htr.
    exists (Raise (mkExn MCPConnectionError
                     ("Cannot connect to server: " +:+ server_name))), s1, [].
    split.
    { unfold execute_tool. unfold bind at 1. unfold get_client at 1.
      rewrite Hnone. unfold bind at 1. unfold bind at 1. rewrite Hc.
      reflexivity. }
    split; [exact Htr|]. split; [auto|]. split; [discriminate|]. done.
Qed.

Lemma execute_tool_connects_first_witness :
  ∃ res s' evs,
    execute_tool flaky_env "demo" "ping" (JObj []) None demo_start = (res, s')
    ∧ trace (world s') = EvOpen "demo" true :: evs
    ∧ res = Return (JObj [("pong", JBool true)])
    ∧ attempts evs = 3%nat.
Proof.
  destruct (execute_tool_connects_first flaky_env "demo" "ping" (JObj []) None
              demo_config demo_start)
    as (res & s' & evs & Hexec & Htr & _ & Hok & _).
  - reflexivity.
  - reflexivity.
  - destruct (Hok eq_refl) as (_ & _ & Hloop).
    destruct Hloop as [Hres Hatt]; [cbn; lia| |].
    { intros k Hk. cbn in Hk.
      assert (Hk' : k = 0 ∨ k = 1) by lia.
      destruct Hk' as [-> | ->]; reflexivity. }
    exists res, s', evs.
    split; [exact Hexec|]. split; [exact Htr|]. split; [exact Hres|exact Hatt].
Defined.

(** C10.  [list_tools] always returns: the empty list when [execute_tool]
    raises, whatever the exception (so also for a server that is not
    configured or cannot be reached), and otherwise the ["tools"] entry of
    the result, or the empty list when the result has none. *)
Theorem list_tools_never_raises (env : Env) (server_name : string) (s : St) :
  list_tools env server_name s
  = (Return
       (match fst (execute_tool env server_name "list_tools" (JObj []) None s) with
        | Return (JObj fields) =>
            match assoc "tools" fields with
            | Some tools => tools
            | None => JArr []
            end
        | Return _ => JArr []
        | Raise _ => JArr []
        end),
     snd (execute_tool env server_name "list_tools" (JObj []) None s))
  ∧ (servers (client s) !! server_name = None →
     fst (list_tools env server_name s) = Return (JArr []))
  ∧ (connections (client s) !! server_name = None →
     transport_open env (opens (world s)) = false →
     fst (list_tools env server_name s) = Return (JArr [])).
Proof.
  assert (Hgen : list_tools env server_name s
    = (Return
         (match fst (execute_tool env server_name "list_tools" (JObj []) None s) with
          | Return (JObj fields) =>
              match assoc "tools" fields with
              | Some tools => tools
              | None => JArr []
              end
          | Return _ => JArr []
          | Raise _ => JArr []
          end),
       snd (execute_tool env server_name "list_tools" (JObj []) None s))).
  { unfold list_tools, try_catch, bind.
    destruct (execute_tool env server_name "list_tools" (JObj []) None s)
      as [[result|e] s']; [|reflexivity].
    destruct result; reflexivity. }
  split; [exact Hgen|]. rewrite Hgen. cbn [fst].
  split.
  - intros Hnone.
    unfold execute_tool. unfold bind at 1. unfold get_client at 1.
    destruct (connections (client s) !! server_name) as [conn|].
    + unfold bind, ret, get_client. rewrite Hnone. reflexivity.
    + unfold bind at 1. unfold bind at 1.
      rewrite connect_unconfigured by done. reflexivity.
  - intros Hnone Hopen.
    unfold execute_tool. unfold bind at 1. unfold get_client at 1.
    rewrite Hnone. unfold bind at 1. unfold bind at 1.
    destruct (servers (client s) !! server_name) as [config|] eqn:Hcfg.
    + destruct (connect_configured env server_name s ltac:(eauto))
        as (s1 & Hc & _).
      rewrite Hc, Hopen. reflexivity.
    + rewrite connect_unconfigured by done. reflexivity.
Qed.

(** **** Closing a connection *)

Lemma close_never_raises (env : Env) (server_name : string) (s : St) :
  fst (_close_connection env server_name s) = Return tt.
Proof.
  unfold _close_connection, try_catch.
  match goal with |- context [let (_, _) := ?body s in _] =>
    destruct (body s) as [[[]|e] s'] end; reflexivity.
Qed.

(** The health-check entry goes first, whatever happens next. *)
Lemma close_cancel_step (server_name : string) (s : St) :
  ∃ s0,
    (match _health_check_tasks (client s) !! server_name with
     | Some task =>
         emit (EvCancel task) ;;;
         set_client (with_tasks (fun m => delete server_name m))
     | None => ret tt
     end) s = (Return tt, s0)
    ∧ connections (client s0) = connections (client s)
    ∧ sessions (client s0) = sessions (client s)
    ∧ servers (client s0) = servers (client s)
    ∧ _health_check_tasks (client s0) !! server_name = None
    ∧ closes (world s0) = closes (world s).
Proof.
  destruct (_health_check_tasks (client s) !! server_name) as [task|] eqn:Ht.
  - eexists; split; [reflexivity|]. msimpl.
    rewrite lookup_delete_eq. done.
  - eexists; split; [reflexivity|]. done.
Qed.

(** The teardown of the transport returns: the entry is removed and the
    session, when there is one, is kept with its flag cleared. *)
Lemma close_clean (env : Env) (server_name : string) (s : St) :
  is_Some (connections (client s) !! server_name) →
  transport_close env (closes (world s)) = None →
  ∃ s',
    _close_connection env server_name s = (Return tt, s')
    ∧ connections (client s') !! server_name = None
    ∧ _health_check_tasks (client s') !! server_name = None
    ∧ sessions (client s') !! server_name
      = (fun session =>
           {| session_id := session_id session;
              server_name := McpClient.server_name session;
              created_at := created_at session;
              last_activity := last_activity session;
              is_active := false;
              connection_info := connection_info session |})
        <$> sessions (client s) !! server_name
    ∧ is_connected (client s') server_name = false.
Proof.
  intros [conn Hconn] Hclose.
  destruct (close_cancel_step server_name s)
    as (s0 & Hstep & Hc0 & Hs0 & _ & Ht0 & Hcl0).
  unfold _close_connection, try_catch. unfold bind at 1.
  unfold get_client at 1. unfold bind at 1. rewrite Hstep.
  unfold bind at 1. unfold get_client at 1. unfold bind at 1.
  rewrite Hc0, Hconn. unfold bind at 1. unfold teardown.
  rewrite Hcl0, Hclose. unfold set_client at 1. unfold bind, get_client.
  msimpl. rewrite Hs0.
  destruct (sessions (client s) !! server_name) as [session|] eqn:Hsess.
  - eexists; split; [reflexivity|]. unfold is_connected. msimpl.
    rewrite lookup_delete_eq, lookup_insert_eq, Ht0. done.
  - eexists; split; [reflexivity|]. unfold is_connected. msimpl.
    rewrite lookup_delete_eq, Hs0, Hsess, Ht0. done.
Qed.

(** Closing once more after a clean close changes nothing in the client. *)
Lemma close_again (env : Env) (server_name : string) (s : St) :
  connections (client s) !! server_name = None →
  _health_check_tasks (client s) !! server_name = None →
  (∀ session, sessions (client s) !! server_name = Some session →
              is_active session = false) →
  ∃ s',
    _close_connection env server_name s = (Return tt, s')
    ∧ client s' = client s ∧ world s' = world s.
Proof.
  intros Hconn Htask Hsess.
  unfold _close_connection, try_catch, bind, get_client.
  rewrite Htask. unfold ret at 1. rewrite Hconn. unfold ret at 1.
  destruct (sessions (client s) !! server_name) as [session|] eqn:Hs.
  - eexists; split; [reflexivity|]. split; [|reflexivity].
    pose proof (Hsess session eq_refl) as Hact.
    destruct s as [[srv ses con tsk] w]. destruct session.
    cbn -[lookup insert delete] in *. subst.
    unfold with_sessions. msimpl. f_equal. apply insert_id. exact Hs.
  - eexists; split; [reflexivity|]. done.
Qed.


(** Connect, then close, on a transport whose teardown returns: no
    connection entry, the session kept and marked inactive, and a second
    close leaves the client as it is. *)
Lemma connect_then_close_clean (env : Env) (server_name : string) (s : St) :
  is_Some (servers (client s) !! server_name) →
  transport_open env (opens (world s)) = true →
  transport_close env (closes (world s)) = None →
  ∃ s1 s2 s3,
    connect env server_name s = (Return true, s1)
    ∧ _close_connection env server_name s1 = (Return tt, s2)
    ∧ connections (client s2) !! server_name = None
    ∧ (is_active <$> sessions (client s2) !! server_name) = Some false
    ∧ is_connected (client s2) server_name = false
    ∧ _close_connection env server_name s2 = (Return tt, s3)
    ∧ client s3 = client s2.
Proof.
  intros Hcfg Hopen Hclose.
  destruct (connect_configured env server_name s Hcfg)
    as (s1 & Hc & _ & _ & Hcl & _ & _ & Hok & _ & _).
  destruct (Hok Hopen) as [Hconn Hact]. rewrite Hopen in Hc.
  destruct (close_clean env server_name s1 Hconn)
    as (s2 & Hclose2 & Hnone & Htask & Hsess & Hnot).
  { rewrite Hcl. exact Hclose. }
  destruct (close_again env server_name s2 Hnone Htask)
    as (s3 & Hclose3 & Hsame & _).
  { intros session Hs. rewrite Hsess in Hs.
    destruct (sessions (client s1) !! server_name); [|discriminate].
    cbn in Hs. injection Hs as <-. reflexivity. }
  exists s1, s2, s3. repeat split; try done.
  rewrite Hsess.
  destruct (sessions (client s1) !! server_name); [reflexivity|discriminate].
Qed.


End McpClientProofs.

(** * Further properties of [mcp_client.py] *)

Module McpClientMoreProofs.
Import McpClient McpClientProofs.

(** **** [health_check] *)

(** The retry loop with the attempts it issues named. *)
Lemma retry_loop_exhausted_or_not (env : Env) (config : MCPServerConfig)
    (server_name tool_name : string) (arguments : json) (t : Z) :
  max_retries config ≤ 1025 →
  ∀ (r : nat) (attempt : Z) (last : option PyExn) (s : St),
    usable server_name s →
    r = 0%nat ∨ Z.of_nat r + attempt = max_retries config →
    let outcomes := attempt_outcomes env (calls (world s)) r in
    ∃ s' evs,
      retry_loop env config server_name tool_name arguments t r attempt last s
        = (loop_result config last outcomes, s')
      ∧ trace (world s') = trace (world s) ++ evs
      ∧ attempts evs = Nat.min r (S (length (failed_prefix outcomes)))
      ∧ Forall (fun ev => match ev with
                          | EvAttempt srv tool =>
                              srv = server_name ∧ tool = tool_name
                          | _ => True
                          end) (List.filter is_attempt evs).
Proof.
  intros Hcap.
  induction r as [|r IH]; intros attempt last s Hus Hn outcomes; subst outcomes.
  - exists s, []. cbn. rewrite app_nil_r. repeat split. constructor.
  - destruct Hn as [|Hn]; [discriminate|].
    pose proof Hus as [Hcfg Hconn].
    rewrite retry_loop_step by done.
    rewrite attempt_outcomes_S.
    destruct (transport_call env (calls (world s))) as [v|e] eqn:Hcall.
    + exists (after_attempt server_name tool_name s),
        [EvAttempt server_name tool_name].
      cbn [loop_result failed_prefix length].
      split; [reflexivity|]. split; [reflexivity|].
      split; [cbn; lia|]. cbn. repeat constructor.
    + destruct (on_failure_usable env config server_name attempt e
                  (after_attempt server_name tool_name s))
        as (s1 & Hof & Hus1 & Hcalls1 & Htr1); [split; done|lia|].
      rewrite Hof.
      destruct (IH (attempt + 1) (Some e) s1 Hus1)
        as (s' & evs & Hloop & Htr & Hatt & Hall).
      { destruct r; [by left | right; lia]. }
      rewrite Hcalls1 in Hloop, Hatt.
      cbn [after_attempt world calls] in Hloop, Hatt.
      exists s'. eexists. split; [exact Hloop|]. split.
      { rewrite Htr, Htr1. cbn [after_attempt world trace].
        rewrite <- !app_assoc. reflexivity. }
      cbn [failed_prefix length].
      rewrite !attempts_app, failure_events_attempts, Hatt.
      split; [cbn; lia|].
      rewrite !List.filter_app. cbn [List.filter is_attempt app].
      constructor; [done|].
      replace (List.filter is_attempt (failure_events _ _ _ _ _)) with (@nil Event).
      * exact Hall.
      * unfold failure_events.
        destruct (_ <? _), (is_connection_error e); reflexivity.
Qed.

Lemma loop_result_raised (config : MCPServerConfig) :
  ∀ (outcomes : list (Outcome json)) (last : option PyExn),
    raised (loop_result config last outcomes) = forallb raised outcomes.
Proof.
  induction outcomes as [|[v|e] rest IH]; intros last; cbn;
    [reflexivity | reflexivity | apply IH].
Qed.

(** X1.  [health_check] never raises.  Without a connection entry it answers
    [False] at once and leaves the client as it is: it neither connects
    nor issues a request.  On a configured server with a connection entry
    it goes through the retry loop of [execute_tool] with the tool
    ["ping"]: with at most 1025 permitted attempts and every delay below
    [infinity], it answers [False] exactly when every one of the
    [max_retries] attempts fails. *)
Theorem health_check_spec (env : Env) (server_name : string) (s : St) :
  (∃ b s', health_check env server_name s = (Return b, s'))
  ∧ (connections (client s) !! server_name = None →
     health_check env server_name s = (Return false, s))
  ∧ (∀ config,
       servers (client s) !! server_name = Some config →
       is_Some (connections (client s) !! server_name) →
       max_retries config ≤ 1025 →
       delays_return config →
       let outcomes := attempt_outcomes env (calls (world s))
                         (Z.to_nat (max_retries config)) in
       ∃ s' evs,
         health_check env server_name s
           = (Return (negb (forallb raised outcomes)), s')
         ∧ trace (world s') = trace (world s) ++ evs
         ∧ attempts evs
           = Nat.min (Z.to_nat (max_retries config))
               (S (length (failed_prefix outcomes)))
         ∧ Forall (fun ev => match ev with
                             | EvAttempt srv tool =>
                                 srv = server_name ∧ tool = "ping"
                             | _ => True
                             end) (List.filter is_attempt evs)).
Proof.
  split; [|split].
  - unfold health_check, try_catch, bind, get_client.
    destruct (connections (client s) !! server_name); [|eauto].
    destruct (execute_tool env server_name "ping" (JObj []) None s)
      as [[v|e] s']; eauto.
  - intros Hnone. unfold health_check, try_catch, bind, get_client.
    rewrite Hnone. reflexivity.
  - intros config Hcfg Hconn Hcap _ outcomes. subst outcomes.
    pose proof Hconn as [conn Hc].
    destruct (execute_tool_enters_loop env server_name "ping" (JObj []) None
                config s Hcfg (or_introl Hconn))
      as (s1 & Hexec & Hus & Hcalls & Htr1).
    rewrite Hc, app_nil_r in Htr1.
    destruct (retry_loop_exhausted_or_not env config server_name "ping"
                (JObj []) (timeout_or None (timeout config)) Hcap
                (Z.to_nat (max_retries config)) 0 None s1 Hus)
      as (s' & evs & Hloop & Htr & Hatt & Hall).
    { destruct (Z_le_gt_dec (max_retries config) 0) as [Hle|Hgt].
      - left. destruct (max_retries config); try reflexivity; lia.
      - right. lia. }
    rewrite Hcalls in Hloop, Hatt.
    exists s', evs.
    split.
    { unfold health_check, try_catch, bind, get_client. rewrite Hc.
      rewrite Hexec, Hloop. rewrite <- loop_result_raised with (config := config) (last := None).
      destruct (loop_result config None _); reflexivity. }
    split; [rewrite Htr, Htr1; reflexivity|].
    split; [exact Hatt|exact Hall].
Qed.

(** **** A server that is not configured *)

(** X2.  For a name without a configuration [execute_tool] fails before any
    attempt and leaves client and trace as they are: with an
    [MCPConnectionError] raised by the automatic connect when there is no
    connection entry either, and with a bare [KeyError] from the
    configuration lookup when an entry is still there. *)
Theorem execute_tool_unconfigured (env : Env)
    (server_name tool_name : string) (arguments : json) (tov : option Z)
    (s : St) :
  servers (client s) !! server_name = None →
  execute_tool env server_name tool_name arguments tov s
  = (Raise (match connections (client s) !! server_name with
            | None =>
                mkExn MCPConnectionError
                  ("Server '" +:+ server_name +:+ "' not configured")
            | Some _ => mkExn KeyError ("'" +:+ server_name +:+ "'")
            end), s).
Proof.
  intros Hnone.
  unfold execute_tool. unfold bind at 1. unfold get_client at 1.
  destruct (connections (client s) !! server_name) as [conn|].
  - unfold bind, ret, get_client. rewrite Hnone. reflexivity.
  - unfold bind at 1. unfold bind at 1.
    rewrite connect_unconfigured by done. reflexivity.
Qed.

Lemma execute_tool_unconfigured_witness :
  execute_tool failing_env "nowhere" "ping" (JObj []) None demo_start
  = (Raise (mkExn MCPConnectionError "Server 'nowhere' not configured"),
     demo_start).
Proof.
  apply (execute_tool_unconfigured failing_env "nowhere" "ping" (JObj []) None
           demo_start).
  reflexivity.
Defined.

(** **** [connect] on a configured server *)

(** X3.  [connect] on a configured server never raises, never closes the
    transport of a stored connection and never cancels a task: all it
    adds to the trace is the open.  When the open fails the client is left as it is, an earlier
    connection entry included.  When it succeeds, the entry of the server
    holds the new transport, its session is a new live one and its
    health-check task is a new one, whatever was registered before; the
    entries of other servers are untouched. *)
Theorem connect_replaces_without_closing (env : Env) (server_name : string)
    (config : MCPServerConfig) (s : St) :
  servers (client s) !! server_name = Some config →
  let opened := transport_open env (opens (world s)) in
  ∃ s',
    connect env server_name s = (Return opened, s')
    ∧ trace (world s') = trace (world s) ++ [EvOpen server_name opened]
    ∧ (opened = false → client s' = client s)
    ∧ (opened = true →
         connections (client s') !! server_name
           = Some {| conn_type := connection_type config;
                     conn_handle := opens (world s);
                     conn_endpoint := endpoint config |}
         ∧ sessions (client s') !! server_name
           = Some {| session_id := uuid4 env (uuids (world s));
                     McpClient.server_name := server_name;
                     created_at := datetime_now env (nows (world s));
                     last_activity := datetime_now env (S (nows (world s)));
                     is_active := true; connection_info := [] |}
         ∧ _health_check_tasks (client s') !! server_name
           = Some (tasks (world s))
         ∧ tasks (world s') = S (tasks (world s))
         ∧ ∀ other, other ≠ server_name →
             connections (client s') !! other = connections (client s) !! other
             ∧ sessions (client s') !! other = sessions (client s) !! other
             ∧ _health_check_tasks (client s') !! other
               = _health_check_tasks (client s) !! other).
Proof.
  intros Hcfg opened. subst opened.
  unfold connect, bind, get_client. rewrite Hcfg.
  unfold try_catch, bind, _connect_sse, _connect_websocket, _connect_stdio,
    _connect_transport.
  destruct (transport_open env (opens (world s))) eqn:Hopen.
  - destruct (connection_type config) eqn:Hty; rewrite Hopen; msimpl;
      (eexists; split; [reflexivity|]); msimpl;
      (split; [reflexivity|]); (split; [discriminate|]); intros _;
      rewrite !lookup_insert_eq; repeat split; try reflexivity;
      rewrite lookup_insert_ne by done; reflexivity.
  - destruct (connection_type config); rewrite Hopen; msimpl;
      (eexists; split; [reflexivity|]); msimpl;
      (split; [reflexivity|]); (split; [reflexivity|]); discriminate.
Qed.

Lemma connect_replaces_without_closing_witness :
  ∃ s',
    connect failing_env "demo" demo_start = (Return true, s')
    ∧ trace (world s') = [EvOpen "demo" true]
    ∧ _health_check_tasks (client s') !! "demo" = Some 0%nat.
Proof.
  destruct (connect_replaces_without_closing failing_env "demo" demo_config
              demo_start eq_refl) as (s' & Hc & Htr & _ & Hok).
  destruct (Hok eq_refl) as (_ & _ & Htask & _).
  exists s'. split; [exact Hc|]. split; [exact Htr|exact Htask].
Defined.

(** **** [disconnect_all] *)

(** One close whose teardown, if any, returns. *)
Lemma close_any_clean (env : Env) (server_name : string) (s : St) :
  (∀ k, transport_close env k = None) →
  ∃ s',
    _close_connection env server_name s = (Return tt, s')
    ∧ servers (client s') = servers (client s)
    ∧ ∀ other,
        connections (client s') !! other
          = (if decide (other = server_name) then None
             else connections (client s) !! other)
        ∧ sessions (client s') !! other
          = (if decide (other = server_name)
             then deactivate <$> sessions (client s) !! other
             else sessions (client s) !! other).
Proof.
  intros Hclose.
  unfold _close_connection, try_catch, bind, get_client, teardown.
  destruct (_health_check_tasks (client s) !! server_name) as [task|];
    msimpl;
    (destruct (connections (client s) !! server_name) as [conn|] eqn:Hconn;
     msimpl; rewrite ?Hclose; msimpl);
    (destruct (sessions (client s) !! server_name) as [session|] eqn:Hsess;
     msimpl);
    (eexists; split; [reflexivity|]); msimpl;
    (split; [reflexivity|]); intros other;
    (destruct (decide (other = server_name)) as [->|Hne];
     [ rewrite ?lookup_delete_eq, ?lookup_insert_eq, ?Hconn, ?Hsess; done
     | rewrite ?lookup_delete_ne, ?lookup_insert_ne by done; done ]).
Qed.

Lemma close_each_clean (env : Env) :
  (∀ k, transport_close env k = None) →
  ∀ (names : list string) (s : St),
    ∃ s',
      close_each env names s = (Return tt, s')
      ∧ servers (client s') = servers (client s)
      ∧ ∀ other,
          connections (client s') !! other
            = (if decide (other ∈ names) then None
               else connections (client s) !! other)
          ∧ sessions (client s') !! other
            = (if decide (other ∈ names)
               then deactivate <$> sessions (client s) !! other
               else sessions (client s) !! other).
Proof.
  intros Hclose. induction names as [|name names IH]; intros s.
  - exists s. split; [reflexivity|]. split; [reflexivity|].
    intros other. rewrite !decide_False by apply not_elem_of_nil. done.
  - destruct (close_any_clean env name s Hclose) as (s1 & Hc1 & Hsrv1 & H1).
    destruct (IH s1) as (s' & Hc & Hsrv & H).
    exists s'. split.
    { cbn [close_each]. unfold bind. rewrite Hc1. exact Hc. }
    split; [congruence|].
    intros other. destruct (H other) as [Hco Hse].
    destruct (H1 other) as [Hco1 Hse1].
    rewrite Hco, Hse, Hco1, Hse1.
    destruct (decide (other ∈ names)) as [Hin|Hnin],
             (decide (other = name)) as [Heq|Hne],
             (decide (other ∈ name :: names)) as [Hin'|Hnin'];
      try (exfalso; apply Hnin'; first [right; exact Hin | subst; left]; fail);
      try (exfalso; apply elem_of_cons in Hin' as [?|?]; done);
      (split; [reflexivity|]);
      destruct (sessions (client s) !! other); reflexivity.
Qed.

(** X5.  When the teardowns of the transports return, [disconnect_all]
    returns and no connection entry is left and no server is connected;
    the session of every server that had a connection is kept and marked
    inactive, and the other sessions and the configurations are
    untouched. *)
Theorem disconnect_all_clears (env : Env) (s : St) :
  (∀ k, transport_close env k = None) →
  ∃ s',
    disconnect_all env s = (Return tt, s')
    ∧ connections (client s') = ∅
    ∧ servers (client s') = servers (client s)
    ∧ (∀ server_name, is_connected (client s') server_name = false)
    ∧ ∀ server_name,
        sessions (client s') !! server_name
        = (if decide (is_Some (connections (client s) !! server_name))
           then deactivate <$> sessions (client s) !! server_name
           else sessions (client s) !! server_name).
Proof.
  intros Hclose.
  destruct (close_each_clean env Hclose
              (map fst (map_to_list (connections (client s)))) s)
    as (s' & Hc & Hsrv & H).
  assert (Hkeys : ∀ n : string,
             n ∈ map fst (map_to_list (connections (client s)))
             ↔ is_Some (connections (client s) !! n)).
  { intros n. rewrite list_elem_of_fmap. split.
    - intros ([k v] & -> & Hin). apply elem_of_map_to_list in Hin. eauto.
    - intros [v Hv]. exists (n, v). split; [reflexivity|].
      apply elem_of_map_to_list. exact Hv. }
  assert (Hempty : connections (client s') = ∅).
  { apply map_eq. intros n. rewrite lookup_empty.
    destruct (H n) as [-> _].
    destruct (decide (n ∈ _)) as [|Hnin]; [reflexivity|].
    destruct (connections (client s) !! n) eqn:Hn; [|reflexivity].
    exfalso. apply Hnin, Hkeys. eauto. }
  exists s'. split; [unfold disconnect_all, bind, get_client; exact Hc|].
  split; [exact Hempty|]. split; [exact Hsrv|]. split.
  - intros n. unfold is_connected. rewrite Hempty, lookup_empty. reflexivity.
  - intros n. destruct (H n) as [_ ->].
    destruct (decide (n ∈ _)) as [Hin|Hnin];
      destruct (decide (is_Some (connections (client s) !! n))) as [Hs|Hns];
      try reflexivity.
    + exfalso. apply Hns, Hkeys, Hin.
    + exfalso. apply Hnin, Hkeys, Hs.
Qed.

Lemma disconnect_all_clears_witness :
  ∃ s',
    disconnect_all failing_env
      (snd (connect failing_env "demo" demo_start)) = (Return tt, s')
    ∧ connections (client s') = ∅
    ∧ is_connected (client s') "demo" = false.
Proof.
  destruct (disconnect_all_clears failing_env
              (snd (connect failing_env "demo" demo_start)))
    as (s' & Hd & Hempty & _ & Hnot & _).
  - intros k. reflexivity.
  - exists s'. split; [exact Hd|]. split; [exact Hempty|apply Hnot].
Defined.

(** **** Transports are never closed by a call *)

Lemma retry_loop_keeps_transports (env : Env) (config : MCPServerConfig)
    (server_name tool_name : string) (arguments : json) (t : Z) :
  ∀ (r : nat) (attempt : Z) (last : option PyExn) (s : St),
    usable server_name s →
    ∃ res s' evs,
      retry_loop env config server_name tool_name arguments t r attempt last s
        = (res, s')
      ∧ usable server_name s'
      ∧ trace (world s') = trace (world s) ++ evs
      ∧ Forall (fun ev => is_teardown_or_cancel ev = false) evs.
Proof.
  intros r attempt last s Hus.
  destruct (retry_loop_any env config server_name tool_name arguments t
              r attempt last s Hus)
    as (res & s' & evs & Hloop & Hus' & Htr & Hall & _).
  eauto 10.
Qed.

Lemma execute_tool_keeps_transports (env : Env)
    (server_name tool_name : string) (arguments : json) (tov : option Z)
    (s : St) :
  ∃ res s' evs,
    execute_tool env server_name tool_name arguments tov s = (res, s')
    ∧ trace (world s') = trace (world s) ++ evs
    ∧ Forall (fun ev => is_teardown_or_cancel ev = false) evs
    ∧ (is_Some (connections (client s) !! server_name) →
       is_Some (connections (client s') !! server_name)).
Proof.
  destruct (servers (client s) !! server_name) as [config|] eqn:Hcfg.
  - destruct (connections (client s) !! server_name) as [conn|] eqn:Hconn.
    + destruct (execute_tool_enters_loop env server_name tool_name arguments
                  tov config s Hcfg) as (s1 & He & Hus1 & _ & Htr1);
        [left; rewrite Hconn; eauto|].
      destruct (retry_loop_keeps_transports env config server_name tool_name
                  arguments (timeout_or tov (timeout config))
                  (Z.to_nat (max_retries config)) 0 None s1 Hus1)
        as (res & s' & evs & Hloop & Hus' & Htr & Hall).
      rewrite He, Hloop. eexists res, s', evs.
      split; [reflexivity|]. rewrite Hconn in Htr1. rewrite app_nil_r in Htr1.
      split; [rewrite Htr, Htr1; reflexivity|].
      split; [exact Hall|]. intros _. apply Hus'.
    + destruct (transport_open env (opens (world s))) eqn:Hopen.
      * destruct (execute_tool_enters_loop env server_name tool_name arguments
                    tov config s Hcfg) as (s1 & He & Hus1 & _ & Htr1);
          [right; exact Hopen|].
        destruct (retry_loop_keeps_transports env config server_name tool_name
                    arguments (timeout_or tov (timeout config))
                    (Z.to_nat (max_retries config)) 0 None s1 Hus1)
          as (res & s' & evs & Hloop & Hus' & Htr & Hall).
        rewrite He, Hloop. eexists res, s', _.
        split; [reflexivity|]. rewrite Hconn in Htr1.
        split; [rewrite Htr, Htr1, <- app_assoc; reflexivity|].
        split; [|intros _; apply Hus'].
        apply Forall_app. split; [repeat constructor|exact Hall].
      * destruct (connect_configured env server_name s ltac:(eauto))
          as (s2 & Hc & _ & _ & _ & _ & Htr & _ & _ & Hkeep).
        unfold execute_tool. unfold bind at 1. unfold get_client at 1.
        rewrite Hconn. unfold bind at 1. unfold bind at 1.
        rewrite Hc, Hopen. unfold raise.
        eexists _, s2, _. split; [reflexivity|]. split; [exact Htr|].
        split; [repeat constructor|]. intros [? ?]. discriminate.
  - unfold execute_tool. unfold bind at 1. unfold get_client at 1.
    destruct (connections (client s) !! server_name) as [conn|] eqn:Hconn.
    + unfold bind, ret, get_client. rewrite Hcfg.
      eexists _, s, []. rewrite app_nil_r.
      split; [reflexivity|]. split; [reflexivity|].
      split; [constructor|]. intros _. rewrite Hconn. eauto.
    + unfold bind at 1. unfold bind at 1.
      rewrite connect_unconfigured by done.
      eexists _, s, []. rewrite app_nil_r.
      split; [reflexivity|]. split; [reflexivity|].
      split; [constructor|]. intros [? ?]. discriminate.
Qed.

(** When every attempt the loop can make fails, the call raises, whatever
    the number of permitted attempts. *)
Lemma execute_tool_raises_when_all_fail (env : Env)
    (server_name tool_name : string) (arguments : json) (tov : option Z)
    (config : MCPServerConfig) (s : St) :
  servers (client s) !! server_name = Some config →
  is_Some (connections (client s) !! server_name)
  ∨ transport_open env (opens (world s)) = true →
  (∀ i, (i < Z.to_nat (max_retries config))%nat →
        raised (transport_call env (calls (world s) + i)%nat) = true) →
  raised (fst (execute_tool env server_name tool_name arguments tov s)) = true.
Proof.
  intros Hcfg Hready Hfail.
  destruct (execute_tool_enters_loop env server_name tool_name arguments tov
              config s Hcfg Hready) as (s1 & Hexec & Hus & Hcalls & _).
  destruct (retry_loop_any env config server_name tool_name arguments
              (timeout_or tov (timeout config))
              (Z.to_nat (max_retries config)) 0 None s1 Hus)
    as (res & s' & evs & Hloop & _ & _ & _ & _ & Hraised & _).
  rewrite Hexec, Hloop. cbn [fst]. apply Hraised.
  intros i Hi. rewrite Hcalls. auto.
Qed.

(** X6.  [execute_tool] never closes the transport of a stored connection
    and never cancels a health-check task, whatever it returns or raises
    and however often it reconnects: a reconnect opens a new transport
    over the old entry.  A server that had a connection entry before the
    call has one after it. *)
Theorem execute_tool_never_closes (env : Env)
    (server_name tool_name : string) (arguments : json) (tov : option Z)
    (s : St) :
  ∃ evs,
    trace (world (snd (execute_tool env server_name tool_name arguments tov s)))
      = trace (world s) ++ evs
    ∧ Forall (fun ev => is_teardown_or_cancel ev = false) evs
    ∧ (is_Some (connections (client s) !! server_name) →
       is_Some (connections
                  (client (snd (execute_tool env server_name tool_name
                                  arguments tov s))) !! server_name)).
Proof.
  destruct (execute_tool_keeps_transports env server_name tool_name arguments
              tov s) as (res & s' & evs & He & Htr & Hall & Hkeep).
  rewrite He. exists evs. cbn [snd]. auto.
Qed.

End McpClientMoreProofs.

(** * Properties of [mcp_stdio_client.py] *)

Module StdioClientProofs.
Import StdioClient.

(** Unfolds the coroutines of the handshake client down to matches. *)
Ltac unfold_client :=
  unfold call_tool, list_tools, initialize, await_result, try_catch, bind,
    ret, raise, _next_id, _send_request, _read_response, set_server_info,
    set_initialized_flag in *.

(** **** Before the handshake *)

Lemma call_tool_uninitialized (tool_name : string) (arguments : json)
    (c : MCPStdioClient) :
  initialized c = false →
  call_tool tool_name arguments c = (Raise not_initialized, c).
Proof. intros H. unfold call_tool. rewrite H. reflexivity. Qed.

Lemma list_tools_uninitialized (c : MCPStdioClient) :
  initialized c = false → list_tools c = (Raise not_initialized, c).
Proof. intros H. unfold list_tools. rewrite H. reflexivity. Qed.

(** **** One call on a live, initialized client *)

Lemma call_tool_live (tool_name : string) (arguments : json)
    (c : MCPStdioClient) (p : Process) (line : option json)
    (rest : list (option json)) :
  process c = Some p → terminated p = false → initialized c = true →
  stdout p = line :: rest →
  call_tool tool_name arguments c
  = (call_outcome (request_id c + 1) line,
     {| server_executable := server_executable c;
        process := Some {| stdout := rest; terminated := false |};
        initialized := true; server_info := server_info c;
        request_id := request_id c + 1;
        wire := wire c ++ [call_request (request_id c + 1) tool_name arguments] |}).
Proof.
  intros Hp Ht Hi Hout. unfold_client. unfold call_outcome.
  rewrite Hi. cbn. rewrite Hp, Ht. cbn. rewrite Ht, Hout. cbn.
  destruct (id_matches line (request_id c + 1)) as [[|]|e]; try reflexivity.
  destruct line as [j|]; [destruct j|]; try reflexivity.
  match goal with |- context [assoc "error" ?f] =>
    destruct (assoc "error" f) end; reflexivity.
Qed.

Lemma list_tools_live (c : MCPStdioClient) (p : Process)
    (line : option json) (rest : list (option json)) :
  process c = Some p → terminated p = false → initialized c = true →
  stdout p = line :: rest →
  list_tools c
  = (list_outcome (request_id c + 1) line,
     {| server_executable := server_executable c;
        process := Some {| stdout := rest; terminated := false |};
        initialized := true; server_info := server_info c;
        request_id := request_id c + 1;
        wire := wire c ++ [list_request (request_id c + 1)] |}).
Proof.
  intros Hp Ht Hi Hout. unfold_client. unfold list_outcome, list_request.
  rewrite Hi. cbn. rewrite Hp, Ht. cbn. rewrite Ht, Hout. cbn.
  destruct (id_matches line (request_id c + 1)) as [[|]|e]; try reflexivity.
  destruct line as [j|]; [destruct j|]; try reflexivity.
  match goal with |- context [assoc "error" ?f] =>
    destruct (assoc "error" f) end; reflexivity.
Qed.

(** **** How an operation moves the counter and the wire *)

(** Case analysis on every test an operation makes. *)
Ltac split_cases :=
  repeat (match goal with
          | |- context [match ?x with _ => _ end] =>
              lazymatch x with
              | context [match _ with _ => _ end] => fail
              | _ => destruct x
              end
          end; cbn).

Lemma wire_ids_snoc (c : MCPStdioClient) (r : Request) (se : string)
    (pr : option Process) (ini : bool) (inf : option json) (rid : Z) :
  wire_ids {| server_executable := se; process := pr; initialized := ini;
              server_info := inf; request_id := rid; wire := wire c ++ [r] |}
  = wire_ids c ++ match req_id r with Some (JNum n) => [n] | _ => [] end.
Proof.
  unfold wire_ids. cbn [wire]. rewrite flat_map_app. cbn [flat_map].
  rewrite app_nil_r. reflexivity.
Qed.

Lemma step_ids (op : Op) (c : MCPStdioClient) :
  (request_id (step op c) = request_id c
   ∧ wire_ids (step op c) = wire_ids c)
  ∨ (request_id (step op c) = request_id c + 1
     ∧ (wire_ids (step op c) = wire_ids c
        ∨ wire_ids (step op c) = wire_ids c ++ [request_id c + 1])).
Proof.
  destruct op; cbn [step]; unfold start, close, tools_of; unfold_client;
    unfold id_matches, dict_get; cbn; split_cases;
    try (left; split; reflexivity);
    right; (split; [reflexivity|]);
    unfold wire_ids; cbn [wire]; rewrite ?flat_map_app; cbn;
    rewrite ?app_nil_r; auto.
Qed.

(** **** The handshake *)

Ltac split_cases_eqn :=
  repeat (match goal with
          | |- context [match ?x with _ => _ end] =>
              lazymatch x with
              | context [match _ with _ => _ end] => fail
              | _ => destruct x eqn:?
              end
          end; cbn).

(** [initialize] never raises and sets the flag exactly when it returns
    [True]. *)
Lemma initialize_flag (c : MCPStdioClient) :
  ∃ b c1, initialize c = (Return b, c1)
          ∧ initialized c1 = (b || initialized c).
Proof.
  unfold_client. unfold id_matches, dict_get. cbn. split_cases;
    (eexists _, _; split; [reflexivity|]); cbn;
    try reflexivity; destruct (initialized c); reflexivity.
Qed.

(** When [initialize] returns [True], the line it read was an envelope
    with the id of the request and no error, and the notification was
    written after the request. *)
Lemma initialize_true (c : MCPStdioClient) :
  fst (initialize c) = Return true →
  ∃ p fields rest v,
    process c = Some p
    ∧ stdout p = Some (JObj fields) :: rest
    ∧ assoc "id" fields = Some v
    ∧ eq_int v (request_id c + 1) = true
    ∧ assoc "error" fields = None
    ∧ wire (snd (initialize c))
      = wire c ++ [initialize_request (request_id c + 1);
                   initialized_notification].
Proof.
  unfold_client. unfold id_matches, dict_get. cbn. split_cases_eqn;
    intros H; try discriminate H.
  all: subst; eexists _, _, _, _; repeat split; eauto.
  all: rewrite <- app_assoc; reflexivity.
Qed.

(** The handshake with a child that answers the request. *)
Lemma initialize_live (c : MCPStdioClient) (p : Process) (result : json)
    (rest : list (option json)) :
  process c = Some p → terminated p = false →
  stdout p = Some (response_ok (JNum (request_id c + 1)) result) :: rest →
  initialize c
  = (Return true,
     {| server_executable := server_executable c;
        process := Some {| stdout := rest; terminated := false |};
        initialized := true; server_info := Some result;
        request_id := request_id c + 1;
        wire := wire c ++ [initialize_request (request_id c + 1);
                           initialized_notification] |}).
Proof.
  intros Hp Ht Hout. unfold_client. unfold id_matches, dict_get, response_ok.
  cbn. rewrite Hp, Ht. cbn. rewrite Ht, Hout. cbn.
  rewrite Z.eqb_refl. cbn. rewrite <- app_assoc. reflexivity.
Qed.

(** C4.  On a client whose handshake has not completed, [call_tool] and
    [list_tools] raise the precondition error at once and leave the client
    as it is: no id is taken and nothing is written to the server.  The
    flag that admits calls is set by [initialize] exactly when it returns
    [True], which it does only after reading an envelope with the id of
    its request and no error, and after writing the [initialized]
    notification.  With a server that answers the handshake and then the
    request, the tool call refused before succeeds afterwards with the
    server's result, and so does the tool listing, with the server's list
    of tools. *)
Theorem tool_calls_need_handshake (c : MCPStdioClient) (tool_name : string)
    (arguments : json) :
  initialized c = false →
  call_tool tool_name arguments c = (Raise not_initialized, c)
  ∧ list_tools c = (Raise not_initialized, c)
  ∧ (∃ b c1, initialize c = (Return b, c1) ∧ initialized c1 = b)
  ∧ (fst (initialize c) = Return true →
     ∃ p fields rest v,
       process c = Some p
       ∧ stdout p = Some (JObj fields) :: rest
       ∧ assoc "id" fields = Some v
       ∧ eq_int v (request_id c + 1) = true
       ∧ assoc "error" fields = None
       ∧ wire (snd (initialize c))
         = wire c ++ [initialize_request (request_id c + 1);
                      initialized_notification])
  ∧ (∀ (p : Process) (init_result result : json) (rest : list (option json)),
       process c = Some p → terminated p = false →
       stdout p
         = Some (response_ok (JNum (request_id c + 1)) init_result)
           :: Some (response_ok (JNum (request_id c + 2)) result) :: rest →
       ∃ c1 c2,
         initialize c = (Return true, c1)
         ∧ call_tool tool_name arguments c1 = (Return result, c2)
         ∧ wire c2
           = wire c ++ [initialize_request (request_id c + 1);
                        initialized_notification;
                        call_request (request_id c + 2) tool_name arguments])
  ∧ (∀ (p : Process) (init_result : json) (tools : list json)
       (rest : list (option json)),
       process c = Some p → terminated p = false →
       stdout p
         = Some (response_ok (JNum (request_id c + 1)) init_result)
           :: Some (response_ok (JNum (request_id c + 2))
                      (JObj [("tools", JArr tools)])) :: rest →
       ∃ c1 c2,
         initialize c = (Return true, c1)
         ∧ list_tools c1 = (Return (JArr tools), c2)
         ∧ wire c2
           = wire c ++ [initialize_request (request_id c + 1);
                        initialized_notification;
                        list_request (request_id c + 2)]).
Proof.
  intros Hinit.
  split; [apply call_tool_uninitialized; exact Hinit|].
  split; [apply list_tools_uninitialized; exact Hinit|].
  split.
  { destruct (initialize_flag c) as (b & c1 & Hi & Hflag).
    exists b, c1. split; [exact Hi|].
    rewrite Hflag, Hinit. apply orb_false_r. }
  split; [apply initialize_true|]. split.
  - intros p init_result result rest Hp Ht Hout.
    eexists _, _. split; [apply (initialize_live c p init_result _ Hp Ht Hout)|].
    erewrite call_tool_live; [| reflexivity | reflexivity | reflexivity | reflexivity].
    cbn [request_id wire]. unfold call_outcome, id_matches, dict_get, response_ok.
    cbn. replace (request_id c + 1 + 1) with (request_id c + 2) by lia.
    rewrite Z.eqb_refl. cbn. rewrite <- app_assoc. done.
  - intros p init_result tools rest Hp Ht Hout.
    eexists _, _. split; [apply (initialize_live c p init_result _ Hp Ht Hout)|].
    erewrite list_tools_live; [| reflexivity | reflexivity | reflexivity | reflexivity].
    cbn [request_id wire]. unfold list_outcome, id_matches, dict_get, response_ok.
    cbn. replace (request_id c + 1 + 1) with (request_id c + 2) by lia.
    rewrite Z.eqb_refl. cbn. rewrite <- app_assoc. done.
Qed.

Lemma tool_calls_need_handshake_witness :
  call_tool "ping" (JObj [("n", JNum 1)])
    (snd (start (Some answering_child) (init "server.py")))
  = (Raise not_initialized,
     snd (start (Some answering_child) (init "server.py")))
  ∧ list_tools (snd (start (Some listing_child) (init "server.py")))
    = (Raise not_initialized,
       snd (start (Some listing_child) (init "server.py")))
  ∧ (∃ c1 c2,
      initialize (snd (start (Some answering_child) (init "server.py")))
        = (Return true, c1)
      ∧ call_tool "ping" (JObj [("n", JNum 1)]) c1
        = (Return (JObj [("echo", JNum 1)]), c2))
  ∧ ∃ c1 c2,
      initialize (snd (start (Some listing_child) (init "server.py")))
        = (Return true, c1)
      ∧ list_tools c1 = (Return (JArr [JObj [("name", JStr "ping")]]), c2).
Proof.
  destruct (tool_calls_need_handshake
              (snd (start (Some answering_child) (init "server.py")))
              "ping" (JObj [("n", JNum 1)]) eq_refl)
    as (Hcall & _ & _ & _ & Hafter & _).
  destruct (tool_calls_need_handshake
              (snd (start (Some listing_child) (init "server.py")))
              "ping" (JObj [("n", JNum 1)]) eq_refl)
    as (_ & Hlist & _ & _ & _ & Hlisted).
  split; [exact Hcall|]. split; [exact Hlist|]. split.
  - destruct (Hafter answering_child (JObj [("serverInfo", JStr "demo")])
                (JObj [("echo", JNum 1)]) [] eq_refl eq_refl eq_refl)
      as (c1 & c2 & Hi & Hc & _).
    exists c1, c2. split; [exact Hi|exact Hc].
  - destruct (Hlisted listing_child (JObj [("serverInfo", JStr "demo")])
                [JObj [("name", JStr "ping")]] [] eq_refl eq_refl eq_refl)
      as (c1 & c2 & Hi & Hc & _).
    exists c1, c2. split; [exact Hi|exact Hc].
Defined.

(** **** Pairing of responses with requests *)

(** C3, as stated, does not hold: the first envelope a call reads decides
    its fate.  A caller whose answer arrives behind an envelope with
    another id fails with "Invalid tool call response"; the envelope is
    not dropped in favour of the matching one. *)
Lemma unmatched_envelope_fails_the_caller : ¬ pairs_by_id.
Proof.
  intros Hpairs.
  specialize (Hpairs chatty_client chatty_child "ping" (JObj []) (JStr "mine")
                7 (JStr "stale") [] eq_refl eq_refl eq_refl).
  cbn in Hpairs. specialize (Hpairs ltac:(lia) eq_refl).
  discriminate Hpairs.
Qed.

(** C3, amended.  A call of the handshake client on a live child reads
    exactly one line, whatever it is.  It returns a result only if that
    line is an envelope whose id equals the id of its own request and that
    has no error member; an envelope with any other id, or with none,
    fails the caller with "Invalid tool call response".  The pipe path of
    the generic client does not compare ids at all: it returns the
    ["result"] member of the next envelope that has no error member. *)
Theorem call_reads_one_envelope (c : MCPStdioClient) (p : Process)
    (tool_name : string) (arguments : json) (line : option json)
    (rest : list (option json)) :
  process c = Some p → terminated p = false → initialized c = true →
  stdout p = line :: rest →
  let id := request_id c + 1 in
  let res := fst (call_tool tool_name arguments c) in
  let c' := snd (call_tool tool_name arguments c) in
  process c' = Some {| stdout := rest; terminated := false |}
  ∧ wire c' = wire c ++ [call_request id tool_name arguments]
  ∧ (∀ r, res = Return r →
       ∃ fields v,
         line = Some (JObj fields)
         ∧ assoc "id" fields = Some v ∧ eq_int v id = true
         ∧ assoc "error" fields = None
         ∧ r = match assoc "result" fields with Some x => x | None => JObj [] end)
  ∧ (∀ fields,
       line = Some (JObj fields) →
       (∀ v, assoc "id" fields = Some v → eq_int v id = false) →
       res = Raise (mkExn PlainException "Invalid tool call response"))
  ∧ (∀ (request_data : Request) (timeout : Z) (fields : list (string * json)),
       line = Some (JObj fields) →
       assoc "error" fields = None →
       fst (fst (_execute_stdio_request p request_data timeout))
       = Return (match assoc "result" fields with
                 | Some x => x
                 | None => JObj []
                 end)).
Proof.
  intros Hp Ht Hi Hout id res c'. subst id res c'.
  rewrite (call_tool_live tool_name arguments c p line rest Hp Ht Hi Hout).
  cbn [fst snd process wire].
  split; [reflexivity|]. split; [reflexivity|]. split; [|split].
  - intros r. unfold call_outcome, id_matches, dict_get.
    destruct line as [j|]; [|discriminate].
    destruct (truthy j); [|discriminate].
    destruct j; try discriminate.
    destruct (assoc "id" fields) as [v|] eqn:Hid; [|discriminate].
    destruct (eq_int v (request_id c + 1)) eqn:Heq; [|discriminate].
    destruct (assoc "error" fields) eqn:Herr; [discriminate|].
    intros [= <-]. eauto 10.
  - intros fields -> Hno. unfold call_outcome, id_matches, dict_get.
    destruct (truthy (JObj fields)); [|reflexivity].
    destruct (assoc "id" fields) as [v|]; [|reflexivity].
    rewrite (Hno v eq_refl). reflexivity.
  - intros request_data timeout fields -> Herr.
    unfold _execute_stdio_request. rewrite Ht, Hout. cbn. rewrite Herr.
    destruct (assoc "result" fields); reflexivity.
Qed.

Lemma call_reads_one_envelope_witness :
  fst (call_tool "ping" (JObj []) chatty_client)
  = Raise (mkExn PlainException "Invalid tool call response")
  ∧ process (snd (call_tool "ping" (JObj []) chatty_client))
    = Some {| stdout := [Some (response_ok (JNum 1) (JStr "mine"))];
              terminated := false |}
  ∧ fst (fst (_execute_stdio_request chatty_child
                (call_request 1 "ping" (JObj [])) 30))
    = Return (JStr "stale").
Proof.
  destruct (call_reads_one_envelope chatty_client chatty_child "ping" (JObj [])
              (Some (response_ok (JNum 7) (JStr "stale")))
              [Some (response_ok (JNum 1) (JStr "mine"))]
              eq_refl eq_refl eq_refl eq_refl)
    as (Hproc & _ & _ & Hbad & Hgeneric).
  split; [|split; [exact Hproc|]].
  - apply (Hbad [("jsonrpc", JStr "2.0"); ("id", JNum 7);
                 ("result", JStr "stale")] eq_refl).
    intros v [= <-]. reflexivity.
  - apply (Hgeneric (call_request 1 "ping" (JObj [])) 30
             [("jsonrpc", JStr "2.0"); ("id", JNum 7); ("result", JStr "stale")]
             eq_refl eq_refl).
Defined.

(** **** Request ids *)

Lemma StronglySorted_snoc (l : list Z) (x : Z) :
  StronglySorted Z.lt l → Forall (fun y => y < x) l →
  StronglySorted Z.lt (l ++ [x]).
Proof.
  induction 1 as [|y l Hs IH Hy]; intros Hall; cbn.
  - repeat constructor.
  - inversion Hall; subst. constructor; [auto|].
    apply Forall_app. split; [exact Hy | repeat constructor; assumption].
Qed.

Lemma ids_upto_succ (n : Z) :
  0 ≤ n → ids_upto (n + 1) = ids_upto n ++ [n + 1].
Proof.
  intros Hn. unfold ids_upto.
  replace (Z.to_nat (n + 1)) with (S (Z.to_nat n)) by lia.
  rewrite seq_S, map_app. cbn [map]. do 2 f_equal. lia.
Qed.

Lemma step_ids_ordered (op : Op) (c : MCPStdioClient) :
  ids_ordered c → ids_ordered (step op c).
Proof.
  intros (Hs & Hb & Hn). unfold ids_ordered.
  destruct (step_ids op c) as [[-> ->]|[-> [->| ->]]].
  - done.
  - split; [done|]. split; [|lia].
    eapply Forall_impl; [exact Hb|]. cbn. intros; lia.
  - split; [|split; [|lia]].
    + apply StronglySorted_snoc; [done|].
      eapply Forall_impl; [exact Hb|]. cbn. intros; lia.
    + apply Forall_app. split.
      * eapply Forall_impl; [exact Hb|]. cbn. intros; lia.
      * repeat constructor; lia.
Qed.

Lemma run_ids_ordered (ops : list Op) :
  ∀ c, ids_ordered c → ids_ordered (run ops c).
Proof.
  induction ops as [|op ops IH]; intros c Hc; [exact Hc|].
  cbn. apply IH, step_ids_ordered, Hc.
Qed.

Lemma step_ids_complete (op : Op) (c : MCPStdioClient) :
  is_request_op op = true → ids_complete c → ids_complete (step op c).
Proof.
  intros Hop ((p & Hp & Ht) & Hn & Hw). unfold ids_complete, live.
  destruct p as [out term]. cbn in Ht. subst term.
  destruct op; try discriminate Hop; cbn [step]; unfold tools_of;
    unfold_client; unfold id_matches, dict_get; cbn;
    rewrite ?Hp; cbn;
    split_cases; cbn; rewrite ?Hp;
    (split; [eexists; split; reflexivity|]);
    try (split; [done|exact Hw]);
    (split; [lia|]);
    unfold wire_ids in *; cbn [wire]; rewrite ?flat_map_app; cbn;
    rewrite ?app_nil_r, Hw, ids_upto_succ by done; reflexivity.
Qed.

Lemma run_ids_complete (ops : list Op) :
  ∀ c, forallb is_request_op ops = true → ids_complete c →
       ids_complete (run ops c).
Proof.
  induction ops as [|op ops IH]; intros c Hops Hc; [exact Hc|].
  cbn in Hops. apply andb_prop in Hops as [Hop Hops].
  cbn. apply IH; [exact Hops|]. apply step_ids_complete; assumption.
Qed.

(** C8, as stated, does not hold: the first request a client writes need
    not carry the id 1.  An [initialize] before the child is started
    takes the id 1 and fails to write; after [start] the first request on
    the wire carries the id 2. *)
Lemma first_written_id_can_be_two : ¬ first_written_id_is_one.
Proof.
  intros Hone.
  specialize (Hone "server.py"
                [OpInitialize; OpStart (Some late_child); OpInitialize]
                2 [] eq_refl).
  discriminate Hone.
Qed.

(** C8, amended.  The counter belongs to the client object: it starts at
    0, is never reset, and an id is taken before the request is written
    and is used up when the write fails.  Over any sequence of operations
    on one client object the ids of the requests written are strictly
    increasing, at least 1 and at most the counter; and when the child is
    started first, stays live and only requests follow, they are exactly
    1, 2, ..., up to the counter. *)
Theorem request_ids_strictly_increase (exe : string) (ops : list Op) :
  StronglySorted Z.lt (wire_ids (run ops (init exe)))
  ∧ Forall (fun i => 1 ≤ i ≤ request_id (run ops (init exe)))
      (wire_ids (run ops (init exe)))
  ∧ (∀ (p : Process) (requests : list Op),
       terminated p = false →
       forallb is_request_op requests = true →
       ops = OpStart (Some p) :: requests →
       wire_ids (run ops (init exe))
       = ids_upto (request_id (run ops (init exe)))).
Proof.
  assert (H0 : ids_ordered (init exe)).
  { repeat split; cbn; try constructor. lia. }
  destruct (run_ids_ordered ops (init exe) H0) as (Hs & Hb & _).
  split; [exact Hs|]. split; [exact Hb|].
  intros p requests Ht Hreq ->. cbn [run fold_left step start snd].
  apply (run_ids_complete requests); [exact Hreq|].
  split; [exists p; done|]. split; [cbn; lia|reflexivity].
Qed.

End StdioClientProofs.

(** * Further properties of [mcp_stdio_client.py] *)

Module StdioClientMoreProofs.
Import StdioClient StdioClientProofs.

(** **** What an operation does to the counter and the flag *)

(** X7.  Every [initialize] takes exactly one id, also when there is no child
    to write to or the handshake fails; [call_tool] and [list_tools] take
    exactly one id when the client is initialized, whatever becomes of
    the call, and none when it is not; [start] and [close] take none. *)
Theorem every_admitted_operation_takes_one_id (op : Op) (c : MCPStdioClient) :
  request_id (step op c) = request_id c + ids_taken op c.
Proof.
  destruct op; cbn [step ids_taken]; unfold start, close, tools_of;
    unfold_client; unfold id_matches, dict_get; cbn; split_cases;
    cbn [request_id]; lia.
Qed.

(** X8.  No operation clears the handshake flag or drops the child: once
    calls are admitted they stay admitted, after [close] and after a
    second [start] as well. *)
Theorem ready_is_never_left (ops : list Op) (c : MCPStdioClient) :
  initialized c = true →
  initialized (run ops c) = true
  ∧ (is_Some (process c) → is_Some (process (run ops c)))
  ∧ ∀ tool_name arguments,
      fst (call_tool tool_name arguments (run ops c)) ≠ Raise not_initialized.
Proof.
  intros Hinit.
  assert (Hstep : ∀ op c0, initialized c0 = true →
            initialized (step op c0) = true
            ∧ (is_Some (process c0) → is_Some (process (step op c0)))).
  { intros op c0 H0.
    destruct op; cbn [step]; unfold start, close, tools_of;
      unfold_client; unfold id_matches, dict_get; cbn; rewrite ?H0; cbn;
      split_cases; cbn; (split; [try reflexivity; exact H0|]);
      intros [q Hq]; first [discriminate Hq | eauto]. }
  assert (Hrun : ∀ ops c0, initialized c0 = true →
            initialized (run ops c0) = true
            ∧ (is_Some (process c0) → is_Some (process (run ops c0)))).
  { clear ops c Hinit. induction ops as [|op ops IH]; intros c0 H0; [done|].
    cbn. destruct (Hstep op c0 H0) as [H1 Hp1].
    destruct (IH (step op c0) H1) as [H2 Hp2]. split; [exact H2|auto]. }
  destruct (Hrun ops c Hinit) as [Hi Hp].
  split; [exact Hi|]. split; [exact Hp|].
  intros tool_name arguments. unfold call_tool. rewrite Hi.
  unfold_client. unfold id_matches, dict_get. cbn.
  split_cases; cbn; discriminate.
Qed.

Lemma ready_is_never_left_witness :
  initialized (run [OpClose; OpStart None; OpCallTool "ping" (JObj [])]
                 chatty_client) = true.
Proof.
  apply (ready_is_never_left [OpClose; OpStart None; OpCallTool "ping" (JObj [])]
           chatty_client).
  reflexivity.
Defined.

(** **** A response stream that lags behind *)

(** X9.  Once the next envelope on the stream answers an earlier request than
    the one about to be sent, the client does not catch up: with a server
    that answers every request in order, each further call reads the
    answer to the request before it and fails with "Invalid tool call
    response". *)
Theorem lagging_stream_never_recovers :
  ∀ (calls : list (string * json)) (c : MCPStdioClient) (first_id : Z)
    (results : list json) (later : list (option json)),
    process c
      = Some {| stdout := answers first_id results ++ later;
                terminated := false |} →
    initialized c = true →
    first_id ≤ request_id c →
    (length calls ≤ length results)%nat →
    Forall (fun outcome => outcome = Raise invalid_tool_call)
      (fst (call_all calls c))
    ∧ request_id (snd (call_all calls c))
      = request_id c + Z.of_nat (length calls).
Proof.
  induction calls as [|[tool_name arguments] calls IH];
    intros c first_id results later Hp Hi Hlag Hlen.
  - cbn. split; [constructor|lia].
  - destruct results as [|r results]; [cbn in Hlen; lia|].
    cbn [call_all].
    rewrite (call_tool_live tool_name arguments c _ _ _ Hp eq_refl Hi eq_refl).
    match goal with |- context [call_all calls ?c1] =>
      destruct (IH c1 (first_id + 1) results later) as [Hall Hid];
        [reflexivity | reflexivity | cbn; lia | cbn in Hlen; lia |];
      destruct (call_all calls c1) as [outcomes c2]
    end.
    cbn [fst snd] in *. split.
    + constructor; [|exact Hall].
      unfold call_outcome, id_matches, dict_get, response_ok. cbn.
      replace (first_id =? request_id c + 1) with false
        by (symmetry; apply Z.eqb_neq; lia).
      reflexivity.
    + rewrite Hid. cbn [request_id length]. lia.
Qed.

Lemma lagging_stream_never_recovers_witness :
  Forall (fun outcome => outcome = Raise invalid_tool_call)
    (fst (call_all [("ping", JObj []); ("ping", JObj [])]
            {| server_executable := "server.py";
               process := Some {| stdout := answers 1 [JStr "a"; JStr "b"] ++ [];
                                  terminated := false |};
               initialized := true; server_info := None; request_id := 1;
               wire := [] |})).
Proof.
  apply (lagging_stream_never_recovers
           [("ping", JObj []); ("ping", JObj [])] _ 1 [JStr "a"; JStr "b"] []).
  - reflexivity.
  - reflexivity.
  - cbn. lia.
  - cbn. lia.
Defined.

(** **** A handshake that fails *)

(** X10.  [initialize] never raises.  When it returns [False] the flag that
    admits calls is as it was and the [initialized] notification has not
    been written: at most the request itself went out.  The id of the
    request is used up all the same. *)
Theorem failed_handshake_leaves_gate_closed (c : MCPStdioClient) :
  ∃ b c1,
    initialize c = (Return b, c1)
    ∧ request_id c1 = request_id c + 1
    ∧ (b = false →
         initialized c1 = initialized c
         ∧ (wire c1 = wire c
            ∨ wire c1 = wire c ++ [initialize_request (request_id c + 1)]))
    ∧ (process c = None → b = false ∧ wire c1 = wire c)
    ∧ (∀ p fields rest,
         process c = Some p → terminated p = false →
         stdout p = Some (JObj fields) :: rest →
         is_Some (assoc "error" fields) → b = false).
Proof.
  unfold_client. unfold id_matches, dict_get, initialize_request. cbn.
  split_cases_eqn; (eexists _, _; split; [reflexivity|]); cbn;
    (split; [reflexivity|]);
    (split; [first [discriminate | intros _; split; [reflexivity|auto]]|]);
    (split; [first [discriminate | intros _; split; reflexivity]|]);
    intros p' fields' rest' Hp' Ht' Hout' Herr';
    try reflexivity;
    injection Hp' as <-; rewrite Hout' in *; try discriminate;
    simplify_eq; destruct Herr' as [? ?]; congruence.
Qed.

(** **** Listing the tools *)

(** X11.  [list_tools] on a live, initialized client whose next envelope
    carries the id of the request and no error.  The value is the
    ["tools"] member of the result when that is a list, a string or a
    dict, and the empty list when the envelope has no result or the
    result has no ["tools"].  The call raises the [TypeError] of
    [len(tools)] when ["tools"] is [None], a bool or a number, and the
    [AttributeError] of [.get] when the result is not a dict. *)
Theorem list_tools_of_envelope (c : MCPStdioClient) (p : Process)
    (fields : list (string * json)) (rest : list (option json)) :
  process c = Some p → terminated p = false → initialized c = true →
  stdout p = Some (JObj fields) :: rest →
  assoc "id" fields = Some (JNum (request_id c + 1)) →
  assoc "error" fields = None →
  fst (list_tools c)
  = match assoc "result" fields with
    | None => Return (JArr [])
    | Some (JObj result) =>
        match assoc "tools" result with
        | None => Return (JArr [])
        | Some JNull => Raise (no_len JNull)
        | Some (JBool b) => Raise (no_len (JBool b))
        | Some (JNum n) => Raise (no_len (JNum n))
        | Some tools => Return tools
        end
    | Some other => Raise (no_attribute_get other)
    end.
Proof.
  intros Hp Ht Hi Hout Hid Herr.
  assert (Htruthy : truthy (JObj fields) = true)
    by (destruct fields; [discriminate Hid|reflexivity]).
  rewrite (list_tools_live c p _ rest Hp Ht Hi Hout). cbn [fst].
  unfold list_outcome, id_matches, dict_get.
  rewrite Htruthy, Hid. cbn -[assoc]. rewrite Z.eqb_refl, Herr.
  unfold tools_of.
  destruct (assoc "result" fields) as [[| | | | |result]|]; cbn -[assoc];
    try reflexivity.
  destruct (assoc "tools" result) as [[]|]; reflexivity.
Qed.

Lemma list_tools_of_envelope_witness :
  fst (list_tools
         {| server_executable := "server.py";
            process := Some {| stdout := [Some (JObj [("id", JNum 1);
                                                      ("result",
                                                       JObj [("tools", JNull)])])];
                               terminated := false |};
            initialized := true; server_info := None; request_id := 0;
            wire := [] |})
  = Raise (mkExn (OtherError "TypeError")
             "object of type 'NoneType' has no len()").
Proof.
  apply (list_tools_of_envelope _
           {| stdout := [Some (JObj [("id", JNum 1);
                                     ("result", JObj [("tools", JNull)])])];
              terminated := false |}
           [("id", JNum 1); ("result", JObj [("tools", JNull)])] []);
    reflexivity.
Defined.

End StdioClientMoreProofs.

(** * Properties of [_enforce_rate_limit] *)

Module RateLimiterProofs.
Import RateLimiter.

(** **** The order of floats *)

Lemma SFcompare_refl (x : spec_float) :
  x ≠ S754_nan → SFcompare x x = Some Eq.
Proof.
  destruct x as [s|s| |s m e]; intros H; try congruence; cbn.
  - reflexivity.
  - destruct s; reflexivity.
  - rewrite Z.compare_refl, Pos.compare_cont_refl. destruct s; reflexivity.
Qed.

Lemma SFleb_trans (x y z : spec_float) :
  SFleb x y = true → SFleb y z = true → SFleb x z = true.
Proof.
  unfold SFleb.
  destruct x as [sx|sx| |sx mx ex], y as [sy|sy| |sy my ey],
           z as [sz|sz| |sz mz ez]; cbn;
    try destruct sx; try destruct sy; try destruct sz; cbn;
    try discriminate; try reflexivity.
  all: change (PosDef.Pos.compare_cont Eq) with Pos.compare.
  all: destruct (Z.compare_spec ex ey), (Z.compare_spec ey ez),
         (Z.compare_spec ex ez); cbn; try discriminate; try reflexivity;
         try lia.
  all: destruct (Pos.compare_spec mx my), (Pos.compare_spec my mz),
         (Pos.compare_spec mx mz); cbn; try discriminate; try reflexivity;
         try lia.
Qed.

(** A finite float is a zero or a mantissa with an exponent. *)
Lemma finite_kinds (x : float) :
  is_finite x = true →
  (∃ s, Prim2SF x = S754_zero s) ∨ (∃ s m e, Prim2SF x = S754_finite s m e).
Proof.
  unfold is_finite, is_nan, is_infinity.
  rewrite !FloatAxioms.eqb_spec, FloatAxioms.abs_spec.
  destruct (Prim2SF x) as [s|s| |s m e]; cbn; eauto.
  - destruct s; discriminate.
  - discriminate.
Qed.

Lemma fle_refl (x : float) : is_finite x = true → fle x x.
Proof.
  intros H. unfold fle. rewrite FloatAxioms.leb_spec. unfold SFleb.
  rewrite SFcompare_refl; [reflexivity|].
  destruct (finite_kinds x H) as [[s ->]|(s & m & e & ->)]; discriminate.
Qed.

Lemma fle_trans (x y z : float) : fle x y → fle y z → fle x z.
Proof. unfold fle. rewrite !FloatAxioms.leb_spec. apply SFleb_trans. Qed.

(** [x - x] is [+0] for a finite [x]. *)
Lemma sub_self (x : float) :
  is_finite x = true → Prim2SF (x - x) = S754_zero false.
Proof.
  intros H. rewrite FloatAxioms.sub_spec.
  destruct (finite_kinds x H) as [[s ->]|(s & m & e & ->)].
  - destruct s; reflexivity.
  - unfold SF64sub, SFsub. cbv zeta. rewrite Z.min_id.
    match goal with
    | |- binary_normalize _ _ ?d _ _ = _ =>
        replace d with 0; [reflexivity|]
    end.
    symmetry. apply Z.sub_diag.
Qed.

(** A finite reading is less than a minute older than itself. *)
Lemma age_of_reading (now : float) :
  is_finite now = true → (now - now <? 60)%float = true.
Proof.
  intros H. rewrite FloatAxioms.ltb_spec, (sub_self now H). reflexivity.
Qed.

(** **** Pruning *)

Lemma prune_In (now horizon : float) (timestamps : list float) (ts : float) :
  In ts (prune now horizon timestamps)
  ↔ In ts timestamps ∧ (now - ts <? horizon)%float = true.
Proof. unfold prune. rewrite List.filter_In. reflexivity. Qed.

Lemma prune_length (now horizon : float) (timestamps : list float) :
  (length (prune now horizon timestamps) ≤ length timestamps)%nat.
Proof. apply List.filter_length_le. Qed.

Lemma prune_app (now horizon : float) (xs ys : list float) :
  prune now horizon (xs ++ ys) = prune now horizon xs ++ prune now horizon ys.
Proof. apply List.filter_app. Qed.

Lemma prune_expired (now horizon oldest : float) (rest : list float) :
  (now - oldest <? horizon)%float = false →
  prune now horizon (oldest :: rest) = prune now horizon rest.
Proof. intros H. unfold prune. cbn [List.filter]. rewrite H. reflexivity. Qed.

(** **** One admission *)

(** A check, case by case: it sleeps [wait horizon now first] when it
    fires on a list that starts with [first]. *)
Lemma wait_for_first_spec (now horizon : float) (limit : Z)
    (xs : list float) (st : Limiter) :
  wait_for_first now horizon limit xs st
  = if limit <=? Z.of_nat (length xs) then
      match xs with
      | [] => (Raise index_error, st)
      | first :: _ =>
          (Return tt,
           {| rate_limits := rate_limits st;
              _request_timestamps := _request_timestamps st;
              log := log st ++ wait horizon now first |})
      end
    else (Return tt, st).
Proof.
  unfold wait_for_first, wait.
  destruct (limit <=? Z.of_nat (length xs)); [|reflexivity].
  destruct xs as [|first rest]; [reflexivity|].
  destruct (0 <? horizon - (now - first))%float; [reflexivity|].
  destruct st. unfold ret. cbn. rewrite app_nil_r. reflexivity.
Qed.

(** The admission, check by check. *)
Lemma enforce_cases (operation_type : string) (now : float) (st : Limiter) :
  let window := prune now 60 (_request_timestamps st) in
  let recent := prune now 1 window in
  let pruned := {| rate_limits := rate_limits st;
                   _request_timestamps := window; log := log st |} in
  _enforce_rate_limit operation_type now st
  = match wait_for_first now 60
            (max_per_minute (rate_limits st) operation_type) window pruned with
    | (Raise e, st1) => (Raise e, st1)
    | (Return _, st1) =>
        match wait_for_first now 1 (requests_per_second (rate_limits st))
                recent st1 with
        | (Raise e, st2) => (Raise e, st2)
        | (Return _, st2) => append_timestamp now st2
        end
    end.
Proof.
  cbv zeta. unfold _enforce_rate_limit, bind, set_timestamps.
  destruct (wait_for_first now 60 _ _ _) as [[[]|e] st1]; [|reflexivity].
  destruct (wait_for_first now 1 _ _ _) as [[[]|e] st2]; reflexivity.
Qed.

(** What an admission makes of the state, in one expression. *)
Lemma enforce_outcome (operation_type : string) (now : float) (st : Limiter) :
  let window := prune now 60 (_request_timestamps st) in
  let recent := prune now 1 window in
  _enforce_rate_limit operation_type now st
  = if max_per_minute (rate_limits st) operation_type
         <=? Z.of_nat (length window) then
      match window with
      | [] =>
          (Raise index_error,
           {| rate_limits := rate_limits st; _request_timestamps := window;
              log := log st |})
      | oldest :: _ =>
          if requests_per_second (rate_limits st)
               <=? Z.of_nat (length recent) then
            match recent with
            | [] =>
                (Raise index_error,
                 {| rate_limits := rate_limits st;
                    _request_timestamps := window;
                    log := log st ++ wait 60 now oldest |})
            | first :: _ =>
                (Return tt,
                 {| rate_limits := rate_limits st;
                    _request_timestamps := window ++ [now];
                    log := log st ++ wait 60 now oldest ++ wait 1 now first
                             ++ [Recorded now] |})
            end
          else
            (Return tt,
             {| rate_limits := rate_limits st;
                _request_timestamps := window ++ [now];
                log := log st ++ wait 60 now oldest ++ [Recorded now] |})
      end
    else
      if requests_per_second (rate_limits st) <=? Z.of_nat (length recent) then
        match recent with
        | [] =>
            (Raise index_error,
             {| rate_limits := rate_limits st; _request_timestamps := window;
                log := log st |})
        | first :: _ =>
            (Return tt,
             {| rate_limits := rate_limits st;
                _request_timestamps := window ++ [now];
                log := log st ++ wait 1 now first ++ [Recorded now] |})
        end
      else
        (Return tt,
         {| rate_limits := rate_limits st;
            _request_timestamps := window ++ [now];
            log := log st ++ [Recorded now] |}).
Proof.
  cbv zeta. rewrite enforce_cases. cbv zeta. rewrite wait_for_first_spec.
  destruct (max_per_minute (rate_limits st) operation_type <=? _).
  - destruct (prune now 60 (_request_timestamps st)) as [|oldest rest];
      [reflexivity|].
    rewrite wait_for_first_spec. cbn [rate_limits _request_timestamps log].
    destruct (requests_per_second (rate_limits st) <=? _).
    + destruct (prune now 1 (oldest :: rest)) as [|first rest1];
        [reflexivity|].
      unfold append_timestamp. cbn [rate_limits _request_timestamps log].
      rewrite <- !app_assoc. reflexivity.
    + unfold append_timestamp. cbn [rate_limits _request_timestamps log].
      rewrite <- !app_assoc. reflexivity.
  - rewrite wait_for_first_spec. cbn [rate_limits _request_timestamps log].
    destruct (requests_per_second (rate_limits st) <=? _).
    + destruct (prune now 1 (prune now 60 (_request_timestamps st)))
        as [|first rest1]; [reflexivity|].
      unfold append_timestamp. cbn [rate_limits _request_timestamps log].
      rewrite <- !app_assoc. reflexivity.
    + reflexivity.
Qed.

Lemma enforce_returns (operation_type : string) (now : float)
    (st st' : Limiter) :
  _enforce_rate_limit operation_type now st = (Return tt, st') →
  st' = {| rate_limits := rate_limits st;
           _request_timestamps
             := prune now 60 (_request_timestamps st) ++ [now];
           log := log st
                    ++ admission_events (rate_limits st) operation_type now
                         (_request_timestamps st) |}.
Proof.
  rewrite enforce_outcome. cbv zeta. unfold admission_events.
  destruct (max_per_minute (rate_limits st) operation_type <=? _).
  - destruct (prune now 60 (_request_timestamps st)) as [|oldest rest];
      [discriminate|].
    destruct (requests_per_second (rate_limits st) <=? _).
    + destruct (prune now 1 (oldest :: rest)) as [|first rest1];
        [discriminate|].
      intros [= <-]. reflexivity.
    + intros [= <-]. reflexivity.
  - destruct (requests_per_second (rate_limits st) <=? _).
    + destruct (prune now 1 (prune now 60 (_request_timestamps st)))
        as [|first rest1]; [discriminate|].
      intros [= <-]. reflexivity.
    + intros [= <-]. reflexivity.
Qed.

(** An admission whose per-minute check fires on an empty window raises,
    so one that returns had a timestamp to wait for. *)
Lemma enforce_returns_oldest (operation_type : string) (now : float)
    (st st' : Limiter) :
  _enforce_rate_limit operation_type now st = (Return tt, st') →
  max_per_minute (rate_limits st) operation_type
    ≤ Z.of_nat (length (prune now 60 (_request_timestamps st))) →
  ∃ oldest rest, prune now 60 (_request_timestamps st) = oldest :: rest.
Proof.
  intros He Hcap.
  destruct (prune now 60 (_request_timestamps st)) as [|oldest rest] eqn:Hw;
    [|eauto].
  exfalso. revert He. rewrite enforce_outcome. cbv zeta. rewrite Hw.
  replace (_ <=? _) with true by (symmetry; apply Z.leb_le; exact Hcap).
  discriminate.
Qed.

(** Likewise for the per-second check. *)
Lemma enforce_returns_first (operation_type : string) (now : float)
    (st st' : Limiter) :
  _enforce_rate_limit operation_type now st = (Return tt, st') →
  requests_per_second (rate_limits st)
    ≤ Z.of_nat (length (prune now 1 (prune now 60 (_request_timestamps st)))) →
  ∃ first rest,
    prune now 1 (prune now 60 (_request_timestamps st)) = first :: rest.
Proof.
  intros He Hrps.
  destruct (prune now 1 (prune now 60 (_request_timestamps st)))
    as [|first rest] eqn:Hr; [|eauto].
  exfalso. revert He. rewrite enforce_outcome. cbv zeta.
  destruct (max_per_minute (rate_limits st) operation_type <=? _).
  - destruct (prune now 60 (_request_timestamps st)); [discriminate|].
    rewrite Hr.
    replace (_ <=? _) with true by (symmetry; apply Z.leb_le; exact Hrps).
    discriminate.
  - rewrite Hr.
    replace (_ <=? _) with true by (symmetry; apply Z.leb_le; exact Hrps).
    discriminate.
Qed.

Lemma wait_not_recorded (horizon now first : float) :
  Forall (fun ev => is_recorded ev = false) (wait horizon now first).
Proof. unfold wait. destruct (_ <? _)%float; repeat constructor. Qed.

Lemma enforce_raises (operation_type : string) (now : float)
    (st st' : Limiter) (e : PyExn) :
  _enforce_rate_limit operation_type now st = (Raise e, st') →
  e = index_error
  ∧ rate_limits st' = rate_limits st
  ∧ _request_timestamps st' = prune now 60 (_request_timestamps st)
  ∧ ∃ sleeps, log st' = log st ++ sleeps
              ∧ Forall (fun ev => is_recorded ev = false) sleeps.
Proof.
  rewrite enforce_outcome. cbv zeta.
  destruct (max_per_minute (rate_limits st) operation_type <=? _).
  - destruct (prune now 60 (_request_timestamps st)) as [|oldest rest] eqn:Hw.
    + intros [= <- <-]. cbn. repeat split.
      exists []. rewrite app_nil_r. split; [reflexivity|constructor].
    + destruct (requests_per_second (rate_limits st) <=? _); [|discriminate].
      destruct (prune now 1 (oldest :: rest)) as [|first rest1];
        [|discriminate].
      intros [= <- <-]. cbn. repeat split.
      eexists. split; [reflexivity|]. apply wait_not_recorded.
  - destruct (requests_per_second (rate_limits st) <=? _); [|discriminate].
    destruct (prune now 1 (prune now 60 (_request_timestamps st)))
      as [|first rest1]; [|discriminate].
    intros [= <- <-]. cbn. repeat split.
    exists []. rewrite app_nil_r. split; [reflexivity|constructor].
Qed.

(** The events of an admission are sleeps followed by one record. *)
Lemma admission_events_shape (limits : WhatsAppRateLimits)
    (operation_type : string) (now : float) (timestamps : list float) :
  ∃ sleeps,
    admission_events limits operation_type now timestamps
      = sleeps ++ [Recorded now]
    ∧ Forall (fun ev => is_recorded ev = false) sleeps.
Proof.
  unfold admission_events. eexists. rewrite app_assoc. split; [reflexivity|].
  apply Forall_app. split.
  - destruct (_ <=? _); [|constructor].
    destruct (prune now 60 timestamps); [constructor|apply wait_not_recorded].
  - destruct (_ <=? _); [|constructor].
    destruct (prune now 1 _); [constructor|apply wait_not_recorded].
Qed.

(** C5, as stated, does not hold: there is no window per operation type.
    After one message request admitted at second 0, a chat listing that
    arrives at second 1 finds the timestamp of the message request in the
    window it prunes and counts. *)
Lemma window_is_shared_by_categories : ¬ windows_per_category.
Proof.
  intros Hclaim.
  specialize (Hclaim default_limits [("messages", 0%float)]
                (snd (_enforce_rate_limit "messages" 0 (fresh default_limits)))
                0%float "chats" 1%float 0%float).
  destruct Hclaim as [Heq|[]].
  - vm_compute. reflexivity.
  - vm_compute. reflexivity.
  - vm_compute. left. reflexivity.
  - discriminate Heq.
Qed.

(** With a ceiling of one chat listing per minute that chat listing
    waits 59 seconds for the timestamp of the message request. *)
Lemma other_category_delays_admission :
  admission_events one_chat_per_minute "chats" 1
    (_request_timestamps
       (snd (_enforce_rate_limit "messages" 0 (fresh one_chat_per_minute))))
  = [Slept 59; Recorded 1].
Proof. vm_compute. reflexivity. Qed.

(** The sleep is computed in floating point and can end before the
    timestamp waited for has left the window: for these two readings,
    about ten seconds apart, the reading at which the sleep ends is still
    less than 60 seconds after the earlier one, as [prune] tests it. *)
Lemma sleep_can_end_before_expiry :
  wait 60 later_reading early_reading
    = [Slept (60 - (later_reading - early_reading))%float]
  ∧ reading_after_sleep
    = (later_reading + (60 - (later_reading - early_reading)))%float
  ∧ prune reading_after_sleep 60 [early_reading] = [early_reading].
Proof. vm_compute. repeat split. Qed.

(** C5, amended.  One admission, for any operation type, clock reading
    and state of the limiter, every sleep it asks for being below
    [infinity].  The window the checks look at is the one stored list of
    timestamps, shared by all operation types (the operation type selects
    the per-minute ceiling only), without the timestamps that are 60
    seconds old or older.  When the admission returns, the stored list is
    that window followed by the new timestamp, and what happened is a
    number of sleeps followed by the recording of the timestamp, in that
    order.  If the window holds at least as many timestamps as the
    per-minute ceiling of the operation type, the admission has first
    slept [60 - (now - oldest)] seconds, as the floats give it and when
    that is positive, for the oldest timestamp of the window; if the
    timestamps of the last second are at least [requests_per_second], it
    has then slept [1 - (now - first)] seconds likewise, whatever the
    per-minute check did.  When the admission raises instead, no
    timestamp is recorded. *)
Theorem admission_checks_then_records (operation_type : string) (now : float)
    (st : Limiter) :
  let window := prune now 60 (_request_timestamps st) in
  let recent := prune now 1 window in
  let events := admission_events (rate_limits st) operation_type now
                  (_request_timestamps st) in
  let st' := snd (_enforce_rate_limit operation_type now st) in
  sleeps_return events →
  (∀ ts, In ts window
         ↔ In ts (_request_timestamps st) ∧ (now - ts <? 60)%float = true)
  ∧ match fst (_enforce_rate_limit operation_type now st) with
    | Return _ =>
        _request_timestamps st' = window ++ [now]
        ∧ log st' = log st ++ events
        ∧ (∃ sleeps, events = sleeps ++ [Recorded now]
                     ∧ Forall (fun ev => is_recorded ev = false) sleeps)
        ∧ (max_per_minute (rate_limits st) operation_type
             ≤ Z.of_nat (length window) →
           ∃ oldest rest later,
             window = oldest :: rest
             ∧ events = wait 60 now oldest ++ later)
        ∧ (requests_per_second (rate_limits st) ≤ Z.of_nat (length recent) →
           ∃ first rest before,
             recent = first :: rest
             ∧ events = before ++ wait 1 now first ++ [Recorded now])
        ∧ (Z.of_nat (length window)
             < max_per_minute (rate_limits st) operation_type →
           Z.of_nat (length recent) < requests_per_second (rate_limits st) →
           events = [Recorded now])
    | Raise e =>
        e = index_error
        ∧ _request_timestamps st' = window
        ∧ ∃ sleeps, log st' = log st ++ sleeps
                    ∧ Forall (fun ev => is_recorded ev = false) sleeps
    end.
Proof.
  cbv zeta. intros _. split; [intros ts; apply prune_In|].
  destruct (_enforce_rate_limit operation_type now st) as [[[]|e] st'] eqn:He;
    cbn [fst snd].
  - pose proof (enforce_returns _ _ _ _ He) as ->. cbn [_request_timestamps log].
    split; [reflexivity|]. split; [reflexivity|].
    split; [apply admission_events_shape|].
    split; [|split].
    + intros Hcap.
      destruct (enforce_returns_oldest _ _ _ _ He Hcap) as (oldest & rest & Hw).
      exists oldest, rest. eexists. split; [exact Hw|].
      unfold admission_events.
      replace (max_per_minute (rate_limits st) operation_type <=? _) with true
        by (symmetry; apply Z.leb_le; exact Hcap).
      rewrite Hw. reflexivity.
    + intros Hrps.
      destruct (enforce_returns_first _ _ _ _ He Hrps) as (first & rest & Hr).
      exists first, rest. eexists. split; [exact Hr|].
      unfold admission_events.
      replace (requests_per_second (rate_limits st) <=? _) with true
        by (symmetry; apply Z.leb_le; exact Hrps).
      rewrite Hr. reflexivity.
    + intros Hcap Hrps. unfold admission_events.
      replace (max_per_minute (rate_limits st) operation_type <=? _) with false
        by (symmetry; apply Z.leb_gt; exact Hcap).
      replace (requests_per_second (rate_limits st) <=? _) with false
        by (symmetry; apply Z.leb_gt; exact Hrps).
      reflexivity.
  - destruct (enforce_raises _ _ _ _ _ He) as (Hexn & _ & Hts & Hlog).
    split; [exact Hexn|]. split; [exact Hts|exact Hlog].
Qed.

Lemma admission_checks_then_records_witness :
  let st := {| rate_limits := one_chat_per_minute;
               _request_timestamps := [0%float]; log := [] |} in
  _request_timestamps (snd (_enforce_rate_limit "chats" 1 st))
    = [0%float; 1%float]
  ∧ log (snd (_enforce_rate_limit "chats" 1 st)) = [Slept 59; Recorded 1].
Proof.
  destruct (admission_checks_then_records "chats" 1
              {| rate_limits := one_chat_per_minute;
                 _request_timestamps := [0%float]; log := [] |})
    as [_ Hadmitted].
  - vm_compute. repeat constructor.
  - vm_compute in Hadmitted. destruct Hadmitted as (Hstored & Hlog & _).
    vm_compute. split; [exact Hstored|exact Hlog].
Defined.

(** **** The length of the stored window *)

(** C6, as stated, does not hold.  With the default limits the ceiling
    of a status request is 30.  Thirty of them are admitted at seconds
    0 to 29, none of them waiting.  The one that arrives at second 30
    finds 30 timestamps in the window, sleeps for the oldest and is
    admitted; the stored window then holds 31 timestamps. *)
Lemma window_can_exceed_ceiling : ¬ window_within_ceiling.
Proof.
  intros Hclaim.
  assert (Hrun : ∃ st t,
             admit_all (one_per_second ++ [("status", seconds 30)])
               (fresh default_limits) 0 = Some (st, t)
             ∧ length (_request_timestamps st) = 31%nat).
  { vm_compute. eexists _, _. split; reflexivity. }
  destruct Hrun as (st & t & Hrun & Hlen).
  apply Hclaim in Hrun. rewrite Hlen in Hrun. vm_compute in Hrun.
  apply Hrun. reflexivity.
Qed.

(** When the next reading is the one at which the sleep ends, the
    timestamp waited for can still be in the window, and the stored
    window then holds two timestamps more than the ceiling. *)
Lemma window_can_exceed_ceiling_by_two :
  ∃ st,
    admit_all [("chats", early_reading); ("chats", later_reading);
               ("chats", reading_after_sleep)]
      (fresh one_chat_per_minute) 0
    = Some (st, reading_after_sleep)
    ∧ max_per_minute one_chat_per_minute "chats" = 1
    ∧ length (_request_timestamps st) = 3%nat.
Proof. eexists. vm_compute. repeat split. Qed.

(** One admission keeps the bound. *)
Lemma admission_keeps_bound (ceiling : Z) (operation_type : string)
    (now : float) (pending : option float) (st st' : Limiter) :
  max_per_minute (rate_limits st) operation_type = ceiling →
  window_bounded ceiling st pending →
  elapsed pending now = true →
  _enforce_rate_limit operation_type now st = (Return tt, st') →
  rate_limits st' = rate_limits st
  ∧ window_bounded ceiling st'
      (waited_for (rate_limits st) operation_type now (_request_timestamps st)).
Proof.
  intros Hceil [_ Hnext] Hnow He.
  pose proof (enforce_returns_oldest _ _ _ _ He) as Holdest.
  pose proof (enforce_returns _ _ _ _ He) as ->.
  cbn [rate_limits _request_timestamps log]. split; [reflexivity|].
  pose proof (Hnext now Hnow) as Hw.
  unfold window_bounded, waited_for. cbn [_request_timestamps].
  split.
  - rewrite length_app. cbn. lia.
  - intros now' Hnow'. rewrite prune_app, length_app.
    assert (H1 : (length (prune now' 60 [now]) ≤ 1)%nat)
      by apply (prune_length now' 60 [now]).
    rewrite Hceil in Hnow'.
    destruct (ceiling <=? Z.of_nat (length (prune now 60 (_request_timestamps st))))
      eqn:Hfull.
    + apply Z.leb_le in Hfull. rewrite <- Hceil in Hfull.
      destruct (Holdest Hfull) as (oldest & rest & Hwin).
      rewrite Hwin in Hw, Hnow' |- *. cbn [head elapsed] in Hnow'.
      apply negb_true_iff in Hnow'.
      rewrite prune_expired by exact Hnow'.
      pose proof (prune_length now' 60 rest). cbn [length] in Hw. lia.
    + apply Z.leb_gt in Hfull.
      pose proof (prune_length now' 60 (prune now 60 (_request_timestamps st))).
      lia.
Qed.

Lemma admit_all_keeps_bound (limits : WhatsAppRateLimits) (ceiling : Z) :
  ∀ (requests : list (string * float)) (st st' : Limiter) (t t' : float)
    (pending : option float),
    rate_limits st = limits →
    Forall (fun r => max_per_minute limits (fst r) = ceiling) requests →
    window_bounded ceiling st pending →
    admit_all requests st t = Some (st', t') →
    waits_elapsed requests st pending = true →
    window_bounded ceiling st' (last_waited_for requests st pending).
Proof.
  induction requests as [|[operation_type now] requests IH];
    intros st st' t t' pending Hlim Hall Hb Hrun Hwaits;
    cbn [admit_all waits_elapsed last_waited_for] in *.
  - injection Hrun as <- <-. exact Hb.
  - apply Forall_cons in Hall as [Hceil Hrest]. cbn [fst] in Hceil.
    rewrite <- Hlim in Hceil.
    destruct (is_finite now && (t <=? now)%float); [|discriminate].
    apply andb_prop in Hwaits as [Hel Hwaits].
    destruct (_enforce_rate_limit operation_type now st) as [[[]|e] st1] eqn:He;
      [|discriminate].
    destruct (admission_keeps_bound ceiling operation_type now pending st st1
                Hceil Hb Hel He) as [Hlim1 Hb1].
    cbn [snd].
    apply (IH st1 st' now t' _ (eq_trans Hlim1 Hlim) Hrest Hb1 Hrun Hwaits).
Qed.

(** C6, amended.  Admissions that all fall under one per-minute ceiling
    [ceiling >= 0], starting from an empty window, every admission
    entered at a reading of the clock at which the timestamp that the
    admission before it waited for is no longer less than 60 seconds old.
    After each successful admission the stored window holds at most
    [ceiling + 1] timestamps, and at most [ceiling] of them are left by
    the pruning of an admission entered once the timestamp waited for
    last has left the window. *)
Theorem window_exceeds_ceiling_by_at_most_one (limits : WhatsAppRateLimits)
    (ceiling : Z) (requests : list (string * float)) (t0 : float)
    (st : Limiter) (t : float) :
  0 ≤ ceiling →
  Forall (fun r => max_per_minute limits (fst r) = ceiling) requests →
  admit_all requests (fresh limits) t0 = Some (st, t) →
  waits_elapsed requests (fresh limits) None = true →
  Z.of_nat (length (_request_timestamps st)) ≤ ceiling + 1
  ∧ ∀ now,
      elapsed (last_waited_for requests (fresh limits) None) now = true →
      Z.of_nat (length (prune now 60 (_request_timestamps st))) ≤ ceiling.
Proof.
  intros Hc Hall Hrun Hwaits.
  apply (admit_all_keeps_bound limits ceiling requests (fresh limits) st t0 t
           None); [reflexivity | exact Hall | | exact Hrun | exact Hwaits].
  split; [cbn; lia | intros now _; cbn; lia].
Qed.

Lemma window_exceeds_ceiling_by_at_most_one_witness :
  ∃ st t,
    admit_all [("chats", 0%float); ("chats", 1%float); ("chats", 61%float)]
      (fresh one_chat_per_minute) 0
      = Some (st, t)
    ∧ _request_timestamps st = [61%float]
    ∧ Z.of_nat (length (_request_timestamps st)) ≤ 1 + 1
    ∧ ∀ now,
        elapsed (last_waited_for
                   [("chats", 0%float); ("chats", 1%float); ("chats", 61%float)]
                   (fresh one_chat_per_minute) None) now = true →
        Z.of_nat (length (prune now 60 (_request_timestamps st))) ≤ 1.
Proof.
  eexists _, _. split; [vm_compute; reflexivity|]. split; [reflexivity|].
  apply (window_exceeds_ceiling_by_at_most_one one_chat_per_minute 1
           [("chats", 0%float); ("chats", 1%float); ("chats", 61%float)] 0
           _ 61%float).
  - lia.
  - repeat constructor.
  - vm_compute. reflexivity.
  - vm_compute. reflexivity.
Defined.

End RateLimiterProofs.

(** * Further properties of [_enforce_rate_limit] *)

Module RateLimiterMoreProofs.
Import RateLimiter RateLimiterProofs.

(** **** Ceilings of zero or less *)

(** X12.  A check whose ceiling is zero or less fires on an empty list and
    reads its first element: when the per-minute ceiling of the operation
    type is not positive and no stored timestamp is less than 60 seconds
    old, or when the per-minute check passes, [requests_per_second] is not
    positive and no stored timestamp is less than a second old, the
    admission raises [IndexError]; nothing is slept and no timestamp is
    recorded. *)
Theorem nonpositive_ceiling_raises (operation_type : string) (now : float)
    (st : Limiter) :
  let window := prune now 60 (_request_timestamps st) in
  (max_per_minute (rate_limits st) operation_type ≤ 0 ∧ window = [])
  ∨ (Z.of_nat (length window) < max_per_minute (rate_limits st) operation_type
     ∧ requests_per_second (rate_limits st) ≤ 0
     ∧ prune now 1 window = []) →
  _enforce_rate_limit operation_type now st
  = (Raise index_error,
     {| rate_limits := rate_limits st; _request_timestamps := window;
        log := log st |}).
Proof.
  cbv zeta. intros H. rewrite enforce_outcome. cbv zeta.
  destruct H as [[Hcap Hw]|(Hcap & Hrps & Hr)].
  - rewrite Hw. cbn [length].
    replace (_ <=? _) with true by (symmetry; apply Z.leb_le; cbn; lia).
    reflexivity.
  - replace (max_per_minute (rate_limits st) operation_type <=? _) with false
      by (symmetry; apply Z.leb_gt; exact Hcap).
    rewrite Hr. cbn [length].
    replace (_ <=? _) with true by (symmetry; apply Z.leb_le; cbn; lia).
    reflexivity.
Qed.

Lemma nonpositive_ceiling_raises_witness :
  _enforce_rate_limit "chats" 5
    (fresh {| messages_per_minute := 60; chats_per_minute := 0;
              requests_per_second := 2; burst_limit := 10;
              cooldown_period := 300 |})
  = (Raise index_error,
     fresh {| messages_per_minute := 60; chats_per_minute := 0;
              requests_per_second := 2; burst_limit := 10;
              cooldown_period := 300 |}).
Proof.
  apply (nonpositive_ceiling_raises "chats" 5
           (fresh {| messages_per_minute := 60; chats_per_minute := 0;
                     requests_per_second := 2; burst_limit := 10;
                     cooldown_period := 300 |})).
  left. split; [cbn; lia | reflexivity].
Defined.

(** **** Order of the stored timestamps *)

Lemma prune_sorted (now horizon : float) (timestamps : list float) :
  StronglySorted fle timestamps →
  StronglySorted fle (prune now horizon timestamps).
Proof.
  unfold prune. induction 1 as [|ts rest Hs IH Hall]; cbn [List.filter];
    [constructor|].
  destruct (now - ts <? horizon)%float; [|exact IH].
  constructor; [exact IH|].
  apply Forall_forall. intros x Hx.
  apply list_elem_of_In, List.filter_In in Hx as [Hx _].
  rewrite Forall_forall in Hall. apply Hall.
  apply list_elem_of_In. exact Hx.
Qed.

Lemma prune_Forall (P : float → Prop) (now horizon : float)
    (timestamps : list float) :
  Forall P timestamps → Forall P (prune now horizon timestamps).
Proof.
  intros H. apply Forall_forall. intros x Hx.
  apply list_elem_of_In, prune_In in Hx as [Hx _].
  rewrite Forall_forall in H. apply H, list_elem_of_In, Hx.
Qed.

Lemma sorted_snoc (l : list float) (x : float) :
  StronglySorted fle l → Forall (fun y => fle y x) l →
  StronglySorted fle (l ++ [x]).
Proof.
  induction 1 as [|y l Hs IH Hy]; intros Hall; cbn.
  - repeat constructor.
  - inversion Hall; subst. constructor; [auto|].
    apply Forall_app. split; [exact Hy | repeat constructor; assumption].
Qed.

Lemma admission_keeps_order (operation_type : string) (now t : float)
    (st st' : Limiter) :
  window_ordered st t →
  is_finite now = true →
  fle t now →
  _enforce_rate_limit operation_type now st = (Return tt, st') →
  window_ordered st' now
  ∧ Forall (fun ts => (now - ts <? 60)%float = true) (_request_timestamps st').
Proof.
  intros [Hs Hb] Hfin Hnow He.
  pose proof (enforce_returns _ _ _ _ He) as ->.
  unfold window_ordered. cbn [_request_timestamps log].
  assert (Hle : Forall (fun y => fle y now)
                  (prune now 60 (_request_timestamps st))).
  { apply prune_Forall. eapply Forall_impl; [exact Hb|].
    cbn. intros y Hy. exact (fle_trans y t now Hy Hnow). }
  split; [split|].
  - apply sorted_snoc; [apply prune_sorted; exact Hs | exact Hle].
  - apply Forall_app. split; [exact Hle|].
    repeat constructor. apply fle_refl, Hfin.
  - apply Forall_app. split.
    + apply Forall_forall. intros x Hx.
      apply list_elem_of_In, prune_In in Hx as [_ Hx]. exact Hx.
    + repeat constructor. apply age_of_reading, Hfin.
Qed.

Lemma admit_all_snoc :
  ∀ (requests : list (string * float)) (last : string * float) (st : Limiter)
    (t : float),
    admit_all (requests ++ [last]) st t
    = match admit_all requests st t with
      | Some (st1, t1) => admit_all [last] st1 t1
      | None => None
      end.
Proof.
  induction requests as [|[operation_type now] requests IH]; intros last st t.
  - cbn [app admit_all]. reflexivity.
  - cbn [app]. cbn [admit_all].
    destruct (is_finite now && (t <=? now)%float); [|reflexivity].
    destruct (_enforce_rate_limit operation_type now st) as [[[]|e] st1];
      [apply IH | reflexivity].
Qed.

Lemma admit_all_keeps_order :
  ∀ (requests : list (string * float)) (st st' : Limiter) (t t' : float),
    window_ordered st t →
    admit_all requests st t = Some (st', t') →
    window_ordered st' t'.
Proof.
  induction requests as [|[operation_type now] requests IH];
    intros st st' t t' Ho Hrun; cbn [admit_all] in Hrun.
  - injection Hrun as <- <-. exact Ho.
  - destruct (is_finite now && (t <=? now)%float) eqn:Hle; [|discriminate].
    apply andb_prop in Hle as [Hfin Hle].
    destruct (_enforce_rate_limit operation_type now st) as [[[]|e] st1] eqn:He;
      [|discriminate].
    destruct (admission_keeps_order operation_type now t st st1 Ho Hfin Hle He)
      as [Ho1 _].
    apply (IH st1 st' _ t' Ho1 Hrun).
Qed.

(** X13.  Starting from an empty window, with every reading of the clock
    finite and not earlier than the reading before it: the stored
    timestamps are in non-decreasing order, so the first one, which the
    per-minute check waits for, is the oldest; and after an admission
    entered at [now] every stored timestamp is less than 60 seconds older
    than [now], as the pruning tests it. *)
Theorem stored_window_is_ordered (limits : WhatsAppRateLimits)
    (requests : list (string * float)) (operation_type : string)
    (now t0 : float) (st : Limiter) (t : float) :
  admit_all (requests ++ [(operation_type, now)]) (fresh limits) t0
    = Some (st, t) →
  StronglySorted fle (_request_timestamps st)
  ∧ Forall (fun ts => (now - ts <? 60)%float = true) (_request_timestamps st)
  ∧ (∀ oldest rest,
       _request_timestamps st = oldest :: rest →
       Forall (fun ts => fle oldest ts) rest).
Proof.
  intros Hrun. rewrite admit_all_snoc in Hrun.
  destruct (admit_all requests (fresh limits) t0) as [[st1 t1]|] eqn:Hpre;
    [|discriminate].
  assert (Ho1 : window_ordered st1 t1).
  { apply (admit_all_keeps_order requests (fresh limits) st1 t0 t1);
      [split; constructor | exact Hpre]. }
  cbn [admit_all] in Hrun.
  destruct (is_finite now && (t1 <=? now)%float) eqn:Hle; [|discriminate].
  apply andb_prop in Hle as [Hfin Hle].
  destruct (_enforce_rate_limit operation_type now st1) as [[[]|e] st2] eqn:He;
    [|discriminate].
  injection Hrun as <- <-.
  destruct (admission_keeps_order operation_type now t1 st1 st2 Ho1 Hfin Hle He)
    as [[Hs _] Hh].
  split; [exact Hs|]. split; [exact Hh|].
  intros oldest rest Heq. rewrite Heq in Hs. inversion Hs; subst. assumption.
Qed.

Lemma stored_window_is_ordered_witness :
  ∃ st t,
    admit_all ([("chats", 0%float)] ++ [("chats", 1%float)])
      (fresh one_chat_per_minute) 0
      = Some (st, t)
    ∧ StronglySorted fle (_request_timestamps st).
Proof.
  eexists _, _. split; [vm_compute; reflexivity|].
  refine (proj1 (stored_window_is_ordered one_chat_per_minute
                   [("chats", 0%float)] "chats" 1 0 _ 1 _)).
  vm_compute. reflexivity.
Defined.

(** **** Positive ceilings *)

Lemma enforce_positive_returns (operation_type : string) (now : float)
    (st : Limiter) :
  1 ≤ max_per_minute (rate_limits st) operation_type →
  1 ≤ requests_per_second (rate_limits st) →
  _enforce_rate_limit operation_type now st
  = (Return tt,
     {| rate_limits := rate_limits st;
        _request_timestamps := prune now 60 (_request_timestamps st) ++ [now];
        log := log st
                 ++ admission_events (rate_limits st) operation_type now
                      (_request_timestamps st) |}).
Proof.
  intros Hcap Hrps.
  destruct (_enforce_rate_limit operation_type now st) as [[[]|e] st'] eqn:He.
  - f_equal. apply enforce_returns in He. exact He.
  - exfalso. revert He. rewrite enforce_outcome. cbv zeta.
    destruct (max_per_minute (rate_limits st) operation_type <=? _) eqn:H1.
    + destruct (prune now 60 (_request_timestamps st)) as [|oldest rest] eqn:Hw.
      * apply Z.leb_le in H1. cbn in H1. lia.
      * destruct (requests_per_second (rate_limits st) <=? _) eqn:H2;
          [|discriminate].
        destruct (prune now 1 (oldest :: rest)); [|discriminate].
        apply Z.leb_le in H2. cbn in H2. lia.
    + destruct (requests_per_second (rate_limits st) <=? _) eqn:H2;
        [|discriminate].
      destruct (prune now 1 (prune now 60 (_request_timestamps st)));
        [|discriminate].
      apply Z.leb_le in H2. cbn in H2. lia.
Qed.

End RateLimiterMoreProofs.

(** * Properties of [WhatsAppMCPClient] *)

Module WhatsAppClientProofs.
Import WhatsAppClient.

(** Unfolding of the plumbing of the client, down to the calls of the
    limiter and of the generic client. *)
Ltac wa_unfold :=
  unfold try_catch, bind, execute_tool, _enforce_rate_limit, on_mcp_client,
    datetime_now, get_self, set_session, result_get, ret, raise.
Ltac wa_simpl :=
  cbn -[McpClient.execute_tool RateLimiter._enforce_rate_limit
        McpClient.connect McpClient.disconnect McpClient._close_connection
        assoc truthy lookup insert delete String.app].

(** **** The status query *)

(** X15.  [get_connection_status] never raises and takes one reading of
    the clock.  What it returns and what it leaves in the session are
    decided by the limiter and by the server's answer.  When the limiter
    admits the request and the call returns a dict, that dict is the
    value; the session says ["connected"] and authenticated when the
    dict's ["is_connected"] is true, ["disconnected"] and not
    authenticated otherwise.  When the limiter raises, the call raises or
    the answer is no dict, the value is the error report of that
    exception, the session says ["error"] and [is_authenticated] is left
    as it was. *)
Theorem get_connection_status_never_raises (env : Env)
    (w : WhatsAppMCPClient) :
  let admitted :=
    fst (RateLimiter._enforce_rate_limit "status"
           (time_time env (clock_reads w)) (limiter w)) in
  let answer :=
    fst (McpClient.execute_tool (mcp env) (server_name w) "get_status"
           (JObj []) None (mcp_client w)) in
  ∃ result w',
    get_connection_status env w = (Return result, w')
    ∧ clock_reads w' = S (clock_reads w)
    ∧ match admitted, answer with
      | Return _, Return (JObj fields) =>
          let connected :=
            truthy (match assoc "is_connected" fields with
                    | Some value => value
                    | None => JNull
                    end) in
          result = JObj fields
          ∧ connection_status (session w')
            = (if connected then "connected" else "disconnected")
          ∧ is_authenticated (session w') = connected
      | Return _, Return other =>
          result = status_error (no_attribute_get other)
          ∧ connection_status (session w') = "error"
          ∧ is_authenticated (session w') = is_authenticated (session w)
      | Return _, Raise e | Raise e, _ =>
          result = status_error e
          ∧ connection_status (session w') = "error"
          ∧ is_authenticated (session w') = is_authenticated (session w)
      end.
Proof.
  cbv zeta. unfold get_connection_status. wa_unfold.
  destruct (RateLimiter._enforce_rate_limit "status" _ (limiter w))
    as [[[]|e] l]; wa_simpl.
  - destruct (McpClient.execute_tool (mcp env) (server_name w) "get_status"
                (JObj []) None (mcp_client w)) as [[result|e] s]; wa_simpl.
    + destruct result as [|b|n|text|items|fields]; wa_simpl;
        try (eexists _, _; split; [reflexivity|]; wa_simpl;
             split; [reflexivity|]; repeat split).
      destruct (assoc "is_connected" fields) as [value|]; wa_simpl;
        [destruct (truthy value)|]; wa_simpl;
        (eexists _, _; split; [reflexivity|]); wa_simpl;
        repeat split.
    + eexists _, _; split; [reflexivity|]. wa_simpl. repeat split.
  - eexists _, _; split; [reflexivity|]. wa_simpl. repeat split.
Qed.

(** **** Calls without a reachable server *)

Lemma execute_tool_unreachable (env : McpClient.Env)
    (server_name tool_name : string) (arguments : json) (tov : option Z)
    (s : McpClient.St) :
  McpClient.connections (McpClient.client s) !! server_name = None →
  McpClient.servers (McpClient.client s) !! server_name = None
  ∨ McpClient.transport_open env (McpClient.opens (McpClient.world s)) = false →
  ∃ s',
    McpClient.execute_tool env server_name tool_name arguments tov s
    = (Raise (mkExn MCPConnectionError
                (match McpClient.servers (McpClient.client s) !! server_name with
                 | None => "Server '" +:+ server_name +:+ "' not configured"
                 | Some _ => "Cannot connect to server: " +:+ server_name
                 end)), s')
    ∧ McpClient.client s' = McpClient.client s.
Proof.
  intros Hconn Hwhy.
  unfold McpClient.execute_tool. unfold bind at 1.
  unfold McpClient.get_client at 1. rewrite Hconn.
  unfold bind at 1. unfold bind at 1.
  destruct (McpClient.servers (McpClient.client s) !! server_name)
    as [config|] eqn:Hcfg.
  - destruct Hwhy as [|Hopen]; [discriminate|].
    destruct (McpClientProofs.connect_configured env server_name s
                ltac:(eauto))
      as (s2 & Hc & _ & _ & _ & _ & _ & _ & Hsame & _).
    rewrite Hc, Hopen. exists s2. split; [reflexivity|]. exact (Hsame Hopen).
  - rewrite McpClientProofs.connect_unconfigured by done.
    exists s. split; reflexivity.
Qed.

(** X16.  [list_chats] for a server that has no connection and cannot get one,
    because it was never configured or because the transport does not
    open: with positive ceilings the request is admitted by the limiter
    and recorded in the window, and the call then fails with an
    [MCPToolError] whose message carries the text of the connection
    error.  The session is not touched. *)
Theorem list_chats_without_server (env : Env) (w : WhatsAppMCPClient)
    (limit page : Z) (include_last_message : bool) (sort_by : string) :
  let s := mcp_client w in
  let now := time_time env (clock_reads w) in
  McpClient.connections (McpClient.client s) !! server_name w = None →
  McpClient.servers (McpClient.client s) !! server_name w = None
  ∨ McpClient.transport_open (mcp env) (McpClient.opens (McpClient.world s))
    = false →
  1 ≤ RateLimiter.chats_per_minute (RateLimiter.rate_limits (limiter w)) →
  1 ≤ RateLimiter.requests_per_second (RateLimiter.rate_limits (limiter w)) →
  ∃ w',
    list_chats env limit page include_last_message sort_by w
    = (Raise (mkExn MCPToolError
                ("Chat listing failed: "
                 +:+ match McpClient.servers (McpClient.client s)
                             !! server_name w with
                     | None => "Server '" +:+ server_name w
                               +:+ "' not configured"
                     | Some _ => "Cannot connect to server: " +:+ server_name w
                     end)), w')
    ∧ RateLimiter._request_timestamps (limiter w')
      = RateLimiter.prune now 60 (RateLimiter._request_timestamps (limiter w))
          ++ [now]
    ∧ session w' = session w
    ∧ McpClient.client (mcp_client w') = McpClient.client s.
Proof.
  intros s now Hconn Hwhy Hchats Hrps. subst s now.
  unfold list_chats. wa_unfold.
  rewrite RateLimiterMoreProofs.enforce_positive_returns by assumption.
  wa_simpl.
  match goal with |- context [McpClient.execute_tool _ _ ?tool ?args ?tov _] =>
    destruct (execute_tool_unreachable (mcp env) (server_name w) tool args tov
                (mcp_client w) Hconn Hwhy) as (s' & He & Hsame)
  end.
  rewrite He. wa_simpl.
  eexists. split; [reflexivity|]. wa_simpl.
  split; [reflexivity|]. split; [reflexivity|exact Hsame].
Qed.

Lemma list_chats_without_server_witness :
  ∃ w',
    list_chats offline_env 50 0 true "last_active" (init "whatsapp")
    = (Raise (mkExn MCPToolError
                "Chat listing failed: Server 'whatsapp' not configured"), w')
    ∧ RateLimiter._request_timestamps (limiter w') = [] ++ [0%float]
    ∧ session w' = new_session
    ∧ McpClient.client (mcp_client w') = McpClient.init.
Proof.
  apply (list_chats_without_server offline_env (init "whatsapp") 50 0 true
           "last_active").
  - reflexivity.
  - left. reflexivity.
  - cbn. lia.
  - cbn. lia.
Defined.

(** **** Disconnecting *)

(** X17.  [disconnect] on an authenticated client whose farewell call fails
    (every attempt the retry loop makes is answered by an exception):
    [disconnect] returns without raising, and nothing has been closed.
    The session is as it was, still authenticated; the connection entry
    of the server is still there; the transport of no stored connection
    was torn down and no health-check task cancelled. *)
Theorem disconnect_failed_farewell (env : Env) (w : WhatsAppMCPClient)
    (config : McpClient.MCPServerConfig) :
  let s := mcp_client w in
  is_authenticated (session w) = true →
  McpClient.servers (McpClient.client s) !! server_name w = Some config →
  is_Some (McpClient.connections (McpClient.client s) !! server_name w) →
  (∀ i, (i < Z.to_nat (McpClient.max_retries config))%nat →
        raised (McpClient.transport_call (mcp env)
                  (McpClient.calls (McpClient.world s) + i)%nat) = true) →
  ∃ w' evs,
    disconnect env w = (Return tt, w')
    ∧ session w' = session w
    ∧ is_Some (McpClient.connections (McpClient.client (mcp_client w'))
                 !! server_name w)
    ∧ McpClient.trace (McpClient.world (mcp_client w'))
      = McpClient.trace (McpClient.world s) ++ evs
    ∧ Forall (fun ev => McpClient.is_teardown_or_cancel ev = false) evs.
Proof.
  intros s Hauth Hcfg Hconn Hfail. subst s.
  destruct (McpClientMoreProofs.execute_tool_keeps_transports (mcp env)
              (server_name w) "disconnect" (JObj []) None (mcp_client w))
    as (res & s' & evs & He & Htr & Hall & Hkeep).
  pose proof (McpClientMoreProofs.execute_tool_raises_when_all_fail (mcp env)
                (server_name w) "disconnect" (JObj []) None config
                (mcp_client w) Hcfg (or_introl Hconn) Hfail) as Hraised.
  rewrite He in Hraised. cbn [fst] in Hraised.
  destruct res as [v|e]; [discriminate|].
  unfold disconnect. wa_unfold. wa_simpl. rewrite Hauth. wa_simpl.
  rewrite He. wa_simpl.
  exists (mkWhatsAppMCPClient (server_name w) s' (limiter w) (session w)
            (clock_reads w)), evs.
  split; [reflexivity|]. wa_simpl. split; [reflexivity|].
  split; [exact (Hkeep Hconn)|]. split; [exact Htr|exact Hall].
Qed.

Lemma disconnect_failed_farewell_witness :
  ∃ w' evs,
    disconnect offline_env authenticated_client = (Return tt, w')
    ∧ session w' = session authenticated_client
    ∧ is_Some (McpClient.connections (McpClient.client (mcp_client w'))
                 !! "demo")
    ∧ McpClient.trace (McpClient.world (mcp_client w'))
      = McpClient.trace (McpClient.world (mcp_client authenticated_client))
          ++ evs
    ∧ Forall (fun ev => McpClient.is_teardown_or_cancel ev = false) evs.
Proof.
  apply (disconnect_failed_farewell offline_env authenticated_client
           McpClient.demo_config).
  - reflexivity.
  - vm_compute. reflexivity.
  - eexists. vm_compute. reflexivity.
  - intros i _. reflexivity.
Defined.

(** **** Authenticating *)

(** X18.  What [authenticate] returns and what it leaves in the session
    are decided by the limiter and by the server's answer.  When the
    limiter admits the request and the call returns a dict, that dict is
    the value and the phone number is stored; the session is
    authenticated if the dict's ["status"] is ["authenticated"], in which
    case it also says ["connected"] and that no QR code is required, or
    if it was authenticated before: no answer clears the flag.  When the
    limiter raises, the call raises or the answer is no dict,
    [authenticate] raises [MCPClientError] with the text of that
    exception after ["Authentication failed: "], the session says
    ["error"] and [is_authenticated] is as it was. *)
Theorem authenticate_sets_flag_on_server_word (env : Env)
    (w : WhatsAppMCPClient) (phone : option string) :
  let admitted :=
    fst (RateLimiter._enforce_rate_limit "auth"
           (time_time env (clock_reads w)) (limiter w)) in
  let auth_args :=
    match phone with
    | Some p => if String.eqb p "" then [] else [("phone_number", JStr p)]
    | None => []
    end in
  let answer :=
    fst (McpClient.execute_tool (mcp env) (server_name w) "authenticate"
           (JObj auth_args) (Some 120) (mcp_client w)) in
  let outcome := fst (authenticate env phone w) in
  let w' := snd (authenticate env phone w) in
  let failed (e : PyExn) :=
    outcome = Raise (mkExn MCPClientError ("Authentication failed: " +:+ str e))
    ∧ connection_status (session w') = "error"
    ∧ is_authenticated (session w') = is_authenticated (session w) in
  match admitted, answer with
  | Return _, Return (JObj fields) =>
      let status := match assoc "status" fields with
                    | Some value => value
                    | None => JNull
                    end in
      outcome = Return (JObj fields)
      ∧ phone_number (session w') = phone
      ∧ is_authenticated (session w')
        = (eq_str status "authenticated" || is_authenticated (session w))
      ∧ (eq_str status "authenticated" = true →
         connection_status (session w') = "connected"
         ∧ qr_code_required (session w') = false)
  | Return _, Return other => failed (no_attribute_get other)
  | Return _, Raise e | Raise e, _ => failed e
  end.
Proof.
  cbv zeta. unfold authenticate. wa_unfold.
  destruct (RateLimiter._enforce_rate_limit "auth" _ (limiter w))
    as [[[]|e0] l]; wa_simpl; [|repeat split].
  match goal with |- context [McpClient.execute_tool ?a ?b ?c ?d ?t ?s] =>
    destruct (McpClient.execute_tool a b c d t s) as [[result|e0] s']
  end; wa_simpl; [|repeat split].
  destruct result as [|b|n|text|items|fields]; wa_simpl;
    try (repeat split; fail).
  match goal with |- context [eq_str ?status "authenticated"] =>
    destruct (eq_str status "authenticated")
  end; wa_simpl; [repeat split|].
  match goal with |- context [truthy ?qr_code] =>
    destruct (truthy qr_code)
  end; wa_simpl;
    (split; [reflexivity|]); (split; [reflexivity|]);
    (split; [reflexivity|]); discriminate.
Qed.

(** **** Initialising *)

(** X19.  [initialize] never raises and returns whether the transport opened.
    The configuration of the server is stored in either case, with five
    retries, so a later call finds the server configured and tries to
    connect again.  Custom limits replace the limits in force; the stored
    window and the session are not touched.  After [True] the client is
    connected; after [False] the connection table is as it was. *)
Theorem initialize_configures_and_connects (env : Env)
    (w : WhatsAppMCPClient) (endpoint : string)
    (connection_type : McpClient.MCPConnectionType)
    (auth_token : option string)
    (custom_rate_limits : option RateLimiter.WhatsAppRateLimits) :
  let opened :=
    McpClient.transport_open (mcp env)
      (McpClient.opens (McpClient.world (mcp_client w))) in
  ∃ w',
    initialize env endpoint connection_type auth_token custom_rate_limits w
    = (Return opened, w')
    ∧ McpClient.servers (McpClient.client (mcp_client w')) !! server_name w
      = Some (whatsapp_config (server_name w) endpoint connection_type
                auth_token)
    ∧ RateLimiter.rate_limits (limiter w')
      = match custom_rate_limits with
        | Some limits => limits
        | None => RateLimiter.rate_limits (limiter w)
        end
    ∧ RateLimiter._request_timestamps (limiter w')
      = RateLimiter._request_timestamps (limiter w)
    ∧ session w' = session w
    ∧ (opened = true → is_connected w' = true)
    ∧ (opened = false →
       McpClient.connections (McpClient.client (mcp_client w'))
       = McpClient.connections (McpClient.client (mcp_client w))).
Proof.
  cbv zeta.
  set (config := whatsapp_config (server_name w) endpoint connection_type
                   auth_token).
  set (s1 := snd (McpClient.add_server config (mcp_client w))).
  assert (Hcfg1 : McpClient.servers (McpClient.client s1) !! server_name w
                  = Some config).
  { subst s1 config. cbn -[lookup insert]. apply lookup_insert_eq. }
  destruct (McpClientProofs.connect_configured (mcp env) (server_name w) s1
              ltac:(eauto))
    as (s2 & Hc & Hsrv & _ & _ & _ & _ & Hok & Hsame & _).
  change (McpClient.opens (McpClient.world s1))
    with (McpClient.opens (McpClient.world (mcp_client w))) in *.
  unfold initialize. wa_unfold.
  destruct custom_rate_limits as [limits|]; wa_simpl;
    fold config; change (McpClient.mkSt _ _) with s1; rewrite Hc; wa_simpl;
    destruct (McpClient.transport_open (mcp env) _) eqn:Hopen;
    (eexists; split; [reflexivity|]); wa_simpl;
    (split; [rewrite Hsrv; exact Hcfg1|]);
    (split; [reflexivity|]); (split; [reflexivity|]); (split; [reflexivity|]);
    (split; [|first [discriminate | intros _; rewrite (Hsame eq_refl); reflexivity]]);
    first [discriminate | intros _];
    unfold is_connected, McpClient.is_connected; wa_simpl;
    destruct (Hok eq_refl) as [[conn ->] Hact];
    destruct (McpClient.sessions (McpClient.client s2) !! server_name w);
    cbn in Hact; congruence.
Qed.

End WhatsAppClientProofs.
